(** * Corpochain beacon client: consensus core

    A shallow embedding of the consensus modules of the beacon client
    ([consensus/block_rewards.py], [consensus/block_body_validation.py],
    [consensus/blockchain.py], [consensus/multiprocess_validation.py],
    [consensus/blockchain_interface.py], [util/block_cache.py]) together
    with the properties the design document states about them.

    Conventions.
    - Python integers are [Z]; the sized integer classes ([uint32],
      [uint64], ...) are range-checked constructors.
    - [bytes32] / [bytes20] values are read as unsigned numbers.
    - A Python [dict] is a [gmap], a Python [set] a [gset].
    - A call either returns, raises, or (for the [while] loops, which are
      run with fuel) runs out of fuel: see [outcome]. *)

From Stdlib Require Import ZArith Lia.
From Stdlib Require Import Floats.SpecFloat.
From stdpp Require Import gmap strings list fin_maps.

Local Open Scope Z_scope.

(* ===================================================================== *)
(** * Part I: definitions                                                 *)
(* ===================================================================== *)

(** ** Outcomes of a call *)

Inductive PyExn : Type :=
| KeyError
| ValueError
| AssertionError
| IndexError
| ZeroDivisionError
| OverflowError.

Inductive outcome (A : Type) : Type :=
| Returned (a : A)
| Raised (e : PyExn)
| OutOfFuel.

Arguments Returned {A} a.
Arguments Raised {A} e.
Arguments OutOfFuel {A}.

#[global] Instance PyExn_eq_dec : EqDecision PyExn.
Proof. solve_decision. Defined.

#[global] Instance outcome_ret : MRet outcome := fun _ a => Returned a.

#[global] Instance outcome_bind : MBind outcome := fun _ _ f m =>
  match m with
  | Returned a => f a
  | Raised e => Raised e
  | OutOfFuel => OutOfFuel
  end.

(** ** Sized integers ([util/ints]): construction checks the range *)

Abbreviation bytes32 := Z (only parsing).
Abbreviation bytes20 := Z (only parsing).

Definition sized_uint (bits : Z) (v : Z) : outcome Z :=
  if bool_decide (0 <= v < 2 ^ bits) then Returned v else Raised ValueError.

Definition uint16 : Z -> outcome Z := sized_uint 16.
Definition uint32 : Z -> outcome Z := sized_uint 32.
Definition uint64 : Z -> outcome Z := sized_uint 64.
Definition uint128 : Z -> outcome Z := sized_uint 128.

(** ** Python floats (IEEE 754 binary64, round to nearest even) *)

Definition py_float : Type := spec_float.

(** [float(z)] for an integer [z] *)
Definition float_of_int (z : Z) : py_float := binary_normalize 53 1024 z 0 false.

(** The literal whose value is [m * 2^e]: [0.5] is [float_lit 1 (-1)],
    [0.25] is [float_lit 1 (-2)], [0.125] is [float_lit 1 (-3)]. *)
Definition float_lit (m e : Z) : py_float := binary_normalize 53 1024 m e false.

Definition float_mul : py_float -> py_float -> py_float := SFmul 53 1024.

(** [int(x)] for a float [x]: truncation towards zero; infinities and NaN
    raise. *)
Definition int_of_float (x : py_float) : outcome Z :=
  match x with
  | S754_zero _ => Returned 0
  | S754_infinity _ => Raised OverflowError
  | S754_nan => Raised ValueError
  | S754_finite s m e =>
      let mag := if 0 <=? e then Z.pos m * 2 ^ e else Z.pos m / 2 ^ (- e) in
      Returned (if s then - mag else mag)
  end.

(** [uint64(x)] for a float [x] *)
Definition uint64_of_float (x : py_float) : outcome Z :=
  int_of_float x ≫= uint64.

(** ** Consensus data ([constants.py], block records) *)

Record ConsensusConstants : Type := {
  MAX_SUB_SLOT_BLOCKS : Z;
  SUB_EPOCH_BLOCKS : Z;
  DIFFICULTY_CONSTANT_FACTOR : Z;
  NUMBER_OF_TIMESTAMPS : Z;
  GENESIS_CHALLENGE : bytes32;
  BLOCKS_CACHE_SIZE : Z;
  PREFARM_ADDRESS : bytes20;
  PREFARM_AMOUNT : Z;
}.

(** A sub-epoch summary is only compared through its hash. *)
Record SubEpochSummary : Type := { ses_get_hash : bytes32 }.

Record BlockRecord : Type := {
  header_hash : bytes32;
  prev_hash : bytes32;
  height : Z;
  weight : Z;
  total_iters : Z;
  signage_point_index : Z;
  required_iters : Z;
  deficit : Z;
  overflow : bool;
  first_in_sub_slot : bool;
  is_transaction_block : bool;
  sub_slot_iters : Z;
  sub_epoch_summary_included : option SubEpochSummary;
  finished_challenge_slot_hashes : option (list bytes32);
  finished_reward_slot_hashes : option (list bytes32);
  last_withdrawal_index : option Z;
  coinbase : bytes20;
  reward_infusion_new_challenge : bytes32;
}.

#[global] Instance SubEpochSummary_eq_dec : EqDecision SubEpochSummary.
Proof. solve_decision. Defined.

#[global] Instance BlockRecord_eq_dec : EqDecision BlockRecord.
Proof. solve_decision. Defined.

(** ** [blockchain_interface.py]: the view of block records *)

(** [remove_block_record] mutates the view and may raise part-way: it
    gives its outcome together with the view as it leaves it. *)
Class BlockchainInterface (V : Type) : Type := {
  contains_block : V -> bytes32 -> bool;
  block_record : V -> bytes32 -> outcome BlockRecord;
  add_block_record : V -> BlockRecord -> V;
  remove_block_record : V -> bytes32 -> outcome unit * V;
}.

(** [BlockchainInterface.try_block_record] *)
Definition try_block_record {V} `{BlockchainInterface V}
    (self : V) (hh : bytes32) : outcome (option BlockRecord) :=
  if contains_block self hh then r ← block_record self hh; Returned (Some r)
  else Returned None.

(** Subscripting a dict: [d[k]] raises [KeyError] on a missing key. *)
Definition dict_get `{Countable K} {A} (d : gmap K A) (k : K) : outcome A :=
  match d !! k with
  | Some a => Returned a
  | None => Raised KeyError
  end.

(** [del d[k]] *)
Definition dict_del `{Countable K} {A} (d : gmap K A) (k : K) : outcome (gmap K A) :=
  match d !! k with
  | Some _ => Returned (delete k d)
  | None => Raised KeyError
  end.

(** ** [util/block_cache.py] *)

Record BlockCache : Type := { _block_records : gmap Z BlockRecord }.

#[global] Instance BlockCache_interface : BlockchainInterface BlockCache := {
  contains_block self hh := bool_decide (is_Some (_block_records self !! hh));
  block_record self hh := dict_get (_block_records self) hh;
  add_block_record self block :=
    {| _block_records := <[header_hash block := block]> (_block_records self) |};
  remove_block_record self hh :=
    match dict_del (_block_records self) hh with
    | Returned d => (Returned tt, {| _block_records := d |})
    | Raised e => (Raised e, self)
    | OutOfFuel => (OutOfFuel, self)
    end;
}.

(** ** [consensus/block_rewards.py] *)

(** [WithdrawalV1(index, validator_index, address, amount)] *)
Record WithdrawalV1 : Type := {
  wd_index : Z;
  wd_validator_index : Z;
  wd_address : bytes20;
  wd_amount : Z;
}.

Definition _corpochain_to_gwei : Z := 1000000000.
Definition _blocks_per_year : Z := 4608 * 2 * 365.

Definition _calculate_block_reward (height : Z) : outcome Z :=
  if height <? 3 * _blocks_per_year then
    uint64 (2 * _corpochain_to_gwei)
  else if height <? 6 * _blocks_per_year then
    uint64 (1 * _corpochain_to_gwei)
  else if height <? 9 * _blocks_per_year then
    uint64_of_float (float_mul (float_lit 1 (-1)) (float_of_int _corpochain_to_gwei))
  else if height <? 12 * _blocks_per_year then
    uint64_of_float (float_mul (float_lit 1 (-2)) (float_of_int _corpochain_to_gwei))
  else if height <? 15 * _blocks_per_year then
    uint64_of_float (float_mul (float_lit 1 (-3)) (float_of_int _corpochain_to_gwei))
  else
    uint64 0.

Definition create_withdrawals_prefarm (constants : ConsensusConstants)
    (prev_tx_block : BlockRecord) (next_wd_index : Z) : list WithdrawalV1 * Z :=
  if bool_decide (height prev_tx_block = 0) then
    ([ {| wd_index := next_wd_index;
          wd_validator_index := 0;
          wd_address := PREFARM_ADDRESS constants;
          wd_amount := PREFARM_AMOUNT constants * _corpochain_to_gwei |} ],
     next_wd_index + 1)
  else ([], next_wd_index).

(** The [while True] loop of [create_withdrawals]; one unit of fuel per
    iteration. *)
Fixpoint create_withdrawals_loop {V} `{BlockchainInterface V} (fuel : nat)
    (constants : ConsensusConstants) (blocks : V) (curr : BlockRecord)
    (next_wd_index : Z) (withdrawals : list WithdrawalV1)
    : outcome (list WithdrawalV1) :=
  match fuel with
  | O => OutOfFuel
  | S fuel' =>
      reward ← _calculate_block_reward (height curr);
      let withdrawals :=
        withdrawals ++ [ {| wd_index := next_wd_index;
                            wd_validator_index := 1;
                            wd_address := coinbase curr;
                            wd_amount := reward |} ] in
      let next_wd_index := next_wd_index + 1 in
      if bool_decide (prev_hash curr = GENESIS_CHALLENGE constants) then
        Returned withdrawals
      else
        curr' ← block_record blocks (prev_hash curr);
        if is_transaction_block curr' then Returned withdrawals
        else create_withdrawals_loop fuel' constants blocks curr' next_wd_index withdrawals
  end.

Definition create_withdrawals {V} `{BlockchainInterface V} (fuel : nat)
    (constants : ConsensusConstants) (prev_tx_block : BlockRecord) (blocks : V)
    : outcome (list WithdrawalV1) :=
  let next_wd_index :=
    match last_withdrawal_index prev_tx_block with
    | None => 0
    | Some i => i + 1
    end in
  let '(withdrawals, next_wd_index) :=
    create_withdrawals_prefarm constants prev_tx_block next_wd_index in
  create_withdrawals_loop fuel constants blocks prev_tx_block next_wd_index withdrawals.

(** ** Errors ([util/errors]) *)

(** The members of the [Err] enumeration that the consensus code names;
    every other member is kept by its numeric value. *)
Inductive Err : Type :=
| INVALID_PREV_BLOCK_HASH
| INVALID_HEIGHT
| INVALID_POSPACE
| INVALID_SUB_EPOCH_SUMMARY
| PAYLOAD_INVALIDATED
| PAYLOAD_NOT_VALIDATED
| UNKNOWN
| OTHER_ERR (code : Z).

#[global] Instance Err_eq_dec : EqDecision Err.
Proof. solve_decision. Defined.

(** ** Blocks ([types/full_block], [types/unfinished_block.py]) *)

Record ExecutionPayloadV2 : Type := { payload_block_hash : bytes32 }.

Record VDFInfo : Type := { output_get_hash : bytes32 }.

Record ProofOfSpace : Type := { pos_size : Z; pos_proof : Z }.

Record RewardChainBlock : Type := {
  rc_signage_point_index : Z;
  challenge_chain_sp_vdf : option VDFInfo;
  proof_of_space : ProofOfSpace;
}.

#[global] Instance ExecutionPayloadV2_eq_dec : EqDecision ExecutionPayloadV2.
Proof. solve_decision. Defined.
#[global] Instance VDFInfo_eq_dec : EqDecision VDFInfo.
Proof. solve_decision. Defined.
#[global] Instance ProofOfSpace_eq_dec : EqDecision ProofOfSpace.
Proof. solve_decision. Defined.
#[global] Instance RewardChainBlock_eq_dec : EqDecision RewardChainBlock.
Proof. solve_decision. Defined.

Module FullBlock.
(** [header_hash], [prev_header_hash], [height], [weight] and
    [total_iters] are the properties read off the foliage and the reward
    chain block; a finished sub-slot bundle is kept by its challenge-chain
    hash. *)
Record t : Type := {
  finished_sub_slots : list bytes32;
  reward_chain_block : RewardChainBlock;
  header_hash : bytes32;
  prev_header_hash : bytes32;
  height : Z;
  weight : Z;
  total_iters : Z;
  execution_payload : option ExecutionPayloadV2;
}.
End FullBlock.

Module UnfinishedBlock.
Record t : Type := {
  finished_sub_slots : list bytes32;
  reward_chain_block : RewardChainBlock;
  prev_header_hash : bytes32;
  execution_payload : option ExecutionPayloadV2;
}.
End UnfinishedBlock.

#[global] Instance FullBlock_eq_dec : EqDecision FullBlock.t.
Proof. solve_decision. Defined.

(** [Union[FullBlock, UnfinishedBlock]] *)
Inductive Block : Type :=
| Full (b : FullBlock.t)
| Unfinished (b : UnfinishedBlock.t).

Definition block_execution_payload (block : Block) : option ExecutionPayloadV2 :=
  match block with
  | Full b => FullBlock.execution_payload b
  | Unfinished b => UnfinishedBlock.execution_payload b
  end.

Definition is_FullBlock (block : Block) : bool :=
  match block with Full _ => true | Unfinished _ => false end.

Definition is_UnfinishedBlock (block : Block) : bool :=
  match block with Full _ => false | Unfinished _ => true end.

(** ** The execution client, as [validate_block_body] drives it *)

Inductive EngineCall : Type :=
| NewPayload (payload : ExecutionPayloadV2)
| ForkchoiceUpdate (new_head : BlockRecord).

(** The engine is an external process with hidden state: its answer to a
    call may depend on every call made before. [respond] is that
    dependency, [calls] the calls made so far (oldest first) and [config]
    the [beacon.config] dictionary. *)
Record ExecutionClient : Type := {
  respond : list EngineCall -> EngineCall -> string;
  calls : list EngineCall;
  config : gmap string bool;
}.

Definition engine_call (self : ExecutionClient) (c : EngineCall)
    : string * ExecutionClient :=
  (respond self (calls self) c,
   {| respond := respond self; calls := calls self ++ [c]; config := config self |}).

Definition new_payload (self : ExecutionClient) (payload : ExecutionPayloadV2) :=
  engine_call self (NewPayload payload).

Definition forkchoice_update (self : ExecutionClient) (new_head : BlockRecord) :=
  engine_call self (ForkchoiceUpdate new_head).

(** ** [consensus/block_body_validation.py] *)

Definition status_is (status : string) (s : string) : bool :=
  bool_decide (status = s).

(** The [if isinstance(block, FullBlock):] tail of [validate_block_body]. *)
Definition validate_block_body_forkchoice (execution_client : ExecutionClient)
    (block : Block) (block_record : option BlockRecord)
    : outcome (option Err) * ExecutionClient :=
  if is_FullBlock block then
    match block_record with
    | None => (Raised AssertionError, execution_client)
    | Some block_record =>
        let optimistic_import :=
          default true (config execution_client !! "optimistic_import") in
        let '(status, execution_client) :=
          forkchoice_update execution_client block_record in
        if status_is status "INVALID" || status_is status "INVALID_BLOCK_HASH" then
          (Returned (Some PAYLOAD_INVALIDATED), execution_client)
        else if status_is status "SYNCING" || status_is status "ACCEPTED" then
          if negb optimistic_import then
            (Returned (Some PAYLOAD_NOT_VALIDATED), execution_client)
          else (Returned None, execution_client)
        else if negb (status_is status "VALID") then
          (Returned (Some UNKNOWN), execution_client)
        else (Returned None, execution_client)
    end
  else (Returned None, execution_client).

Definition validate_block_body (execution_client : ExecutionClient)
    (block : Block) (height : Z) (block_record : option BlockRecord)
    : outcome (option Err) * ExecutionClient :=
  let height_ok :=
    match block with
    | Full b => bool_decide (height = FullBlock.height b)
    | Unfinished _ => true
    end in
  if negb height_ok then (Raised AssertionError, execution_client)
  else
    match block_execution_payload block with
    | None => (Returned None, execution_client)
    | Some payload =>
        let '(status, execution_client) := new_payload execution_client payload in
        if status_is status "INVALID" || status_is status "INVALID_BLOCK_HASH" then
          (Returned (Some PAYLOAD_INVALIDATED), execution_client)
        else if status_is status "SYNCING" || status_is status "ACCEPTED" then
          if is_UnfinishedBlock block then
            (Returned (Some PAYLOAD_NOT_VALIDATED), execution_client)
          else validate_block_body_forkchoice execution_client block block_record
        else if negb (status_is status "VALID") then
          (Returned (Some UNKNOWN), execution_client)
        else validate_block_body_forkchoice execution_client block block_record
    end.

(** ** The height map and the block store *)

Module BlockHeightMap.
(** Modelled from the spec: [beacon/block_height_map.py] is not among the
    sources. The design document (4.C) gives the canonical index
    [height -> header_hash] with sub-epoch-summary annotations. *)
Record t : Type := {
  height_to_hash : gmap Z Z;
  sub_epoch_summaries : gmap Z SubEpochSummary;
}.

(** Modelled from the spec: [contains_height(h)] of the missing height map. *)
Definition contains_height (self : t) (h : Z) : bool :=
  bool_decide (is_Some (height_to_hash self !! h)).

(** Modelled from the spec: [get_hash(h)] of the missing height map. *)
Definition get_hash (self : t) (h : Z) : outcome Z :=
  dict_get (height_to_hash self) h.

(** Modelled from the spec: [update_height(h, hash, ses?)] of the missing
    height map. *)
Definition update_height (self : t) (h : Z) (hh : Z)
    (ses : option SubEpochSummary) : t :=
  {| height_to_hash := <[h := hh]> (height_to_hash self);
     sub_epoch_summaries :=
       match ses with
       | Some s => <[h := s]> (sub_epoch_summaries self)
       | None => sub_epoch_summaries self
       end |}.

(** Modelled from the spec: [rollback(fork_height)] of the missing height
    map "drops all entries strictly above fork_height". *)
Definition rollback (self : t) (fork_height : Z) : t :=
  {| height_to_hash :=
       filter (fun kv => kv.1 <= fork_height) (height_to_hash self);
     sub_epoch_summaries :=
       filter (fun kv => kv.1 <= fork_height) (sub_epoch_summaries self) |}.

(** Modelled from the spec: [maybe_flush()] of the missing height map
    writes the index to disk and leaves the index itself as it is. *)
Definition maybe_flush (self : t) : t := self.
End BlockHeightMap.

Module BlockStore.
(** Modelled from the spec: [beacon/block_store.py] is not among the
    sources. The design document (4.B, 6) gives the persisted blocks and
    records, the chain-membership flag, the peak pointer, the sub-epoch
    summaries that [rollback] drops, and an internal memoization of full
    blocks. *)
Record t : Type := {
  full_blocks : gmap Z (FullBlock.t * BlockRecord);
  in_main_chain : gset Z;
  peak : option Z;
  sub_epoch_summaries : gmap Z SubEpochSummary;
  block_cache : gmap Z FullBlock.t;
}.

(** Modelled from the spec: [get_full_block(hash)] of the missing store. *)
Definition get_full_block (self : t) (hh : Z) : option FullBlock.t :=
  match block_cache self !! hh with
  | Some b => Some b
  | None => fst <$> full_blocks self !! hh
  end.

(** Modelled from the spec: [get_block_record(hash)] of the missing store. *)
Definition get_block_record (self : t) (hh : Z) : option BlockRecord :=
  snd <$> full_blocks self !! hh.

(** Modelled from the spec: [add_full_block(hash, FullBlock, BlockRecord)]
    of the missing store "writes row" and memoizes the block. *)
Definition add_full_block (self : t) (hh : Z) (block : FullBlock.t)
    (block_record : BlockRecord) : t :=
  {| full_blocks := <[hh := (block, block_record)]> (full_blocks self);
     in_main_chain := in_main_chain self;
     peak := peak self;
     sub_epoch_summaries := sub_epoch_summaries self;
     block_cache := <[hh := block]> (block_cache self) |}.

(** Modelled from the spec: [set_in_chain([hash])] of the missing store
    "marks records as canonical". *)
Definition set_in_chain (self : t) (hashes : list Z) : t :=
  {| full_blocks := full_blocks self;
     in_main_chain := in_main_chain self ∪ list_to_set hashes;
     peak := peak self;
     sub_epoch_summaries := sub_epoch_summaries self;
     block_cache := block_cache self |}.

(** Modelled from the spec: [set_peak(hash)] of the missing store. *)
Definition set_peak (self : t) (hh : Z) : t :=
  {| full_blocks := full_blocks self;
     in_main_chain := in_main_chain self;
     peak := Some hh;
     sub_epoch_summaries := sub_epoch_summaries self;
     block_cache := block_cache self |}.

(** Modelled from the spec: [rollback(height)] of the missing store "drops
    sub-epoch summaries strictly above height". *)
Definition rollback (self : t) (h : Z) : t :=
  {| full_blocks := full_blocks self;
     in_main_chain := in_main_chain self;
     peak := peak self;
     sub_epoch_summaries := filter (fun kv => kv.1 <= h) (sub_epoch_summaries self);
     block_cache := block_cache self |}.

(** Modelled from the spec: [rollback_cache_block(hash)] of the missing
    store evicts "a tentative insert from any internal memoization". *)
Definition rollback_cache_block (self : t) (hh : Z) : t :=
  {| full_blocks := full_blocks self;
     in_main_chain := in_main_chain self;
     peak := peak self;
     sub_epoch_summaries := sub_epoch_summaries self;
     block_cache := delete hh (block_cache self) |}.

(** Modelled from the spec: leaving the [writer()] scope on an error rolls
    the persisted tables back to what they were when the scope was
    entered; the memoization is in memory and is not rolled back. *)
Definition writer_rollback (before now : t) : t :=
  {| full_blocks := full_blocks before;
     in_main_chain := in_main_chain before;
     peak := peak before;
     sub_epoch_summaries := sub_epoch_summaries before;
     block_cache := block_cache now |}.
End BlockStore.

(** ** [consensus/blockchain.py]: the state of [Blockchain] *)

Inductive ReceiveBlockResult : Type :=
| NEW_PEAK
| ADDED_AS_ORPHAN
| INVALID_BLOCK
| ALREADY_HAVE_BLOCK
| DISCONNECTED_BLOCK.

Module StateChangeSummary.
Record t : Type := { peak : BlockRecord; fork_height : Z }.
End StateChangeSummary.

Module PreValidationResult.
Record t : Type := { error : option Z; required_iters : option Z }.
End PreValidationResult.

Record Blockchain : Type := {
  constants : ConsensusConstants;
  execution_client : ExecutionClient;
  _peak_height : option Z;
  __block_records : gmap Z BlockRecord;
  __heights_in_cache : gmap Z (gset Z);
  __height_map : BlockHeightMap.t;
  block_store : BlockStore.t;
}.

Definition set_cache (self : Blockchain) (records : gmap Z BlockRecord)
    (heights : gmap Z (gset Z)) : Blockchain :=
  {| constants := constants self;
     execution_client := execution_client self;
     _peak_height := _peak_height self;
     __block_records := records;
     __heights_in_cache := heights;
     __height_map := __height_map self;
     block_store := block_store self |}.

Definition set_block_store (self : Blockchain) (store : BlockStore.t) : Blockchain :=
  {| constants := constants self;
     execution_client := execution_client self;
     _peak_height := _peak_height self;
     __block_records := __block_records self;
     __heights_in_cache := __heights_in_cache self;
     __height_map := __height_map self;
     block_store := store |}.

Definition set_execution_client (self : Blockchain) (ec : ExecutionClient) : Blockchain :=
  {| constants := constants self;
     execution_client := ec;
     _peak_height := _peak_height self;
     __block_records := __block_records self;
     __heights_in_cache := __heights_in_cache self;
     __height_map := __height_map self;
     block_store := block_store self |}.

Definition set_height_map (self : Blockchain) (hm : BlockHeightMap.t) : Blockchain :=
  {| constants := constants self;
     execution_client := execution_client self;
     _peak_height := _peak_height self;
     __block_records := __block_records self;
     __heights_in_cache := __heights_in_cache self;
     __height_map := hm;
     block_store := block_store self |}.

Definition set_peak_height (self : Blockchain) (h : option Z) : Blockchain :=
  {| constants := constants self;
     execution_client := execution_client self;
     _peak_height := h;
     __block_records := __block_records self;
     __heights_in_cache := __heights_in_cache self;
     __height_map := __height_map self;
     block_store := block_store self |}.

(** [Blockchain.add_block_record] *)
Definition Blockchain_add_block_record (self : Blockchain)
    (block_record : BlockRecord) : Blockchain :=
  let records := <[header_hash block_record := block_record]> (__block_records self) in
  let heights := __heights_in_cache self in
  let heights :=
    if bool_decide (is_Some (heights !! height block_record)) then heights
    else <[height block_record := ∅]> heights in
  let heights :=
    alter (fun s => s ∪ {[header_hash block_record]}) (height block_record) heights in
  set_cache self records heights.

(** [Blockchain.remove_block_record]; [set.remove] raises [KeyError] when
    the element is missing. *)
Definition Blockchain_remove_block_record (self : Blockchain) (hh : Z)
    : outcome unit * Blockchain :=
  match __block_records self !! hh with
  | None => (Raised KeyError, self)
  | Some sbr =>
      let self := set_cache self (delete hh (__block_records self))
                    (__heights_in_cache self) in
      match __heights_in_cache self !! height sbr with
      | None => (Raised KeyError, self)
      | Some s =>
          if bool_decide (hh ∈ s) then
            (Returned tt,
             set_cache self (__block_records self)
               (<[height sbr := s ∖ {[hh]}]> (__heights_in_cache self)))
          else (Raised KeyError, self)
      end
  end.

#[global] Instance Blockchain_interface : BlockchainInterface Blockchain := {
  contains_block self hh := bool_decide (is_Some (__block_records self !! hh));
  block_record self hh := dict_get (__block_records self) hh;
  add_block_record := Blockchain_add_block_record;
  remove_block_record := Blockchain_remove_block_record;
}.

(** [Blockchain.height_to_hash] *)
Definition height_to_hash (self : Blockchain) (h : Z) : outcome (option Z) :=
  if negb (BlockHeightMap.contains_height (__height_map self) h) then Returned None
  else hh ← BlockHeightMap.get_hash (__height_map self) h; Returned (Some hh).

(** [Blockchain.height_to_block_record] *)
Definition height_to_block_record (self : Blockchain) (h : Z) : outcome BlockRecord :=
  hh ← height_to_hash self h;
  match hh with
  | None => Raised ValueError
  | Some hh => block_record self hh
  end.

(** [Blockchain.get_peak] *)
Definition get_peak (self : Blockchain) : outcome (option BlockRecord) :=
  match _peak_height self with
  | None => Returned None
  | Some h => r ← height_to_block_record self h; Returned (Some r)
  end.

(** ** Collaborators of the consensus code that are not among the sources

    Pure functions of the header validator, the proof-of-space check, the
    difficulty engine and the block-record builder; the consensus code
    only calls them. *)
Record Collaborators : Type := {
  (** [Err(code)] and [err.value] *)
  Err_of_value : Z -> outcome Err;
  Err_value : Err -> Z;
  (** [block_to_block_record(constants, blocks, required_iters, full_block,
      None, sub_slot_iters)]; raises [ValueError] on a bad sub-epoch
      summary *)
  block_to_block_record :
    forall V : Type, BlockchainInterface V ->
      ConsensusConstants -> V -> Z -> FullBlock.t -> option Z -> outcome BlockRecord;
  (** [find_fork_point_in_chain(blocks, block_1, block_2)] *)
  find_fork_point_in_chain : Blockchain -> BlockRecord -> BlockRecord -> outcome Z;
  (** [BlockRecord.ip_sub_slot_total_iters(constants)] *)
  ip_sub_slot_total_iters : BlockRecord -> ConsensusConstants -> Z;
  (** [get_next_sub_slot_iters_and_difficulty(constants, new_slot, prev_b,
      blocks)] *)
  get_next_sub_slot_iters_and_difficulty :
    forall V : Type, BlockchainInterface V ->
      ConsensusConstants -> bool -> option BlockRecord -> V -> Z * Z;
  (** [is_overflow_block(constants, signage_point_index)] *)
  is_overflow_block : ConsensusConstants -> Z -> bool;
  (** [get_block_challenge(constants, block, BlockCache(recent_blocks),
      genesis_block, overflow, skip_overflow_last_ss_validation)] *)
  get_block_challenge :
    ConsensusConstants -> FullBlock.t -> BlockCache -> bool -> bool -> bool -> Z;
  (** [verify_and_get_quality_string(pos, constants, challenge, cc_sp_hash)] *)
  verify_and_get_quality_string :
    ProofOfSpace -> ConsensusConstants -> Z -> Z -> option Z;
  (** [calculate_iterations_quality(factor, q_str, size, difficulty,
      cc_sp_hash)] *)
  calculate_iterations_quality : Z -> Z -> Z -> Z -> Z -> Z;
  (** [validate_finished_header_block(constants, blocks, header_block,
      expected_difficulty, expected_sub_slot_iters)]: the required
      iterations and the error code, or an exception *)
  validate_finished_header_block :
    ConsensusConstants -> BlockCache -> FullBlock.t -> Z -> Z ->
      outcome (option Z * option Err);
}.

(** ** [Blockchain._reconsider_peak] *)

(** The backtracking [while] loop: the guard
    [fork_height < 0 or curr != self.height_to_hash(uint32(fork_height))]
    and the body, one unit of fuel per iteration. *)
Fixpoint backtrack_to_fork (fuel : nat) (self : Blockchain) (fork_height : Z)
    (curr : Z) (blocks_to_add : list (FullBlock.t * BlockRecord))
    : outcome (list (FullBlock.t * BlockRecord)) :=
  match fuel with
  | O => OutOfFuel
  | S fuel' =>
      continue ←
        (if fork_height <? 0 then Returned true
         else h ← uint32 fork_height;
              hh ← height_to_hash self h;
              Returned (bool_decide (Some curr ≠ hh)));
      if continue : bool then
        match BlockStore.get_full_block (block_store self) curr,
              BlockStore.get_block_record (block_store self) curr with
        | Some fetched_full_block, Some fetched_block_record =>
            let blocks_to_add :=
              blocks_to_add ++ [(fetched_full_block, fetched_block_record)] in
            if bool_decide (FullBlock.height fetched_full_block = 0) then
              Returned blocks_to_add
            else
              backtrack_to_fork fuel' self fork_height
                (prev_hash fetched_block_record) blocks_to_add
        | _, _ => Raised AssertionError
        end
      else Returned blocks_to_add
  end.

(** Returns the records to add, the summary, and the block store as the
    call leaves it. *)
Definition _reconsider_peak (env : Collaborators) (fuel : nat) (self : Blockchain)
    (block_record : BlockRecord) (genesis : bool) (fork_point_with_peak : option Z)
    : outcome (list BlockRecord * option StateChangeSummary.t * BlockStore.t) :=
  peak ← get_peak self;
  let store := block_store self in
  if genesis then
    match peak with
    | None =>
        match BlockStore.get_full_block store (header_hash block_record) with
        | None => Raised AssertionError
        | Some _ =>
            let store := BlockStore.set_in_chain store [header_hash block_record] in
            let store := BlockStore.set_peak store (header_hash block_record) in
            fh ← uint32 0;
            Returned ([block_record],
                      Some {| StateChangeSummary.peak := block_record;
                              StateChangeSummary.fork_height := fh |},
                      store)
        end
    | Some _ => Returned ([], None, store)
    end
  else
    match peak with
    | None => Raised AssertionError
    | Some peak =>
        if weight block_record <=? weight peak then Returned ([], None, store)
        else
          fork_height ←
            (if bool_decide (prev_hash block_record = header_hash peak) then
               Returned (height peak)
             else
               match fork_point_with_peak with
               | Some h => Returned h
               | None => find_fork_point_in_chain env self block_record peak
               end);
          blocks_to_add ←
            backtrack_to_fork fuel self fork_height (header_hash block_record) [];
          let records_to_add := snd <$> reverse blocks_to_add in
          let store := BlockStore.rollback store fork_height in
          let store := BlockStore.set_in_chain store (header_hash <$> records_to_add) in
          let store := BlockStore.set_peak store (header_hash block_record) in
          fh ← uint32 (Z.max fork_height 0);
          Returned (records_to_add,
                    Some {| StateChangeSummary.peak := block_record;
                            StateChangeSummary.fork_height := fh |},
                    store)
    end.

(** ** [Blockchain.receive_block] *)

Definition receive_block_result : Type :=
  ReceiveBlockResult * option Err * option StateChangeSummary.t.

(** The [async with self.block_store.db_wrapper.writer()] block and what
    follows it. *)
Definition receive_block_commit (env : Collaborators) (fuel : nat) (self : Blockchain)
    (block : FullBlock.t) (block_record : BlockRecord) (genesis : bool)
    (fork_point_with_peak : option Z)
    : outcome receive_block_result * Blockchain :=
  let header_hash_ := FullBlock.header_hash block in
  let before := block_store self in
  let self1 :=
    set_block_store self
      (BlockStore.add_full_block before header_hash_ block block_record) in
  match _reconsider_peak env fuel self1 block_record genesis fork_point_with_peak with
  | Returned (records, state_change_summary, store) =>
      let self2 := add_block_record (set_block_store self1 store) block_record in
      let hm := __height_map self2 in
      let hm :=
        match state_change_summary with
        | Some s => BlockHeightMap.rollback hm (StateChangeSummary.fork_height s)
        | None => hm
        end in
      let hm :=
        foldl (fun hm fetched_block_record =>
                 BlockHeightMap.update_height hm
                   (height fetched_block_record)
                   (header_hash fetched_block_record)
                   (sub_epoch_summary_included fetched_block_record))
              hm records in
      let self3 := set_height_map self2 hm in
      let self4 :=
        match state_change_summary with
        | Some _ => set_peak_height self3 (Some (height block_record))
        | None => self3
        end in
      let self5 := set_height_map self4 (BlockHeightMap.maybe_flush (__height_map self4)) in
      match state_change_summary with
      | Some s => (Returned (NEW_PEAK, None, Some s), self5)
      | None => (Returned (ADDED_AS_ORPHAN, None, None), self5)
      end
  | Raised e =>
      (Raised e,
       set_block_store self
         (BlockStore.rollback_cache_block
            (BlockStore.writer_rollback before (block_store self1)) header_hash_))
  | OutOfFuel => (OutOfFuel, self)
  end.

Definition receive_block (env : Collaborators) (fuel : nat) (self : Blockchain)
    (block : FullBlock.t) (pre_validation_result : PreValidationResult.t)
    (fork_point_with_peak : option Z)
    : outcome receive_block_result * Blockchain :=
  let genesis := bool_decide (FullBlock.height block = 0) in
  if contains_block self (FullBlock.header_hash block) then
    (Returned (ALREADY_HAVE_BLOCK, None, None), self)
  else if negb (contains_block self (FullBlock.prev_header_hash block)) && negb genesis then
    (Returned (DISCONNECTED_BLOCK, Some INVALID_PREV_BLOCK_HASH, None), self)
  else
    match (if negb genesis then
             parent ← block_record self (FullBlock.prev_header_hash block);
             Returned (bool_decide (height parent + 1 ≠ FullBlock.height block))
           else Returned false) with
    | Raised e => (Raised e, self)
    | OutOfFuel => (OutOfFuel, self)
    | Returned true => (Returned (INVALID_BLOCK, Some INVALID_HEIGHT, None), self)
    | Returned false =>
        let required_iters := PreValidationResult.required_iters pre_validation_result in
        match PreValidationResult.error pre_validation_result with
        | Some code =>
            match Err_of_value env code with
            | Returned err => (Returned (INVALID_BLOCK, Some err, None), self)
            | Raised e => (Raised e, self)
            | OutOfFuel => (OutOfFuel, self)
            end
        | None =>
            match required_iters with
            | None => (Raised AssertionError, self)
            | Some required_iters =>
                match block_to_block_record env Blockchain _ (constants self) self
                        required_iters block None with
                | Raised e => (Raised e, self)
                | OutOfFuel => (OutOfFuel, self)
                | Returned block_record =>
                    let '(error_code, ec) :=
                      validate_block_body (execution_client self) (Full block)
                        (FullBlock.height block) (Some block_record) in
                    let self := set_execution_client self ec in
                    match error_code with
                    | Raised e => (Raised e, self)
                    | OutOfFuel => (OutOfFuel, self)
                    | Returned (Some err) => (Returned (INVALID_BLOCK, Some err, None), self)
                    | Returned None =>
                        receive_block_commit env fuel self block block_record genesis
                          fork_point_with_peak
                    end
                end
            end
        end
    end.

(** ** [Blockchain.receive_block] with a height map that can fail

    [receive_block] calls three operations of the height map, which is not
    among the sources: [rollback] and [update_height] inside the [try],
    after [add_block_record] (which, the code says, must not be cancelled
    and must not throw), and [maybe_flush] after the writer block (outside
    the try-except in case it fails, the code says, since nothing is to be
    reverted if it does). The definitions above take the three from
    the specification's height map, where they always return. Here each of
    them may raise: it gives its outcome and the height map as it left
    it. *)
Module HeightMapFailures.
Record t : Type := {
  rollback : BlockHeightMap.t -> Z -> outcome unit * BlockHeightMap.t;
  update_height :
    BlockHeightMap.t -> Z -> Z -> option SubEpochSummary ->
      outcome unit * BlockHeightMap.t;
  maybe_flush : BlockHeightMap.t -> outcome unit * BlockHeightMap.t;
}.

(** The operations of the specification's height map: none of them
    fails. *)
Definition total : t :=
  {| rollback hm fork_height := (Returned tt, BlockHeightMap.rollback hm fork_height);
     update_height hm h hh ses := (Returned tt, BlockHeightMap.update_height hm h hh ses);
     maybe_flush hm := (Returned tt, BlockHeightMap.maybe_flush hm) |}.

(** [for fetched_block_record in records: self.__height_map.update_height(...)],
    which stops at the first call that raises. *)
Fixpoint update_heights (ops : t) (hm : BlockHeightMap.t) (records : list BlockRecord)
    : outcome unit * BlockHeightMap.t :=
  match records with
  | [] => (Returned tt, hm)
  | fetched_block_record :: records =>
      match update_height ops hm (height fetched_block_record)
              (header_hash fetched_block_record)
              (sub_epoch_summary_included fetched_block_record) with
      | (Returned _, hm) => update_heights ops hm records
      | failed => failed
      end
  end.

(** The [async with self.block_store.db_wrapper.writer()] block and what
    follows it. An exception inside the [try] goes through the handler,
    which calls [rollback_cache_block] and raises it again, and through
    the writer, which rolls the persisted tables back; neither undoes
    [add_block_record]. An exception of [maybe_flush] goes through
    neither. *)
Definition receive_block_commit (ops : t) (env : Collaborators) (fuel : nat)
    (self : Blockchain) (block : FullBlock.t) (block_record : BlockRecord)
    (genesis : bool) (fork_point_with_peak : option Z)
    : outcome receive_block_result * Blockchain :=
  let header_hash_ := FullBlock.header_hash block in
  let before := block_store self in
  let rolled_back (now : Blockchain) :=
    set_block_store now
      (BlockStore.rollback_cache_block
         (BlockStore.writer_rollback before (block_store now)) header_hash_) in
  let self1 :=
    set_block_store self
      (BlockStore.add_full_block before header_hash_ block block_record) in
  match _reconsider_peak env fuel self1 block_record genesis fork_point_with_peak with
  | Returned (records, state_change_summary, store) =>
      let self2 := add_block_record (set_block_store self1 store) block_record in
      let '(updated, hm) :=
        match state_change_summary with
        | Some s => rollback ops (__height_map self2) (StateChangeSummary.fork_height s)
        | None => (Returned tt, __height_map self2)
        end in
      let '(updated, hm) :=
        match updated with
        | Returned _ => update_heights ops hm records
        | _ => (updated, hm)
        end in
      let self3 := set_height_map self2 hm in
      match updated with
      | Raised e => (Raised e, rolled_back self3)
      | OutOfFuel => (OutOfFuel, self3)
      | Returned _ =>
          let self4 :=
            match state_change_summary with
            | Some _ => set_peak_height self3 (Some (height block_record))
            | None => self3
            end in
          let '(flushed, hm) := maybe_flush ops (__height_map self4) in
          let self5 := set_height_map self4 hm in
          match flushed with
          | Raised e => (Raised e, self5)
          | OutOfFuel => (OutOfFuel, self5)
          | Returned _ =>
              match state_change_summary with
              | Some s => (Returned (NEW_PEAK, None, Some s), self5)
              | None => (Returned (ADDED_AS_ORPHAN, None, None), self5)
              end
          end
      end
  | Raised e => (Raised e, rolled_back self1)
  | OutOfFuel => (OutOfFuel, self)
  end.

Definition receive_block (ops : t) (env : Collaborators) (fuel : nat) (self : Blockchain)
    (block : FullBlock.t) (pre_validation_result : PreValidationResult.t)
    (fork_point_with_peak : option Z)
    : outcome receive_block_result * Blockchain :=
  let genesis := bool_decide (FullBlock.height block = 0) in
  if contains_block self (FullBlock.header_hash block) then
    (Returned (ALREADY_HAVE_BLOCK, None, None), self)
  else if negb (contains_block self (FullBlock.prev_header_hash block)) && negb genesis then
    (Returned (DISCONNECTED_BLOCK, Some INVALID_PREV_BLOCK_HASH, None), self)
  else
    match (if negb genesis then
             parent ← block_record self (FullBlock.prev_header_hash block);
             Returned (bool_decide (height parent + 1 ≠ FullBlock.height block))
           else Returned false) with
    | Raised e => (Raised e, self)
    | OutOfFuel => (OutOfFuel, self)
    | Returned true => (Returned (INVALID_BLOCK, Some INVALID_HEIGHT, None), self)
    | Returned false =>
        let required_iters := PreValidationResult.required_iters pre_validation_result in
        match PreValidationResult.error pre_validation_result with
        | Some code =>
            match Err_of_value env code with
            | Returned err => (Returned (INVALID_BLOCK, Some err, None), self)
            | Raised e => (Raised e, self)
            | OutOfFuel => (OutOfFuel, self)
            end
        | None =>
            match required_iters with
            | None => (Raised AssertionError, self)
            | Some required_iters =>
                match block_to_block_record env Blockchain _ (constants self) self
                        required_iters block None with
                | Raised e => (Raised e, self)
                | OutOfFuel => (OutOfFuel, self)
                | Returned block_record =>
                    let '(error_code, ec) :=
                      validate_block_body (execution_client self) (Full block)
                        (FullBlock.height block) (Some block_record) in
                    let self := set_execution_client self ec in
                    match error_code with
                    | Raised e => (Raised e, self)
                    | OutOfFuel => (OutOfFuel, self)
                    | Returned (Some err) => (Returned (INVALID_BLOCK, Some err, None), self)
                    | Returned None =>
                        receive_block_commit ops env fuel self block block_record genesis
                          fork_point_with_peak
                    end
                end
            end
        end
    end.
End HeightMapFailures.

(** ** Cache garbage collection *)

(** [for header_hash in blocks_to_remove: del self.__block_records[header_hash]] *)
Definition del_block_records (records : gmap Z BlockRecord) (blocks_to_remove : gset Z)
    : outcome (gmap Z BlockRecord) :=
  foldl (fun acc hh => records ← acc; dict_del records hh)
        (Returned records) (elements blocks_to_remove).

(** The [while blocks_to_remove is not None and height >= 0] loop of
    [clean_block_record]. *)
Fixpoint clean_block_record_loop (fuel : nat) (self : Blockchain) (height : Z)
    (blocks_to_remove : option (gset Z)) : outcome Blockchain :=
  match blocks_to_remove with
  | None => Returned self
  | Some to_remove =>
      if negb (0 <=? height) then Returned self
      else
        match fuel with
        | O => OutOfFuel
        | S fuel' =>
            records ← del_block_records (__block_records self) to_remove;
            h ← uint32 height;
            heights ← dict_del (__heights_in_cache self) h;
            let self := set_cache self records heights in
            if bool_decide (height = 0) then Returned self
            else
              let height := height - 1 in
              h ← uint32 height;
              clean_block_record_loop fuel' self height (__heights_in_cache self !! h)
        end
  end.

(** [Blockchain.clean_block_record]. The loop counts [height] down to 0,
    so [height + 1] iterations are enough. *)
Definition clean_block_record (self : Blockchain) (height : Z) : outcome Blockchain :=
  if height <? 0 then Returned self
  else
    h ← uint32 height;
    clean_block_record_loop (S (Z.to_nat height)) self height
      (__heights_in_cache self !! h).

(** [Blockchain.clean_block_records] *)
Definition clean_block_records (self : Blockchain) : outcome Blockchain :=
  if Z.of_nat (size (__block_records self)) <? BLOCKS_CACHE_SIZE (constants self) then
    Returned self
  else
    match _peak_height self with
    | None => Raised AssertionError
    | Some peak_height =>
        if peak_height - BLOCKS_CACHE_SIZE (constants self) <? 0 then Returned self
        else clean_block_record self (peak_height - BLOCKS_CACHE_SIZE (constants self))
    end.

(** ** [Blockchain.get_recent_reward_challenges] *)

(** [for rc in reversed(curr.finished_reward_slot_hashes)]: [rcs] is the
    reversed list. *)
Fixpoint recent_rc_sub_slots (curr_sub_slot_iters : Z) (rcs : list Z)
    (sub_slot_total_iters : Z) (recent_rc : list (Z * Z)) : outcome (list (Z * Z)) :=
  match rcs with
  | [] => Returned recent_rc
  | rc :: rcs =>
      if sub_slot_total_iters <? curr_sub_slot_iters then Returned recent_rc
      else
        let recent_rc := recent_rc ++ [(rc, sub_slot_total_iters)] in
        sub_slot_total_iters ← uint128 (sub_slot_total_iters - curr_sub_slot_iters);
        recent_rc_sub_slots curr_sub_slot_iters rcs sub_slot_total_iters recent_rc
  end.

(** One iteration of the [while] body, up to the assignment of [curr]. *)
Definition recent_rc_visit (env : Collaborators) (constants : ConsensusConstants)
    (peak curr : BlockRecord) (recent_rc : list (Z * Z)) : outcome (list (Z * Z)) :=
  let recent_rc :=
    if bool_decide (curr ≠ peak) then
      recent_rc ++ [(reward_infusion_new_challenge curr, total_iters curr)]
    else recent_rc in
  if first_in_sub_slot curr then
    match finished_reward_slot_hashes curr with
    | None => Raised AssertionError
    | Some hashes =>
        recent_rc_sub_slots (sub_slot_iters curr) (reverse hashes)
          (ip_sub_slot_total_iters env curr constants) recent_rc
    end
  else Returned recent_rc.

Fixpoint recent_rc_loop (env : Collaborators) (fuel : nat) (self : Blockchain)
    (peak : BlockRecord) (curr : option BlockRecord) (recent_rc : list (Z * Z))
    : outcome (list (Z * Z)) :=
  match curr with
  | None => Returned recent_rc
  | Some curr =>
      if Z.of_nat (length recent_rc) <? 2 * MAX_SUB_SLOT_BLOCKS (constants self) then
        match fuel with
        | O => OutOfFuel
        | S fuel' =>
            recent_rc ← recent_rc_visit env (constants self) peak curr recent_rc;
            next ← try_block_record self (prev_hash curr);
            recent_rc_loop env fuel' self peak next recent_rc
        end
      else Returned recent_rc
  end.

Definition get_recent_reward_challenges (env : Collaborators) (fuel : nat)
    (self : Blockchain) : outcome (list (Z * Z)) :=
  peak ← get_peak self;
  match peak with
  | None => Returned []
  | Some peak =>
      recent_rc ← recent_rc_loop env fuel self peak (Some peak) [];
      Returned (reverse recent_rc)
  end.

(** ** [consensus/multiprocess_validation.py] *)

(** [l[i]] on a Python list: a negative index counts from the end. *)
Definition list_get {A} (l : list A) (i : Z) : outcome A :=
  let n := Z.of_nat (length l) in
  let j := if i <? 0 then n + i else i in
  if bool_decide (0 <= j < n) then
    match l !! Z.to_nat j with
    | Some a => Returned a
    | None => Raised IndexError
    end
  else Raised IndexError.

(** [PreValidationResult(uint16(err.value), None)] *)
Definition error_result (env : Collaborators) (err : Err)
    : outcome (list PreValidationResult.t) :=
  code ← uint16 (Err_value env err);
  Returned [ {| PreValidationResult.error := Some code;
                PreValidationResult.required_iters := None |} ].

Section PreValidation.
Context {V : Type} `{!BlockchainInterface V}.
Variable env : Collaborators.
Variable constants : ConsensusConstants.

(** The window of recent blocks collected by the first [while] loop:
    [recent_blocks], [recent_blocks_compressed], and the counters. *)
Record RecentWindow : Type := {
  recent_blocks : gmap Z BlockRecord;
  recent_blocks_compressed : gmap Z BlockRecord;
  num_sub_slots_found : Z;
  num_blocks_seen : Z;
}.

Fixpoint collect_recent_blocks (fuel : nat) (block_records : V)
    (num_sub_slots_to_look_for : Z) (curr : BlockRecord) (w : RecentWindow)
    : outcome RecentWindow :=
  let more :=
    bool_decide (sub_epoch_summary_included curr = None)
    || (num_blocks_seen w <? NUMBER_OF_TIMESTAMPS constants)
    || (num_sub_slots_found w <? num_sub_slots_to_look_for) in
  if more && (0 <? height curr) then
    match fuel with
    | O => OutOfFuel
    | S fuel' =>
        let compressed :=
          if (num_blocks_seen w <? NUMBER_OF_TIMESTAMPS constants)
             || (num_sub_slots_found w <? num_sub_slots_to_look_for)
          then <[header_hash curr := curr]> (recent_blocks_compressed w)
          else recent_blocks_compressed w in
        found ←
          (if first_in_sub_slot curr then
             match finished_challenge_slot_hashes curr with
             | None => Raised AssertionError
             | Some hashes => Returned (num_sub_slots_found w + Z.of_nat (length hashes))
             end
           else Returned (num_sub_slots_found w));
        let w' :=
          {| recent_blocks := <[header_hash curr := curr]> (recent_blocks w);
             recent_blocks_compressed := compressed;
             num_sub_slots_found := found;
             num_blocks_seen :=
               if is_transaction_block curr then num_blocks_seen w + 1
               else num_blocks_seen w |} in
        curr' ← block_record block_records (prev_hash curr);
        collect_recent_blocks fuel' block_records num_sub_slots_to_look_for curr' w'
    end
  else
    Returned
      {| recent_blocks := <[header_hash curr := curr]> (recent_blocks w);
         recent_blocks_compressed :=
           <[header_hash curr := curr]> (recent_blocks_compressed w);
         num_sub_slots_found := num_sub_slots_found w;
         num_blocks_seen := num_blocks_seen w |}.

(** The clean-up on the [INVALID_POSPACE] return:
    [for i, block_i in enumerate(blocks)], over the blocks paired with
    [block_record_was_present]. *)
Fixpoint remove_tentative_if_present (block_records : V)
    (todo : list (FullBlock.t * bool)) : outcome unit * V :=
  match todo with
  | [] => (Returned tt, block_records)
  | (block_i, was_present) :: todo =>
      if negb was_present
         && contains_block block_records (FullBlock.header_hash block_i)
      then
        match remove_block_record block_records (FullBlock.header_hash block_i) with
        | (Returned _, block_records) => remove_tentative_if_present block_records todo
        | stopped => stopped
        end
      else remove_tentative_if_present block_records todo
  end.

(** The removal after the main loop, which does not ask whether the
    record is there. *)
Fixpoint remove_tentative (block_records : V)
    (todo : list (FullBlock.t * bool)) : outcome unit * V :=
  match todo with
  | [] => (Returned tt, block_records)
  | (block, was_present) :: todo =>
      if negb was_present then
        match remove_block_record block_records (FullBlock.header_hash block) with
        | (Returned _, block_records) => remove_tentative block_records todo
        | stopped => stopped
        end
      else remove_tentative block_records todo
  end.

(** The variables the main [for block in blocks] loop updates. *)
Record LoopState : Type := {
  view : V;
  prev_b : option BlockRecord;
  recent : gmap Z BlockRecord;
  recent_compressed : gmap Z BlockRecord;
  diff_ssis : list (Z * Z);
}.

(** What one iteration of the main loop does: go on, return a result,
    or raise; in each case with the view as the iteration leaves it. *)
Inductive Step : Type :=
| Next (st : LoopState)
| Return (res : list PreValidationResult.t) (block_records : V)
| Raise (e : PyExn) (block_records : V)
| Stuck (block_records : V).

Definition finish (res : outcome (list PreValidationResult.t)) (block_records : V)
    : Step :=
  match res with
  | Returned r => Return r block_records
  | Raised e => Raise e block_records
  | OutOfFuel => Stuck block_records
  end.

(** The body of [for block in blocks] (the second such loop). In
    [int(block.height / constants.SUB_EPOCH_BLOCKS)] both operands are
    [uint32], for which truncating the float quotient gives the integer
    quotient. *)
Definition pre_validate_block (blocks : list FullBlock.t)
    (block_record_was_present : list bool)
    (wp_summaries : option (list SubEpochSummary))
    (st : LoopState) (block : FullBlock.t) : Step :=
  let block_records := view st in
  let lookup_prev :=
    if bool_decide (FullBlock.height block ≠ 0) then
      if contains_block block_records (FullBlock.prev_header_hash block) then
        match prev_b st with
        | None =>
            p ← block_record block_records (FullBlock.prev_header_hash block);
            Returned (Some p)
        | Some p => Returned (Some p)
        end
      else Raised AssertionError
    else Returned (prev_b st) in
  match lookup_prev with
  | Raised e => Raise e block_records
  | OutOfFuel => Stuck block_records
  | Returned prev_b =>
      let '(sub_slot_iters, difficulty) :=
        get_next_sub_slot_iters_and_difficulty env V _ constants
          (bool_decide (0 < length (FullBlock.finished_sub_slots block))%nat)
          prev_b block_records in
      let rcb := FullBlock.reward_chain_block block in
      let overflow := is_overflow_block env constants (rc_signage_point_index rcb) in
      let challenge :=
        get_block_challenge env constants block {| _block_records := recent st |}
          (bool_decide (prev_b = None)) overflow false in
      let cc_sp_hash :=
        match challenge_chain_sp_vdf rcb with
        | None => challenge
        | Some vdf => output_get_hash vdf
        end in
      match verify_and_get_quality_string env (proof_of_space rcb) constants
              challenge cc_sp_hash with
      | None =>
          match remove_tentative_if_present block_records
                  (zip blocks block_record_was_present) with
          | (Returned _, block_records) =>
              finish (error_result env INVALID_POSPACE) block_records
          | (Raised e, block_records) => Raise e block_records
          | (OutOfFuel, block_records) => Stuck block_records
          end
      | Some q_str =>
          let required_iters :=
            calculate_iterations_quality env (DIFFICULTY_CONSTANT_FACTOR constants)
              q_str (pos_size (proof_of_space rcb)) difficulty cc_sp_hash in
          match block_to_block_record env V _ constants block_records required_iters
                  block (Some sub_slot_iters) with
          | Raised ValueError =>
              finish (error_result env INVALID_SUB_EPOCH_SUMMARY) block_records
          | Raised e => Raise e block_records
          | OutOfFuel => Stuck block_records
          | Returned block_rec =>
              let ses_check : outcome bool :=
                match sub_epoch_summary_included block_rec, wp_summaries with
                | Some ses, Some wp_summaries =>
                    if bool_decide (SUB_EPOCH_BLOCKS constants = 0) then
                      Raised ZeroDivisionError
                    else
                      let idx :=
                        FullBlock.height block / SUB_EPOCH_BLOCKS constants - 1 in
                      next_ses ← list_get wp_summaries idx;
                      Returned (bool_decide (ses_get_hash ses = ses_get_hash next_ses))
                | _, _ => Returned true
                end in
              match ses_check with
              | Raised e => Raise e block_records
              | OutOfFuel => Stuck block_records
              | Returned false =>
                  finish (error_result env INVALID_SUB_EPOCH_SUMMARY) block_records
              | Returned true =>
                  let hh := header_hash block_rec in
                  if negb (contains_block block_records hh) then
                    Next {| view := add_block_record block_records block_rec;
                            prev_b := Some block_rec;
                            recent := <[hh := block_rec]> (recent st);
                            recent_compressed := <[hh := block_rec]> (recent_compressed st);
                            diff_ssis := diff_ssis st ++ [(difficulty, sub_slot_iters)] |}
                  else
                    match block_record block_records hh with
                    | Returned r =>
                        Next {| view := block_records;
                                prev_b := Some block_rec;
                                recent := <[hh := r]> (recent st);
                                recent_compressed := <[hh := r]> (recent_compressed st);
                                diff_ssis := diff_ssis st ++ [(difficulty, sub_slot_iters)] |}
                    | Raised e => Raise e block_records
                    | OutOfFuel => Stuck block_records
                    end
              end
          end
      end
  end.

(** The [for block in blocks] loop: it stops at the first iteration that
    returns or raises. *)
Fixpoint pre_validate_loop (blocks : list FullBlock.t)
    (block_record_was_present : list bool)
    (wp_summaries : option (list SubEpochSummary))
    (todo : list FullBlock.t) (st : LoopState) : Step :=
  match todo with
  | [] => Next st
  | block :: todo =>
      match pre_validate_block blocks block_record_was_present wp_summaries st block with
      | Next st => pre_validate_loop blocks block_record_was_present wp_summaries todo st
      | r => r
      end
  end.

(** [PreValidationResult(uint16(Err.UNKNOWN.value), None)], appended by
    the [except Exception] handler. *)
Definition unknown_result : outcome PreValidationResult.t :=
  code ← uint16 (Err_value env UNKNOWN);
  Returned {| PreValidationResult.error := Some code;
              PreValidationResult.required_iters := None |}.

(** One iteration of the loop of [batch_pre_validate_blocks] over the
    full blocks, inside its [try]. *)
Definition batch_pre_validate_one (blocks : gmap Z BlockRecord)
    (expected_difficulty expected_sub_slot_iters : list Z)
    (i : nat) (block : FullBlock.t) : outcome PreValidationResult.t :=
  '(required_iters, error) ←
    (d ← list_get expected_difficulty (Z.of_nat i);
     s ← list_get expected_sub_slot_iters (Z.of_nat i);
     validate_finished_header_block env constants {| _block_records := blocks |}
       block d s);
  error_int ←
    match error with
    | None => Returned None
    | Some e => code ← uint16 (Err_value env e); Returned (Some code)
    end;
  Returned {| PreValidationResult.error := error_int;
              PreValidationResult.required_iters := required_iters |}.

Fixpoint batch_pre_validate_from (blocks : gmap Z BlockRecord)
    (expected_difficulty expected_sub_slot_iters : list Z)
    (i : nat) (full_blocks : list FullBlock.t)
    : outcome (list PreValidationResult.t) :=
  match full_blocks with
  | [] => Returned []
  | block :: rest =>
      r ← match batch_pre_validate_one blocks expected_difficulty
                  expected_sub_slot_iters i block with
          | Returned r => Returned r
          | Raised _ => unknown_result
          | OutOfFuel => OutOfFuel
          end;
      rs ← batch_pre_validate_from blocks expected_difficulty
             expected_sub_slot_iters (S i) rest;
      Returned (r :: rs)
  end.

(** [batch_pre_validate_blocks] on full blocks; pickling and unpickling
    the arguments and the results gives them back. *)
Definition batch_pre_validate_blocks (blocks : gmap Z BlockRecord)
    (full_blocks : list FullBlock.t)
    (expected_difficulty expected_sub_slot_iters : list Z)
    : outcome (list PreValidationResult.t) :=
  batch_pre_validate_from blocks expected_difficulty expected_sub_slot_iters
    0%nat full_blocks.

(** The slices [l[i:end_i]] for [i in range(0, len(l), batch_size)]. *)
Fixpoint batches {A} (fuel : nat) (batch_size : nat) (l : list A) : list (list A) :=
  match fuel with
  | O => []
  | S fuel' =>
      match l with
      | [] => []
      | _ => take batch_size l :: batches fuel' batch_size (drop batch_size l)
      end
  end.

(** The dispatch of the batches and the gathering of their results, in
    the order of the input. *)
Definition validate_batches (st : LoopState) (blocks : list FullBlock.t)
    (batch_size : Z) : outcome (list PreValidationResult.t) :=
  if bool_decide (batch_size = 0) then Raised ValueError
  else if batch_size <? 0 then Returned []
  else
    let work := zip blocks (diff_ssis st) in
    foldl (fun acc blocks_to_validate =>
             done ← acc;
             let final :=
               if existsb (fun bd : FullBlock.t * (Z * Z) =>
                             bool_decide (0 < length (FullBlock.finished_sub_slots bd.1))%nat)
                          blocks_to_validate
               then recent st else recent_compressed st in
             res ← batch_pre_validate_blocks final (fst <$> blocks_to_validate)
                     ((fun bd : FullBlock.t * (Z * Z) => bd.2.1) <$> blocks_to_validate)
                     ((fun bd : FullBlock.t * (Z * Z) => bd.2.2) <$> blocks_to_validate);
             Returned (done ++ res))
          (Returned []) (batches (length work) (Z.to_nat batch_size) work).

Definition pre_validate_blocks_multiprocessing (fuel : nat) (block_records : V)
    (blocks : list FullBlock.t) (batch_size : Z)
    (wp_summaries : option (list SubEpochSummary))
    : outcome (list PreValidationResult.t) * V :=
  match blocks with
  | [] => (Raised IndexError, block_records)
  | first :: _ =>
      let empty_window :=
        {| recent_blocks := ∅; recent_blocks_compressed := ∅;
           num_sub_slots_found := 0; num_blocks_seen := 0 |} in
      if (0 <? FullBlock.height first)
         && negb (contains_block block_records (FullBlock.prev_header_hash first))
      then (error_result env INVALID_PREV_BLOCK_HASH, block_records)
      else
        let window :=
          if 0 <? FullBlock.height first then
            curr ← block_record block_records (FullBlock.prev_header_hash first);
            collect_recent_blocks fuel block_records
              (if overflow curr then 3 else 2) curr empty_window
          else Returned empty_window in
        match window with
        | Raised e => (Raised e, block_records)
        | OutOfFuel => (OutOfFuel, block_records)
        | Returned w =>
            let block_record_was_present :=
              (fun block => contains_block block_records (FullBlock.header_hash block))
                <$> blocks in
            let st :=
              {| view := block_records; prev_b := None;
                 recent := recent_blocks w;
                 recent_compressed := recent_blocks_compressed w;
                 diff_ssis := [] |} in
            match pre_validate_loop blocks block_record_was_present wp_summaries
                    blocks st with
            | Return res block_records => (Returned res, block_records)
            | Raise e block_records => (Raised e, block_records)
            | Stuck block_records => (OutOfFuel, block_records)
            | Next st =>
                match remove_tentative (view st)
                        (zip blocks block_record_was_present) with
                | (Returned _, block_records) =>
                    (validate_batches st blocks batch_size, block_records)
                | (Raised e, block_records) => (Raised e, block_records)
                | (OutOfFuel, block_records) => (OutOfFuel, block_records)
                end
            end
        end
  end.
End PreValidation.

(** ** [util/prev_transaction_block.py] *)

(** The [while not curr.is_transaction_block] loop; one unit of fuel per
    iteration. *)
Fixpoint prev_transaction_block_loop {V} `{BlockchainInterface V} (fuel : nat)
    (blocks : V) (curr : BlockRecord) : outcome BlockRecord :=
  if is_transaction_block curr then Returned curr
  else
    match fuel with
    | O => OutOfFuel
    | S fuel' =>
        curr ← block_record blocks (prev_hash curr);
        prev_transaction_block_loop fuel' blocks curr
    end.

Definition get_prev_transaction_block {V} `{BlockchainInterface V} (fuel : nat)
    (curr : BlockRecord) (blocks : V) (total_iters_sp : Z)
    : outcome (bool * BlockRecord) :=
  let prev_transaction_block := curr in
  curr ← prev_transaction_block_loop fuel blocks curr;
  if total_iters_sp >? total_iters curr then Returned (true, curr)
  else Returned (false, prev_transaction_block).

(** ** [Blockchain.seen_compact_proofs]

    The method reads and updates the [_seen_compact_proofs] set only; it
    is given that set and returns it. The elements are pairs of a VDF info
    and a height, compared by value. *)
Definition seen_compact_proofs `{Countable VDF} (_seen_compact_proofs : gset (VDF * Z))
    (vdf_info : VDF) (height : Z) : bool * gset (VDF * Z) :=
  let pot_tuple := (vdf_info, height) in
  if bool_decide (pot_tuple ∈ _seen_compact_proofs) then (true, _seen_compact_proofs)
  else
    let seen :=
      if Z.of_nat (size _seen_compact_proofs) >? 10000 then ∅
      else _seen_compact_proofs in
    (false, seen ∪ {[pot_tuple]}).

(** ** [Blockchain.validate_unfinished_block_header] and
    [Blockchain.validate_unfinished_block] *)

Section UnfinishedBlockValidation.
Variable env : Collaborators.

(** [validate_unfinished_header_block(constants, blocks, header_block,
    expected_difficulty, expected_sub_slot_iters,
    skip_overflow_last_ss_validation)] of the header validator, which is
    not among the sources: the required iterations and the code of the
    error. The [UnfinishedHeaderBlock] it is given copies the fields of
    the block. *)
Variable validate_unfinished_header_block :
  ConsensusConstants -> Blockchain -> UnfinishedBlock.t -> Z -> Z -> bool ->
    outcome (option Z * option Err).

Definition validate_unfinished_block_header (self : Blockchain)
    (block : UnfinishedBlock.t) (skip_overflow_ss_validation : bool)
    : outcome (option Z * option Err) :=
  if negb (contains_block self (UnfinishedBlock.prev_header_hash block))
     && bool_decide (UnfinishedBlock.prev_header_hash block
                     ≠ GENESIS_CHALLENGE (constants self))
  then Returned (None, Some INVALID_PREV_BLOCK_HASH)
  else
    prev_b ← try_block_record self (UnfinishedBlock.prev_header_hash block);
    let '(sub_slot_iters, difficulty) :=
      get_next_sub_slot_iters_and_difficulty env Blockchain _ (constants self)
        (bool_decide (0 < length (UnfinishedBlock.finished_sub_slots block))%nat)
        prev_b self in
    '(required_iters, error) ←
      validate_unfinished_header_block (constants self) self block difficulty
        sub_slot_iters skip_overflow_ss_validation;
    match error with
    | Some code => Returned (required_iters, Some code)
    | None => Returned (required_iters, None)
    end.

(** [PreValidationResult(uint16(err.value), None)] *)
Definition error_pre_validation_result (err : Err) : outcome PreValidationResult.t :=
  code ← uint16 (Err_value env err);
  Returned {| PreValidationResult.error := Some code;
              PreValidationResult.required_iters := None |}.

(** Returns the result together with the chain state, in which the
    execution client has logged the calls made. *)
Definition validate_unfinished_block (self : Blockchain)
    (block : UnfinishedBlock.t) (skip_overflow_ss_validation : bool)
    : outcome PreValidationResult.t * Blockchain :=
  match validate_unfinished_block_header self block skip_overflow_ss_validation with
  | Raised e => (Raised e, self)
  | OutOfFuel => (OutOfFuel, self)
  | Returned (required_iters, Some error) =>
      (error_pre_validation_result error, self)
  | Returned (required_iters, None) =>
      let prev_height :=
        if bool_decide (UnfinishedBlock.prev_header_hash block
                        = GENESIS_CHALLENGE (constants self))
        then Returned (-1)
        else r ← block_record self (UnfinishedBlock.prev_header_hash block);
             Returned (height r) in
      match prev_height ≫= (fun prev_height => uint32 (prev_height + 1)) with
      | Raised e => (Raised e, self)
      | OutOfFuel => (OutOfFuel, self)
      | Returned h =>
          let '(error_code, ec) :=
            validate_block_body (execution_client self) (Unfinished block) h None in
          let self := set_execution_client self ec in
          match error_code with
          | Raised e => (Raised e, self)
          | OutOfFuel => (OutOfFuel, self)
          | Returned (Some error_code) => (error_pre_validation_result error_code, self)
          | Returned None =>
              (Returned {| PreValidationResult.error := None;
                           PreValidationResult.required_iters := required_iters |},
               self)
          end
      end
  end.
End UnfinishedBlockValidation.

(** ** [Blockchain.pre_validate_blocks_multiprocessing]: the method hands
    its own constants and itself, as the view of block records, to the
    function of [multiprocess_validation.py]. *)
Definition Blockchain_pre_validate_blocks_multiprocessing (env : Collaborators)
    (fuel : nat) (self : Blockchain) (blocks : list FullBlock.t) (batch_size : Z)
    (wp_summaries : option (list SubEpochSummary))
    : outcome (list PreValidationResult.t) * Blockchain :=
  pre_validate_blocks_multiprocessing env (constants self) fuel self blocks
    batch_size wp_summaries.

(** ** Specification-side definitions

    These follow the wording of the design document; Part II compares
    them with the definitions above. *)

(** The reward schedule (4.G.1), in base sub-units: [2], [1], [0.5],
    [0.25], [0.125] times [10^9], then [0]. *)
Definition reward_schedule (h : Z) : Z :=
  let Y := 4608 * 2 * 365 in
  if h <? 3 * Y then 2000000000
  else if h <? 6 * Y then 1000000000
  else if h <? 9 * Y then 500000000
  else if h <? 12 * Y then 250000000
  else if h <? 15 * Y then 125000000
  else 0.

(** The records a withdrawal is emitted for: [curr], then its ancestors,
    up to and including the record whose [prev_hash] is the genesis
    challenge, or up to but excluding the next transaction block. *)
Inductive reward_walk {V} `{BlockchainInterface V}
    (constants : ConsensusConstants) (blocks : V)
    : BlockRecord -> list BlockRecord -> Prop :=
| walk_genesis curr :
    prev_hash curr = GENESIS_CHALLENGE constants ->
    reward_walk constants blocks curr [curr]
| walk_transaction_block curr parent :
    prev_hash curr ≠ GENESIS_CHALLENGE constants ->
    block_record blocks (prev_hash curr) = Returned parent ->
    is_transaction_block parent = true ->
    reward_walk constants blocks curr [curr]
| walk_ancestor curr parent rest :
    prev_hash curr ≠ GENESIS_CHALLENGE constants ->
    block_record blocks (prev_hash curr) = Returned parent ->
    is_transaction_block parent = false ->
    reward_walk constants blocks parent rest ->
    reward_walk constants blocks curr (curr :: rest).

Definition first_withdrawal_index (prev : BlockRecord) : Z :=
  match last_withdrawal_index prev with
  | None => 0
  | Some i => i + 1
  end.

Definition prefarm_withdrawal (constants : ConsensusConstants) (index : Z)
    : WithdrawalV1 :=
  {| wd_index := index;
     wd_validator_index := 0;
     wd_address := PREFARM_ADDRESS constants;
     wd_amount := PREFARM_AMOUNT constants * 1000000000 |}.

Definition reward_withdrawal (index : Z) (r : BlockRecord) : WithdrawalV1 :=
  {| wd_index := index;
     wd_validator_index := 1;
     wd_address := coinbase r;
     wd_amount := reward_schedule (height r) |}.

(** One reward withdrawal per record, with consecutive indices. *)
Fixpoint reward_withdrawals (index : Z) (records : list BlockRecord)
    : list WithdrawalV1 :=
  match records with
  | [] => []
  | r :: records => reward_withdrawal index r :: reward_withdrawals (index + 1) records
  end.

Definition expected_withdrawals (constants : ConsensusConstants)
    (prev : BlockRecord) (records : list BlockRecord) : list WithdrawalV1 :=
  let index := first_withdrawal_index prev in
  if bool_decide (height prev = 0) then
    prefarm_withdrawal constants index :: reward_withdrawals (index + 1) records
  else reward_withdrawals index records.

(** The body-validation policy table (4.G), by phase. For an unfinished
    block only [new_payload] is asked. *)
Definition unfinished_block_policy (new_payload_status : string) : option Err :=
  if bool_decide (new_payload_status ∈ ["INVALID"; "INVALID_BLOCK_HASH"]) then
    Some PAYLOAD_INVALIDATED
  else if bool_decide (new_payload_status ∈ ["SYNCING"; "ACCEPTED"]) then
    Some PAYLOAD_NOT_VALIDATED
  else if bool_decide (new_payload_status = "VALID") then None
  else Some UNKNOWN.

(** For a full block [forkchoice_update] is consulted when [new_payload]
    answered with a recognized status other than the two invalid ones. *)
Definition consults_forkchoice (new_payload_status : string) : bool :=
  bool_decide (new_payload_status ∈ ["VALID"; "SYNCING"; "ACCEPTED"]).

Definition full_block_policy (new_payload_status forkchoice_status : string)
    (optimistic_import : bool) : option Err :=
  if bool_decide (new_payload_status ∈ ["INVALID"; "INVALID_BLOCK_HASH"]) then
    Some PAYLOAD_INVALIDATED
  else if negb (consults_forkchoice new_payload_status) then Some UNKNOWN
  else if bool_decide (forkchoice_status ∈ ["INVALID"; "INVALID_BLOCK_HASH"]) then
    Some PAYLOAD_INVALIDATED
  else if bool_decide (forkchoice_status ∈ ["SYNCING"; "ACCEPTED"]) then
    if optimistic_import then None else Some PAYLOAD_NOT_VALIDATED
  else if bool_decide (forkchoice_status = "VALID") then None
  else Some UNKNOWN.

(** The record cache and its index by height agree: the index lists,
    under each height, the hashes of the cached records of that height. *)
Definition cache_consistent (self : Blockchain) : Prop :=
  forall (h hh : Z),
    (exists s, __heights_in_cache self !! h = Some s /\ hh ∈ s) <->
    (exists r, __block_records self !! hh = Some r /\ height r = h).

(** The heights [k], ..., [h] are all present in the index: [k] lies in
    the unbroken run of cached heights that ends at [h]. *)
Definition cached_run (heights : gmap Z (gset Z)) (k h : Z) : Prop :=
  0 <= k <= h /\ forall j, k <= j <= h -> is_Some (heights !! j).

(** The pairs of the finished reward sub-slots of a block that is first
    in its sub-slot, most recent first: each hash with the total
    iterations at the end of its sub-slot, one [sub_slot_iters] apart,
    for as long as the total is not below [sub_slot_iters]. *)
Fixpoint sub_slot_pairs (ssi total : Z) (rcs : list Z) : list (Z * Z) :=
  match rcs with
  | [] => []
  | rc :: rcs =>
      if total <? ssi then []
      else (rc, total) :: sub_slot_pairs ssi (total - ssi) rcs
  end.

(** What the walk collects at a block, most recent first: the block's own
    pair unless the block is the peak, then the pairs of its finished
    reward sub-slots when it is first in its sub-slot. *)
Definition rc_contribution (env : Collaborators) (constants : ConsensusConstants)
    (peak b : BlockRecord) : list (Z * Z) :=
  (if bool_decide (b = peak) then []
   else [(reward_infusion_new_challenge b, total_iters b)])
  ++ (if first_in_sub_slot b then
        sub_slot_pairs (sub_slot_iters b) (ip_sub_slot_total_iters env b constants)
          (reverse (default [] (finished_reward_slot_hashes b)))
      else []).

(** Everything collected along a list of visited blocks. *)
Definition rc_collected (env : Collaborators) (constants : ConsensusConstants)
    (peak : BlockRecord) (visited : list BlockRecord) : list (Z * Z) :=
  concat (rc_contribution env constants peak <$> visited).

(** Each block of the list is followed by its parent, as cached. *)
Definition parent_linked (self : Blockchain) (visited : list BlockRecord) : Prop :=
  forall (i : nat) (b p : BlockRecord),
    visited !! i = Some b -> visited !! S i = Some p ->
    __block_records self !! prev_hash b = Some p.

(** What [get_recent_reward_challenges] relies on: along the cached
    parent links the height goes down; and a cached record that is first
    in its sub-slot has its finished reward slot hashes, a [sub_slot_iters]
    that is not negative and a sub-slot total that is a [uint128]. *)
Definition rc_cache_ok (env : Collaborators) (self : Blockchain) : Prop :=
  (forall hh r p,
      __block_records self !! hh = Some r ->
      __block_records self !! prev_hash r = Some p ->
      height p < height r) /\
  (forall hh r,
      __block_records self !! hh = Some r ->
      first_in_sub_slot r = true ->
      is_Some (finished_reward_slot_hashes r) /\
      0 <= sub_slot_iters r /\
      ip_sub_slot_total_iters env r (constants self) < 2 ^ 128).

(** [t] is the nearest transaction block at or before [curr] in the view
    [blocks], [n] parent links away. *)
Inductive nearest_transaction_block {V} `{BlockchainInterface V} (blocks : V)
    : BlockRecord -> nat -> BlockRecord -> Prop :=
| nearest_here curr :
    is_transaction_block curr = true ->
    nearest_transaction_block blocks curr 0 curr
| nearest_parent curr parent n t :
    is_transaction_block curr = false ->
    block_record blocks (prev_hash curr) = Returned parent ->
    nearest_transaction_block blocks parent n t ->
    nearest_transaction_block blocks curr (S n) t.

(** ** Sample data used to exercise the definitions *)

Definition sample_constants : ConsensusConstants :=
  {| MAX_SUB_SLOT_BLOCKS := 1;
     SUB_EPOCH_BLOCKS := 4;
     DIFFICULTY_CONSTANT_FACTOR := 1;
     NUMBER_OF_TIMESTAMPS := 1;
     GENESIS_CHALLENGE := 1000;
     BLOCKS_CACHE_SIZE := 2;
     PREFARM_ADDRESS := 77;
     PREFARM_AMOUNT := 5 |}.

(** A record with the given hash, parent, height, weight and
    transaction-block flag; the other fields are plain. *)
Definition sample_record (hh prev h w : Z) (tx : bool) : BlockRecord :=
  {| header_hash := hh; prev_hash := prev; height := h; weight := w;
     total_iters := 100 * (h + 1); signage_point_index := 0; required_iters := 1;
     deficit := 0; overflow := false; first_in_sub_slot := false;
     is_transaction_block := tx; sub_slot_iters := 10;
     sub_epoch_summary_included := None;
     finished_challenge_slot_hashes := None;
     finished_reward_slot_hashes := None;
     last_withdrawal_index := None; coinbase := 500 + hh;
     reward_infusion_new_challenge := 900 + hh |}.

(** Three blocks: a genesis transaction block (hash 1), a block that is
    not a transaction block (hash 2) and a transaction block (hash 3). *)
Definition sample_cache : BlockCache :=
  {| _block_records :=
       <[1 := sample_record 1 1000 0 10 true]>
       (<[2 := sample_record 2 1 1 20 false]>
       (<[3 := sample_record 3 2 2 30 true]> ∅)) |}.

(** An engine that answers [new_payload] by the payload's block hash
    (1: valid, 2: syncing, 3: an unknown status, otherwise invalid) and
    [forkchoice_update] with SYNCING. *)
Definition sample_respond (history : list EngineCall) (c : EngineCall) : string :=
  match c with
  | NewPayload p =>
      if payload_block_hash p =? 1 then "VALID"
      else if payload_block_hash p =? 2 then "SYNCING"
      else if payload_block_hash p =? 3 then "BUSY"
      else "INVALID"
  | ForkchoiceUpdate _ => "SYNCING"
  end.

Definition sample_client (optimistic_import : option bool) : ExecutionClient :=
  {| respond := sample_respond;
     calls := [];
     config :=
       match optimistic_import with
       | Some b => {[ "optimistic_import" := b ]}
       | None => ∅
       end |}.

Definition sample_rcb : RewardChainBlock :=
  {| rc_signage_point_index := 0;
     challenge_chain_sp_vdf := None;
     proof_of_space := {| pos_size := 32; pos_proof := 0 |} |}.

(** A full block with the given hash, parent, height and weight, and an
    execution payload with the given block hash. *)
Definition sample_block (hh prev h w : Z) (payload : option Z) : FullBlock.t :=
  {| FullBlock.finished_sub_slots := [];
     FullBlock.reward_chain_block := sample_rcb;
     FullBlock.header_hash := hh;
     FullBlock.prev_header_hash := prev;
     FullBlock.height := h;
     FullBlock.weight := w;
     FullBlock.total_iters := 100 * (h + 1);
     FullBlock.execution_payload :=
       (fun x => {| payload_block_hash := x |}) <$> payload |}.

Definition sample_unfinished (prev : Z) (payload : option Z) : UnfinishedBlock.t :=
  {| UnfinishedBlock.finished_sub_slots := [];
     UnfinishedBlock.reward_chain_block := sample_rcb;
     UnfinishedBlock.prev_header_hash := prev;
     UnfinishedBlock.execution_payload :=
       (fun x => {| payload_block_hash := x |}) <$> payload |}.

(** A numbering of the error enumeration (the numbering itself is not
    part of the sources; any numbering in the [uint16] range does). *)
Definition sample_Err_value (e : Err) : Z :=
  match e with
  | UNKNOWN => 1
  | INVALID_PREV_BLOCK_HASH => 2
  | INVALID_HEIGHT => 3
  | INVALID_POSPACE => 4
  | INVALID_SUB_EPOCH_SUMMARY => 5
  | PAYLOAD_INVALIDATED => 6
  | PAYLOAD_NOT_VALIDATED => 7
  | OTHER_ERR code => code
  end.

Definition sample_Err_of_value (code : Z) : outcome Err :=
  if bool_decide (code = 1) then Returned UNKNOWN
  else if bool_decide (code = 2) then Returned INVALID_PREV_BLOCK_HASH
  else if bool_decide (code = 3) then Returned INVALID_HEIGHT
  else if bool_decide (code = 4) then Returned INVALID_POSPACE
  else if bool_decide (code = 5) then Returned INVALID_SUB_EPOCH_SUMMARY
  else if bool_decide (code = 6) then Returned PAYLOAD_INVALIDATED
  else if bool_decide (code = 7) then Returned PAYLOAD_NOT_VALIDATED
  else if bool_decide (8 <= code < 200) then Returned (OTHER_ERR code)
  else Raised ValueError.

(** A record builder that copies the block's identity, height, weight and
    iterations, makes a block with a payload a transaction block, rejects
    a block whose finished sub-slots carry the hash 666 as one with a bad
    sub-epoch summary, and includes the sub-epoch summary of hash 777 in
    the record of a block whose finished sub-slots carry that hash. *)
Definition sample_block_to_block_record (V : Type) (_ : BlockchainInterface V)
    (constants : ConsensusConstants) (blocks : V) (required_iters : Z)
    (block : FullBlock.t) (sub_slot_iters : option Z) : outcome BlockRecord :=
  if bool_decide (666 ∈ FullBlock.finished_sub_slots block) then Raised ValueError
  else
    Returned
      {| header_hash := FullBlock.header_hash block;
         prev_hash := FullBlock.prev_header_hash block;
         height := FullBlock.height block;
         weight := FullBlock.weight block;
         total_iters := FullBlock.total_iters block;
         signage_point_index := rc_signage_point_index (FullBlock.reward_chain_block block);
         required_iters := required_iters;
         deficit := 0;
         overflow := false;
         first_in_sub_slot :=
           bool_decide (0 < length (FullBlock.finished_sub_slots block))%nat;
         is_transaction_block :=
           bool_decide (is_Some (FullBlock.execution_payload block));
         sub_slot_iters := default 10 sub_slot_iters;
         sub_epoch_summary_included :=
           if bool_decide (777 ∈ FullBlock.finished_sub_slots block)
           then Some {| ses_get_hash := 777 |} else None;
         finished_challenge_slot_hashes :=
           if bool_decide (0 < length (FullBlock.finished_sub_slots block))%nat
           then Some (FullBlock.finished_sub_slots block) else None;
         finished_reward_slot_hashes :=
           if bool_decide (0 < length (FullBlock.finished_sub_slots block))%nat
           then Some (FullBlock.finished_sub_slots block) else None;
         last_withdrawal_index := None;
         coinbase := 500 + FullBlock.header_hash block;
         reward_infusion_new_challenge := 900 + FullBlock.header_hash block |}.

(** The fork point of two records: walk the higher one back until the
    heights agree, then both until the hashes agree. *)
Fixpoint sample_find_fork_point_loop (fuel : nat) (blocks : Blockchain)
    (block_1 block_2 : BlockRecord) : outcome Z :=
  match fuel with
  | O => OutOfFuel
  | S fuel' =>
      if (0 <? height block_2) || (0 <? height block_1) then
        if height block_1 <? height block_2 then
          block_2 ← block_record blocks (prev_hash block_2);
          sample_find_fork_point_loop fuel' blocks block_1 block_2
        else if height block_2 <? height block_1 then
          block_1 ← block_record blocks (prev_hash block_1);
          sample_find_fork_point_loop fuel' blocks block_1 block_2
        else if bool_decide (header_hash block_2 = header_hash block_1) then
          Returned (height block_2)
        else
          block_2 ← block_record blocks (prev_hash block_2);
          block_1 ← block_record blocks (prev_hash block_1);
          sample_find_fork_point_loop fuel' blocks block_1 block_2
      else if bool_decide (block_2 ≠ block_1) then Returned (-1)
      else Returned 0
  end.

Definition sample_env : Collaborators :=
  {| Err_of_value := sample_Err_of_value;
     Err_value := sample_Err_value;
     block_to_block_record := sample_block_to_block_record;
     find_fork_point_in_chain blocks block_1 block_2 :=
       sample_find_fork_point_loop
         (S (Z.to_nat (height block_1) + Z.to_nat (height block_2))) blocks
         block_1 block_2;
     ip_sub_slot_total_iters r _ := total_iters r - required_iters r;
     get_next_sub_slot_iters_and_difficulty _ _ _ _ _ _ := (10, 1);
     is_overflow_block _ _ := false;
     get_block_challenge _ block _ _ _ _ := FullBlock.prev_header_hash block;
     verify_and_get_quality_string pos _ challenge _ :=
       if bool_decide (pos_proof pos = 0) then Some challenge else None;
     calculate_iterations_quality _ _ _ difficulty _ := difficulty;
     validate_finished_header_block _ _ _ _ _ := Returned (Some 1, None) |}.

(** The empty chain, and the result a valid block comes with. *)
Definition empty_store : BlockStore.t :=
  {| BlockStore.full_blocks := ∅;
     BlockStore.in_main_chain := ∅;
     BlockStore.peak := None;
     BlockStore.sub_epoch_summaries := ∅;
     BlockStore.block_cache := ∅ |}.

Definition empty_chain (constants : ConsensusConstants) (ec : ExecutionClient)
    : Blockchain :=
  {| constants := constants;
     execution_client := ec;
     _peak_height := None;
     __block_records := ∅;
     __heights_in_cache := ∅;
     __height_map :=
       {| BlockHeightMap.height_to_hash := ∅;
          BlockHeightMap.sub_epoch_summaries := ∅ |};
     block_store := empty_store |}.

Definition valid_result : PreValidationResult.t :=
  {| PreValidationResult.error := None;
     PreValidationResult.required_iters := Some 1 |}.

(** The first component of what [receive_block] returned. *)
Definition outcome_of (res : outcome receive_block_result)
    : option ReceiveBlockResult :=
  match res with
  | Returned (r, _, _) => Some r
  | _ => None
  end.

(** [receive_block] for each block of a list in turn, keeping the state. *)
Definition receive_blocks (env : Collaborators) (fuel : nat) (self : Blockchain)
    (blocks : list FullBlock.t) : Blockchain :=
  foldl (fun self block => (receive_block env fuel self block valid_result None).2)
        self blocks.

(** A cache with a gap, with BLOCKS_CACHE_SIZE 2 and the peak at height 5:
    the records of heights 3, 4, 5 (hashes 13, 14, 15), as loaded close to
    the peak when the chain is opened, and those of heights 0 and 1 (hashes
    10, 11), as a warm-up at fork point 1 loads them. *)
Definition gc_chain : Blockchain :=
  set_peak_height
    (foldl add_block_record (empty_chain sample_constants (sample_client None))
       [sample_record 13 12 3 40 true; sample_record 14 13 4 50 false;
        sample_record 15 14 5 60 true;
        sample_record 10 1000 0 10 true; sample_record 11 10 1 20 false])
    (Some 5).

(** A chain of one block: a genesis block that closes three sub-slots
    (hashes 11, 12, 13), received on the empty chain. *)
Definition rc_chain : Blockchain :=
  receive_blocks sample_env 10 (empty_chain sample_constants (sample_client None))
    [ {| FullBlock.finished_sub_slots := [11; 12; 13];
         FullBlock.reward_chain_block := sample_rcb;
         FullBlock.header_hash := 1;
         FullBlock.prev_header_hash := 1000;
         FullBlock.height := 0;
         FullBlock.weight := 10;
         FullBlock.total_iters := 100;
         FullBlock.execution_payload := None |} ].

(** An executable check of [rc_cache_ok]. *)
Definition rc_record_ok (env : Collaborators) (self : Blockchain) (r : BlockRecord)
    : bool :=
  match __block_records self !! prev_hash r with
  | Some p => height p <? height r
  | None => true
  end
  && (negb (first_in_sub_slot r)
      || (bool_decide (is_Some (finished_reward_slot_hashes r))
          && (0 <=? sub_slot_iters r)
          && (ip_sub_slot_total_iters env r (constants self) <? 2 ^ 128))).

Definition rc_cache_check (env : Collaborators) (self : Blockchain) : bool :=
  forallb (rc_record_ok env self) (snd <$> map_to_list (__block_records self)).

(** The chain of the three sample blocks 1, 2, 3 (heights 0, 1, 2). *)
Definition sample_chain : Blockchain :=
  receive_blocks sample_env 10 (empty_chain sample_constants (sample_client None))
    [sample_block 1 1000 0 10 (Some 1);
     sample_block 2 1 1 20 None;
     sample_block 3 2 2 30 (Some 1)].

(** Two children in a row for the sample chain: block 4 (height 3, on
    block 3), then block 5 (height 4, on block 4). [sample_bad_ses] is
    block 5 with a finished sub-slot whose sub-epoch summary hash the
    record builder rejects; [sample_other_ses] is block 5 with the
    sub-epoch summary of hash 777, which is not the one a weight proof
    lists; [sample_bad_pos] is block 5 with a proof of space that does not
    verify. *)
Definition sample_child : FullBlock.t := sample_block 4 3 3 40 None.

Definition sample_bad_ses : FullBlock.t :=
  {| FullBlock.finished_sub_slots := [666];
     FullBlock.reward_chain_block := sample_rcb;
     FullBlock.header_hash := 5;
     FullBlock.prev_header_hash := 4;
     FullBlock.height := 4;
     FullBlock.weight := 50;
     FullBlock.total_iters := 500;
     FullBlock.execution_payload := None |}.

Definition sample_other_ses : FullBlock.t :=
  {| FullBlock.finished_sub_slots := [777];
     FullBlock.reward_chain_block := sample_rcb;
     FullBlock.header_hash := 5;
     FullBlock.prev_header_hash := 4;
     FullBlock.height := 4;
     FullBlock.weight := 50;
     FullBlock.total_iters := 500;
     FullBlock.execution_payload := None |}.

Definition sample_bad_pos : FullBlock.t :=
  {| FullBlock.finished_sub_slots := [];
     FullBlock.reward_chain_block :=
       {| rc_signage_point_index := 0;
          challenge_chain_sp_vdf := None;
          proof_of_space := {| pos_size := 32; pos_proof := 1 |} |};
     FullBlock.header_hash := 5;
     FullBlock.prev_header_hash := 4;
     FullBlock.height := 4;
     FullBlock.weight := 50;
     FullBlock.total_iters := 500;
     FullBlock.execution_payload := None |}.

(** [n] consecutive blocks, of heights [0], ..., [n - 1] (the block of
    height [i] has hash [200 + i]), cached one after the other, with the
    peak at the last one. *)
Definition consecutive_records (n : nat) : list BlockRecord :=
  (fun i : nat =>
     sample_record (200 + Z.of_nat i) (199 + Z.of_nat i) (Z.of_nat i)
       (10 * (Z.of_nat i + 1)) true) <$> seq 0 n.

Definition consecutive_chain (n : nat) : Blockchain :=
  set_peak_height
    (foldl add_block_record (empty_chain sample_constants (sample_client None))
       (consecutive_records n))
    (Some (Z.of_nat n - 1)).

(** The set of the heights of the cached records. *)
Definition cached_heights (self : Blockchain) : gset Z :=
  list_to_set (height <$> (snd <$> map_to_list (__block_records self))).

(** A height map whose [maybe_flush] raises, and one whose
    [update_height] raises. *)
Definition flush_fails : HeightMapFailures.t :=
  {| HeightMapFailures.rollback := HeightMapFailures.rollback HeightMapFailures.total;
     HeightMapFailures.update_height :=
       HeightMapFailures.update_height HeightMapFailures.total;
     HeightMapFailures.maybe_flush hm := (Raised ValueError, hm) |}.

Definition update_height_fails : HeightMapFailures.t :=
  {| HeightMapFailures.rollback := HeightMapFailures.rollback HeightMapFailures.total;
     HeightMapFailures.update_height hm h hh ses := (Raised ValueError, hm);
     HeightMapFailures.maybe_flush :=
       HeightMapFailures.maybe_flush HeightMapFailures.total |}.

(* ===================================================================== *)
(** * Part II: properties                                                 *)
(* ===================================================================== *)

(** ** The outcome monad *)

Lemma bind_Returned {A B} (f : A -> outcome B) (a : A) :
  (Returned a ≫= f) = f a.
Proof. reflexivity. Qed.

Lemma sized_uint_in_range bits v :
  0 <= v < 2 ^ bits -> sized_uint bits v = Returned v.
Proof. intros Hv. unfold sized_uint. by rewrite bool_decide_eq_true_2. Qed.

(** ** Block rewards *)

Lemma reward_half :
  uint64_of_float (float_mul (float_lit 1 (-1)) (float_of_int _corpochain_to_gwei))
  = Returned 500000000.
Proof. vm_compute. reflexivity. Qed.

Lemma reward_quarter :
  uint64_of_float (float_mul (float_lit 1 (-2)) (float_of_int _corpochain_to_gwei))
  = Returned 250000000.
Proof. vm_compute. reflexivity. Qed.

Lemma reward_eighth :
  uint64_of_float (float_mul (float_lit 1 (-3)) (float_of_int _corpochain_to_gwei))
  = Returned 125000000.
Proof. vm_compute. reflexivity. Qed.

(** The float products of the schedule are whole numbers: the code
    computes the schedule of the design document. *)
Lemma calculate_block_reward_schedule h :
  _calculate_block_reward h = Returned (reward_schedule h).
Proof.
  unfold _calculate_block_reward, reward_schedule, _blocks_per_year.
  rewrite reward_half, reward_quarter, reward_eighth.
  repeat case_match; reflexivity.
Qed.

(** C4. For every height [h], with [Y = 4608 * 2 * 365], the block reward
    is [2 * 10^9] below [3Y], [10^9] from [3Y] below [6Y], [0.5 * 10^9]
    from [6Y] below [9Y], [0.25 * 10^9] from [9Y] below [12Y],
    [0.125 * 10^9] from [12Y] below [15Y], and [0] from [15Y] on; at
    [3Y - 1] it is [2 * 10^9] and at [3Y] it is [10^9]. *)
Theorem block_reward_by_height (h : Z) :
  let Y := 4608 * 2 * 365 in
  (h < 3 * Y -> _calculate_block_reward h = Returned 2000000000) /\
  (3 * Y <= h < 6 * Y -> _calculate_block_reward h = Returned 1000000000) /\
  (6 * Y <= h < 9 * Y -> _calculate_block_reward h = Returned 500000000) /\
  (9 * Y <= h < 12 * Y -> _calculate_block_reward h = Returned 250000000) /\
  (12 * Y <= h < 15 * Y -> _calculate_block_reward h = Returned 125000000) /\
  (15 * Y <= h -> _calculate_block_reward h = Returned 0) /\
  _calculate_block_reward (3 * Y - 1) = Returned 2000000000 /\
  _calculate_block_reward (3 * Y) = Returned 1000000000.
Proof.
  intros Y. rewrite !calculate_block_reward_schedule.
  unfold reward_schedule. fold Y.
  repeat split; try reflexivity; intros Hh;
    repeat (case_match; try reflexivity); lia.
Qed.

Lemma block_reward_by_height_witness :
  _calculate_block_reward 25000000 = Returned 500000000.
Proof.
  pose proof (block_reward_by_height 25000000) as H. cbv zeta in H.
  destruct H as (_ & _ & H & _). apply H. lia.
Defined.

(** ** Withdrawals *)

Section Withdrawals.
Context {V : Type} `{!BlockchainInterface V}.
Variable constants : ConsensusConstants.
Variable blocks : V.

(** The loop appends one reward withdrawal per record of the walk. *)
Lemma create_withdrawals_loop_walk curr records :
  reward_walk constants blocks curr records ->
  forall fuel index withdrawals,
    (length records <= fuel)%nat ->
    create_withdrawals_loop fuel constants blocks curr index withdrawals
    = Returned (withdrawals ++ reward_withdrawals index records).
Proof.
  induction 1 as [curr Hg | curr parent Hg Hp Htx | curr parent rest Hg Hp Htx Hw IH];
    intros [|fuel] index withdrawals Hfuel; simpl in Hfuel; try lia;
    simpl; rewrite calculate_block_reward_schedule; simpl.
  - by rewrite bool_decide_eq_true_2.
  - rewrite bool_decide_eq_false_2 by done. rewrite Hp. simpl. by rewrite Htx.
  - rewrite bool_decide_eq_false_2 by done. rewrite Hp. simpl. rewrite Htx.
    rewrite IH by lia. by rewrite <- app_assoc.
Qed.

(** C3. When the walk back from [prev] reaches a record whose [prev_hash]
    is the genesis challenge, or a transaction block, [create_withdrawals]
    returns: first index [prev.last_withdrawal_index + 1] (0 when there is
    none); the prefarm withdrawal first when [prev.height == 0]; then one
    reward withdrawal, with consecutive indices, for [prev] and each
    record of the walk, the closing transaction block excluded. *)
Theorem create_withdrawals_walk (fuel : nat) (prev : BlockRecord)
    (records : list BlockRecord) :
  reward_walk constants blocks prev records ->
  (length records <= fuel)%nat ->
  create_withdrawals fuel constants prev blocks
  = Returned (expected_withdrawals constants prev records).
Proof.
  intros Hw Hfuel.
  unfold create_withdrawals, create_withdrawals_prefarm, expected_withdrawals,
    first_withdrawal_index.
  case_bool_decide; rewrite (create_withdrawals_loop_walk _ _ Hw) by done;
    reflexivity.
Qed.
End Withdrawals.

Lemma create_withdrawals_walk_witness :
  create_withdrawals 2 sample_constants (sample_record 3 2 2 30 true) sample_cache
  = Returned (expected_withdrawals sample_constants (sample_record 3 2 2 30 true)
                [sample_record 3 2 2 30 true; sample_record 2 1 1 20 false]).
Proof.
  apply create_withdrawals_walk; [| simpl; lia].
  eapply walk_ancestor; [discriminate | reflexivity | reflexivity |].
  eapply walk_transaction_block; [discriminate | reflexivity | reflexivity].
Defined.

(** ** Body validation *)

(** Case analysis on the status tests of the code and of the table. *)
Ltac status_cases :=
  unfold status_is, consults_forkchoice in *;
  repeat (case_bool_decide; simpl in *; subst; try done);
  repeat match goal with
         | H : _ ∈ _ :: _ |- _ => apply elem_of_cons in H as [->|H]
         | H : _ ∈ [] |- _ => by apply elem_of_nil in H
         | H : ¬ (_ ∈ _) |- _ => exfalso; apply H; set_solver
         | H : ?s ≠ ?s |- _ => by destruct H
         end;
  try done.

Lemma validate_block_body_unfinished ec b h r payload :
  UnfinishedBlock.execution_payload b = Some payload ->
  validate_block_body ec (Unfinished b) h r
  = (Returned (unfinished_block_policy (respond ec (calls ec) (NewPayload payload))),
     (new_payload ec payload).2).
Proof.
  intros Hp. unfold validate_block_body, unfinished_block_policy. simpl.
  rewrite Hp. unfold new_payload, engine_call. simpl.
  generalize (respond ec (calls ec) (NewPayload payload)); intros status.
  status_cases.
Qed.

Lemma validate_block_body_forkchoice_full ec b r :
  validate_block_body_forkchoice ec (Full b) (Some r)
  = (Returned
       (let fc := respond ec (calls ec) (ForkchoiceUpdate r) in
        if bool_decide (fc ∈ ["INVALID"; "INVALID_BLOCK_HASH"]) then
          Some PAYLOAD_INVALIDATED
        else if bool_decide (fc ∈ ["SYNCING"; "ACCEPTED"]) then
          if default true (config ec !! "optimistic_import") then None
          else Some PAYLOAD_NOT_VALIDATED
        else if bool_decide (fc = "VALID") then None
        else Some UNKNOWN),
     (forkchoice_update ec r).2).
Proof.
  unfold validate_block_body_forkchoice, forkchoice_update, engine_call. simpl.
  generalize (respond ec (calls ec) (ForkchoiceUpdate r)); intros status.
  destruct (default true (config ec !! "optimistic_import")); status_cases.
Qed.

Lemma validate_block_body_full ec b r payload :
  FullBlock.execution_payload b = Some payload ->
  let np := respond ec (calls ec) (NewPayload payload) in
  let ec1 := (new_payload ec payload).2 in
  validate_block_body ec (Full b) (FullBlock.height b) (Some r)
  = (Returned (full_block_policy np (respond ec1 (calls ec1) (ForkchoiceUpdate r))
                 (default true (config ec !! "optimistic_import"))),
     if consults_forkchoice np then (forkchoice_update ec1 r).2 else ec1).
Proof.
  intros Hp np ec1. unfold validate_block_body, full_block_policy. simpl.
  rewrite bool_decide_eq_true_2 by done. simpl. rewrite Hp.
  unfold new_payload, engine_call in *. simpl in *.
  rewrite !validate_block_body_forkchoice_full. fold np. simpl.
  subst ec1. simpl. generalize np; intros status.
  status_cases.
Qed.

(** C2. [validate_block_body] implements the policy table. Unfinished
    block with a payload: [new_payload] INVALID or INVALID_BLOCK_HASH gives
    PAYLOAD_INVALIDATED, SYNCING or ACCEPTED gives PAYLOAD_NOT_VALIDATED,
    VALID gives [None], anything else UNKNOWN, and [forkchoice_update] is
    not called. Full block with a payload: [new_payload] INVALID or
    INVALID_BLOCK_HASH gives PAYLOAD_INVALIDATED, an unrecognized status
    UNKNOWN; otherwise [forkchoice_update] is called, and INVALID or
    INVALID_BLOCK_HASH gives PAYLOAD_INVALIDATED, SYNCING or ACCEPTED gives
    [None] when [optimistic_import] is on and PAYLOAD_NOT_VALIDATED when
    it is off, VALID gives [None], anything else UNKNOWN. *)
Theorem validate_block_body_policy (ec : ExecutionClient)
    (payload : ExecutionPayloadV2) :
  let np := respond ec (calls ec) (NewPayload payload) in
  let asked := calls ec ++ [NewPayload payload] in
  (forall b h r,
      UnfinishedBlock.execution_payload b = Some payload ->
      let res := validate_block_body ec (Unfinished b) h r in
      res.1 = Returned (unfinished_block_policy np) /\ calls res.2 = asked) /\
  (forall b r,
      FullBlock.execution_payload b = Some payload ->
      let fc := respond ec asked (ForkchoiceUpdate r) in
      let res := validate_block_body ec (Full b) (FullBlock.height b) (Some r) in
      res.1 = Returned (full_block_policy np fc
                          (default true (config ec !! "optimistic_import"))) /\
      calls res.2 =
        if consults_forkchoice np then asked ++ [ForkchoiceUpdate r] else asked).
Proof.
  intros np asked. split.
  - intros b h r Hp res. subst res.
    rewrite (validate_block_body_unfinished _ _ _ _ _ Hp). done.
  - intros b r Hp fc res. subst res.
    rewrite (validate_block_body_full _ _ _ _ Hp). simpl. split; [done|].
    fold np. by destruct (consults_forkchoice np).
Qed.

(** Engine SYNCING on [forkchoice_update]: a full block is rejected with
    PAYLOAD_NOT_VALIDATED when [optimistic_import] is off, and accepted
    when it is on or not configured; an unfinished block whose payload the
    engine is still syncing is rejected. *)
Lemma validate_block_body_policy_witness :
  (validate_block_body (sample_client (Some false))
     (Full (sample_block 3 2 2 30 (Some 1))) 2 (Some (sample_record 3 2 2 30 true))).1
  = Returned (Some PAYLOAD_NOT_VALIDATED) /\
  (validate_block_body (sample_client None)
     (Full (sample_block 3 2 2 30 (Some 1))) 2 (Some (sample_record 3 2 2 30 true))).1
  = Returned None /\
  (validate_block_body (sample_client None)
     (Unfinished (sample_unfinished 2 (Some 2))) 3 None).1
  = Returned (Some PAYLOAD_NOT_VALIDATED).
Proof.
  split; [|split].
  - exact (proj1 (proj2 (validate_block_body_policy (sample_client (Some false))
                           {| payload_block_hash := 1 |})
                    (sample_block 3 2 2 30 (Some 1)) (sample_record 3 2 2 30 true)
                    eq_refl)).
  - exact (proj1 (proj2 (validate_block_body_policy (sample_client None)
                           {| payload_block_hash := 1 |})
                    (sample_block 3 2 2 30 (Some 1)) (sample_record 3 2 2 30 true)
                    eq_refl)).
  - exact (proj1 (proj1 (validate_block_body_policy (sample_client None)
                           {| payload_block_hash := 2 |})
                    (sample_unfinished 2 (Some 2)) 3 None eq_refl)).
Defined.

(** C10. A block without an execution payload, full or unfinished, is
    accepted: [validate_block_body] returns [None] (given the height the
    function asserts for a full block), calls neither [new_payload] nor
    [forkchoice_update], and never answers with an error code. *)
Theorem validate_block_body_no_payload (ec : ExecutionClient) (block : Block)
    (h : Z) (r : option BlockRecord) :
  block_execution_payload block = None ->
  let res := validate_block_body ec block h r in
  res.2 = ec /\
  (forall err, res.1 ≠ Returned (Some err)) /\
  (match block with
   | Full b => h = FullBlock.height b
   | Unfinished _ => True
   end -> res = (Returned None, ec)).
Proof.
  intros Hp res. subst res. unfold validate_block_body. rewrite Hp.
  destruct block as [b|b]; simpl.
  - case_bool_decide; simpl; (split; [done|]); (split; [done|]); done.
  - done.
Qed.

Lemma validate_block_body_no_payload_witness :
  validate_block_body (sample_client None) (Full (sample_block 3 2 2 30 None)) 2
    (Some (sample_record 3 2 2 30 true))
  = (Returned None, sample_client None) /\
  validate_block_body (sample_client None) (Unfinished (sample_unfinished 2 None)) 3 None
  = (Returned None, sample_client None).
Proof.
  split.
  - exact (proj2 (proj2 (validate_block_body_no_payload (sample_client None)
                           (Full (sample_block 3 2 2 30 None)) 2
                           (Some (sample_record 3 2 2 30 true)) eq_refl)) eq_refl).
  - exact (proj2 (proj2 (validate_block_body_no_payload (sample_client None)
                           (Unfinished (sample_unfinished 2 None)) 3 None eq_refl)) I).
Defined.

(** ** [receive_block]: the checks before insertion *)

Section ReceiveBlock.
Variable env : Collaborators.
Variable fuel : nat.

Lemma contains_block_lookup (self : Blockchain) (hh : Z) :
  contains_block self hh = bool_decide (is_Some (__block_records self !! hh)).
Proof. reflexivity. Qed.

(** The duplicate check comes first. *)
Lemma receive_block_cached (self : Blockchain) (block : FullBlock.t)
    (pre_validation_result : PreValidationResult.t)
    (fork_point_with_peak : option Z) :
  is_Some (__block_records self !! FullBlock.header_hash block) ->
  receive_block env fuel self block pre_validation_result fork_point_with_peak
  = (Returned (ALREADY_HAVE_BLOCK, None, None), self).
Proof.
  intros Hc. unfold receive_block. rewrite contains_block_lookup.
  by rewrite bool_decide_eq_true_2.
Qed.

(** C1. The checks before insertion, in order: a block whose header hash
    is cached gives (ALREADY_HAVE_BLOCK, no error); otherwise a block that
    is not genesis and whose parent is not cached gives (DISCONNECTED_BLOCK,
    INVALID_PREV_BLOCK_HASH); otherwise a block that is not genesis and
    whose height is not the parent's plus one gives (INVALID_BLOCK,
    INVALID_HEIGHT); otherwise a pre-validation result with an error gives
    (INVALID_BLOCK, that error). In the four cases there is no
    [StateChangeSummary] and the state (store, cache, height map, peak) is
    the one before the call. *)
Theorem receive_block_checks (self : Blockchain) (block : FullBlock.t)
    (pre_validation_result : PreValidationResult.t)
    (fork_point_with_peak : option Z) :
  let run := receive_block env fuel self block pre_validation_result
               fork_point_with_peak in
  let cached hh := is_Some (__block_records self !! hh) in
  let genesis := FullBlock.height block = 0 in
  (cached (FullBlock.header_hash block) ->
     run = (Returned (ALREADY_HAVE_BLOCK, None, None), self)) /\
  (¬ cached (FullBlock.header_hash block) ->
   ¬ genesis -> ¬ cached (FullBlock.prev_header_hash block) ->
     run = (Returned (DISCONNECTED_BLOCK, Some INVALID_PREV_BLOCK_HASH, None), self)) /\
  (¬ cached (FullBlock.header_hash block) ->
   ¬ genesis ->
   forall parent,
     __block_records self !! FullBlock.prev_header_hash block = Some parent ->
     height parent + 1 ≠ FullBlock.height block ->
     run = (Returned (INVALID_BLOCK, Some INVALID_HEIGHT, None), self)) /\
  (¬ cached (FullBlock.header_hash block) ->
   (genesis \/
    exists parent,
      __block_records self !! FullBlock.prev_header_hash block = Some parent /\
      height parent + 1 = FullBlock.height block) ->
   forall code err,
     PreValidationResult.error pre_validation_result = Some code ->
     Err_of_value env code = Returned err ->
     run = (Returned (INVALID_BLOCK, Some err, None), self)).
Proof.
  intros run cached genesis. subst run cached genesis.
  split; [apply receive_block_cached|].
  unfold receive_block. rewrite !contains_block_lookup.
  repeat split.
  - intros Hc Hg Hp. rewrite (bool_decide_eq_false_2 _ Hc).
    rewrite (bool_decide_eq_false_2 _ Hp), (bool_decide_eq_false_2 _ Hg). done.
  - intros Hc Hg parent Hp Hh. rewrite (bool_decide_eq_false_2 _ Hc).
    rewrite bool_decide_eq_true_2 by eauto.
    rewrite (bool_decide_eq_false_2 _ Hg). simpl.
    unfold dict_get. rewrite Hp. simpl.
    by rewrite bool_decide_eq_true_2.
  - intros Hc Hpar code err Hcode Herr. rewrite (bool_decide_eq_false_2 _ Hc).
    destruct Hpar as [Hg | (parent & Hp & Hh)].
    + rewrite (bool_decide_eq_true_2 _ Hg), andb_false_r. simpl.
      by rewrite Hcode, Herr.
    + rewrite bool_decide_eq_true_2 by eauto. simpl.
      case_bool_decide; simpl.
      * by rewrite Hcode, Herr.
      * unfold dict_get. rewrite Hp. simpl.
        rewrite bool_decide_eq_false_2 by (intros Hne; by apply Hne).
        by rewrite Hcode, Herr.
Qed.
End ReceiveBlock.

(** Lookups in a concrete cache. *)
Ltac cached := vm_compute; eexists; reflexivity.
Ltac not_cached := let H := fresh in intros [? H]; vm_compute in H; discriminate H.

(** On the sample chain (blocks 1, 2, 3 at heights 0, 1, 2): block 3
    again; a block whose parent 8 is unknown; a child of block 3 at height
    7; a child of block 3 at height 3 that failed pre-validation. *)
Lemma receive_block_checks_witness :
  receive_block sample_env 10 sample_chain (sample_block 3 2 2 30 (Some 1))
    valid_result None
  = (Returned (ALREADY_HAVE_BLOCK, None, None), sample_chain) /\
  receive_block sample_env 10 sample_chain (sample_block 9 8 3 40 None)
    valid_result None
  = (Returned (DISCONNECTED_BLOCK, Some INVALID_PREV_BLOCK_HASH, None), sample_chain) /\
  receive_block sample_env 10 sample_chain (sample_block 9 3 7 40 None)
    valid_result None
  = (Returned (INVALID_BLOCK, Some INVALID_HEIGHT, None), sample_chain) /\
  receive_block sample_env 10 sample_chain (sample_block 9 3 3 40 None)
    {| PreValidationResult.error := Some 4;
       PreValidationResult.required_iters := None |} None
  = (Returned (INVALID_BLOCK, Some INVALID_POSPACE, None), sample_chain).
Proof.
  split; [|split; [|split]].
  - apply (proj1 (receive_block_checks sample_env 10 sample_chain
                    (sample_block 3 2 2 30 (Some 1)) valid_result None)).
    cached.
  - apply (proj1 (proj2 (receive_block_checks sample_env 10 sample_chain
                           (sample_block 9 8 3 40 None) valid_result None)));
      [not_cached | discriminate | not_cached].
  - apply (proj1 (proj2 (proj2 (receive_block_checks sample_env 10 sample_chain
                                  (sample_block 9 3 7 40 None) valid_result None)))
             ltac:(not_cached) ltac:(discriminate) (sample_record 3 2 2 30 true));
      [vm_compute; reflexivity | discriminate].
  - apply (proj2 (proj2 (proj2 (receive_block_checks sample_env 10 sample_chain
                                  (sample_block 9 3 3 40 None)
                                  {| PreValidationResult.error := Some 4;
                                     PreValidationResult.required_iters := None |}
                                  None)))
             ltac:(not_cached)
             ltac:(right; exists (sample_record 3 2 2 30 true);
                   split; vm_compute; reflexivity)
             4 INVALID_POSPACE eq_refl eq_refl).
Defined.

(** ** [receive_block]: orphans *)

Lemma get_peak_frame (self self' : Blockchain) :
  _peak_height self' = _peak_height self ->
  __height_map self' = __height_map self ->
  __block_records self' = __block_records self ->
  get_peak self' = get_peak self.
Proof.
  intros Hp Hm Hr.
  unfold get_peak, height_to_block_record, height_to_hash. simpl.
  by rewrite Hp, Hm, Hr.
Qed.

(** A peak that is found stays the peak when a record is cached under a
    hash that was not cached before. *)
Lemma get_peak_add_block_record (self : Blockchain) (r peak : BlockRecord) :
  ¬ is_Some (__block_records self !! header_hash r) ->
  get_peak self = Returned (Some peak) ->
  get_peak (add_block_record self r) = Returned (Some peak).
Proof.
  intros Hnew. unfold get_peak, height_to_block_record, height_to_hash. simpl.
  destruct (_peak_height self) as [h|]; [|done].
  destruct (negb _); simpl; [done|].
  destruct (BlockHeightMap.get_hash _ _) as [hh| |]; simpl; try done.
  unfold dict_get.
  destruct (__block_records self !! hh) as [p|] eqn:Hp; simpl; [|done].
  intros [= ->]. rewrite lookup_insert_ne; [by rewrite Hp|].
  intros <-. apply Hnew. by rewrite Hp.
Qed.

Section ReceiveOrphan.
Variable env : Collaborators.
Variable fuel : nat.

(** C5. A block that is not genesis, passes the checks before insertion
    and the body validation, and whose record weighs no more than the
    peak, gives (ADDED_AS_ORPHAN, no error, no summary); the peak pointer
    of the store, the [_peak_height] cursor, the in-chain marks and the
    height map are as before; the block is persisted and its record
    cached. *)
Theorem receive_block_orphan (self : Blockchain) (block : FullBlock.t)
    (pre_validation_result : PreValidationResult.t)
    (fork_point_with_peak : option Z)
    (parent block_rec peak : BlockRecord) (iters : Z) :
  FullBlock.height block ≠ 0 ->
  ¬ is_Some (__block_records self !! FullBlock.header_hash block) ->
  __block_records self !! FullBlock.prev_header_hash block = Some parent ->
  height parent + 1 = FullBlock.height block ->
  PreValidationResult.error pre_validation_result = None ->
  PreValidationResult.required_iters pre_validation_result = Some iters ->
  block_to_block_record env Blockchain _ (constants self) self iters block None
  = Returned block_rec ->
  (validate_block_body (execution_client self) (Full block)
     (FullBlock.height block) (Some block_rec)).1 = Returned None ->
  get_peak self = Returned (Some peak) ->
  weight block_rec <= weight peak ->
  let run := receive_block env fuel self block pre_validation_result
               fork_point_with_peak in
  run.1 = Returned (ADDED_AS_ORPHAN, None, None) /\
  BlockStore.peak (block_store run.2) = BlockStore.peak (block_store self) /\
  _peak_height run.2 = _peak_height self /\
  BlockStore.in_main_chain (block_store run.2)
  = BlockStore.in_main_chain (block_store self) /\
  __height_map run.2 = __height_map self /\
  BlockStore.full_blocks (block_store run.2)
  = <[FullBlock.header_hash block := (block, block_rec)]>
      (BlockStore.full_blocks (block_store self)) /\
  __block_records run.2
  = <[header_hash block_rec := block_rec]> (__block_records self) /\
  (header_hash block_rec = FullBlock.header_hash block ->
   get_peak run.2 = Returned (Some peak)).
Proof.
  intros Hng Hnew Hparent Hheight Herr Hiters Hrec Hbody Hpeak Hweight run.
  subst run. unfold receive_block. rewrite !contains_block_lookup.
  rewrite (bool_decide_eq_false_2 _ Hnew).
  rewrite (bool_decide_eq_true_2 (is_Some _)) by eauto.
  rewrite (bool_decide_eq_false_2 _ Hng). simpl.
  unfold dict_get. rewrite Hparent. simpl.
  rewrite bool_decide_eq_false_2 by (intros Hne; by apply Hne).
  rewrite Herr, Hiters, Hrec.
  destruct (validate_block_body _ _ _ _) as [code ec] eqn:Hvb.
  simpl in Hbody. subst code.
  unfold receive_block_commit, _reconsider_peak.
  erewrite (get_peak_frame self); [| reflexivity ..].
  rewrite Hpeak. simpl.
  rewrite (proj2 (Z.leb_le _ _) Hweight). simpl.
  do 7 (split; [reflexivity|]).
  intros Hhash.
  erewrite (get_peak_frame (Blockchain_add_block_record self block_rec));
    [| reflexivity ..].
  apply (get_peak_add_block_record self); [by rewrite Hhash | done].
Qed.
End ReceiveOrphan.

(** On the sample chain, whose peak is block 3 (height 2, weight 30): a
    second child of block 2, of weight 25. *)
Lemma receive_block_orphan_witness :
  let run := receive_block sample_env 10 sample_chain (sample_block 4 2 2 25 None)
               valid_result None in
  run.1 = Returned (ADDED_AS_ORPHAN, None, None) /\
  BlockStore.peak (block_store run.2) = Some 3 /\
  _peak_height run.2 = Some 2 /\
  (height <$> __block_records run.2 !! 4) = Some 2.
Proof.
  intros run.
  edestruct (receive_block_orphan sample_env 10 sample_chain
               (sample_block 4 2 2 25 None) valid_result None)
    as (H1 & H2 & H3 & _ & _ & _ & H7 & _).
  - discriminate.
  - not_cached.
  - vm_compute. reflexivity.
  - vm_compute. reflexivity.
  - reflexivity.
  - reflexivity.
  - vm_compute. reflexivity.
  - vm_compute. reflexivity.
  - vm_compute. reflexivity.
  - simpl. lia.
  - subst run. rewrite H1, H2, H3, H7. repeat split.
Defined.

(** ** [receive_block]: the same block twice *)

Section ReceiveTwice.
Variable env : Collaborators.
Variable fuel : nat.

(** When the transaction commits, the record built for the block is in
    the cache. *)
Lemma receive_block_commit_cached (self self' : Blockchain) (block : FullBlock.t)
    (block_rec : BlockRecord) (genesis : bool) (fork_point_with_peak : option Z)
    (res : receive_block_result) :
  receive_block_commit env fuel self block block_rec genesis fork_point_with_peak
  = (Returned res, self') ->
  __block_records self' !! header_hash block_rec = Some block_rec.
Proof.
  unfold receive_block_commit.
  destruct (_reconsider_peak _ _ _ _ _ _) as [[[records summary] store]| |];
    [| discriminate | discriminate].
  destruct summary; intros [= _ <-]; simpl; apply lookup_insert_eq.
Qed.

(** A call that reports a new peak or an orphan went through the commit. *)
Lemma receive_block_added (self self' : Blockchain) (block : FullBlock.t)
    (pre_validation_result : PreValidationResult.t)
    (fork_point_with_peak : option Z) (res : receive_block_result) :
  receive_block env fuel self block pre_validation_result fork_point_with_peak
  = (Returned res, self') ->
  res.1.1 = NEW_PEAK \/ res.1.1 = ADDED_AS_ORPHAN ->
  exists iters block_rec,
    block_to_block_record env Blockchain _ (constants self) self iters block None
    = Returned block_rec /\
    __block_records self' !! header_hash block_rec = Some block_rec.
Proof.
  unfold receive_block. intros Hrun Hres.
  repeat (case_match; simplify_eq; simpl in *; try by destruct Hres).
  all: eauto using receive_block_commit_cached.
Qed.

(** C6. When [receive_block(B)] returns NEW_PEAK, a second call with the
    same arguments returns ALREADY_HAVE_BLOCK and leaves the state (the
    persistent store, the record cache, the height map, the peak) as the
    first call left it. The record built for a block carries the block's
    header hash. *)
Theorem receive_block_twice (self self' : Blockchain) (block : FullBlock.t)
    (pre_validation_result : PreValidationResult.t)
    (fork_point_with_peak : option Z) (summary : option StateChangeSummary.t) :
  (forall iters block_rec,
      block_to_block_record env Blockchain _ (constants self) self iters block None
      = Returned block_rec ->
      header_hash block_rec = FullBlock.header_hash block) ->
  receive_block env fuel self block pre_validation_result fork_point_with_peak
  = (Returned (NEW_PEAK, None, summary), self') ->
  receive_block env fuel self' block pre_validation_result fork_point_with_peak
  = (Returned (ALREADY_HAVE_BLOCK, None, None), self').
Proof.
  intros Hhash Hfirst.
  destruct (receive_block_added _ _ _ _ _ _ Hfirst) as (iters & block_rec & Hrec & Hin);
    [by left|].
  apply receive_block_cached.
  rewrite <- (Hhash _ _ Hrec). eauto.
Qed.
End ReceiveTwice.

(** The first sample block on the empty chain, twice. *)
Lemma receive_block_twice_witness :
  let chain := empty_chain sample_constants (sample_client None) in
  let block := sample_block 1 1000 0 10 (Some 1) in
  let first := receive_block sample_env 10 chain block valid_result None in
  outcome_of first.1 = Some NEW_PEAK /\
  receive_block sample_env 10 first.2 block valid_result None
  = (Returned (ALREADY_HAVE_BLOCK, None, None), first.2).
Proof.
  intros chain block first. split; [reflexivity|].
  eapply (receive_block_twice sample_env 10 chain).
  - intros iters block_rec. unfold block_to_block_record. simpl.
    unfold sample_block_to_block_record. case_bool_decide; [done|].
    by intros [= <-].
  - subst first. vm_compute. reflexivity.
Defined.

(** ** Cache garbage collection *)

(** Deleting a list of distinct cached hashes one by one raises nothing. *)
Lemma foldl_dict_del (l : list Z) :
  forall records : gmap Z BlockRecord,
    NoDup l ->
    (forall hh, hh ∈ l -> is_Some (records !! hh)) ->
    exists records',
      foldl (fun acc hh => records ← acc; dict_del records hh) (Returned records) l
      = Returned records' /\
      forall hh, records' !! hh = if decide (hh ∈ l) then None else records !! hh.
Proof.
  induction l as [|x l IH]; intros records Hnd Hin; simpl.
  - exists records. split; [done|]. intros hh.
    destruct (decide (hh ∈ [])) as [H|_]; [by apply elem_of_nil in H | done].
  - apply NoDup_cons in Hnd as [Hx Hnd].
    destruct (Hin x) as [r Hr]; [set_solver|].
    unfold dict_del at 2. rewrite Hr.
    destruct (IH (delete x records) Hnd) as (records' & Hfold & Hlook).
    + intros hh Hhh. rewrite lookup_delete_ne by (intros ->; done).
      apply Hin. set_solver.
    + exists records'. split; [done|]. intros hh. rewrite Hlook.
      destruct (decide (hh = x)) as [->|Hne].
      * rewrite lookup_delete_eq.
        destruct (decide (x ∈ l)); destruct (decide (x ∈ x :: l)) as [|Hn];
          try done; destruct Hn; by left.
      * rewrite lookup_delete_ne by done.
        destruct (decide (hh ∈ l)) as [Hl|Hl];
          destruct (decide (hh ∈ x :: l)) as [Hxl|Hxl]; try done.
        -- destruct Hxl. by right.
        -- apply elem_of_cons in Hxl as [?|?]; done.
Qed.

Lemma del_block_records_cached (records : gmap Z BlockRecord) (s : gset Z) :
  (forall hh, hh ∈ s -> is_Some (records !! hh)) ->
  exists records',
    del_block_records records s = Returned records' /\
    forall hh, records' !! hh = if decide (hh ∈ s) then None else records !! hh.
Proof.
  intros Hin. unfold del_block_records.
  destruct (foldl_dict_del (elements s) records) as (records' & Hfold & Hlook).
  - apply NoDup_elements.
  - intros hh Hhh. apply Hin. by apply elem_of_elements.
  - exists records'. split; [done|]. intros hh. rewrite Hlook.
    destruct (decide (hh ∈ elements s)) as [H|H]; destruct (decide (hh ∈ s)) as [H'|H'];
      try done; rewrite elem_of_elements in H; done.
Qed.

Lemma cached_run_top (heights : gmap Z (gset Z)) (h : Z) :
  0 <= h -> is_Some (heights !! h) -> cached_run heights h h.
Proof.
  intros Hh Hs. split; [lia|]. intros j Hj. by replace j with h by lia.
Qed.

Lemma cached_run_absent (heights : gmap Z (gset Z)) (k h : Z) :
  heights !! h = None -> ¬ cached_run heights k h.
Proof.
  intros Hn [Hk Hrun]. destruct (Hrun h) as [s Hs]; [lia|]. congruence.
Qed.

(** Below [h], the run that ends at [h] is the run that ends at [h - 1]
    once the entry for [h] is deleted. *)
Lemma cached_run_delete (heights : gmap Z (gset Z)) (k h : Z) :
  is_Some (heights !! h) -> k < h ->
  cached_run heights k h <-> cached_run (delete h heights) k (h - 1).
Proof.
  intros Hs Hk. split; intros [Hr Hrun]; (split; [lia|]); intros j Hj.
  - rewrite lookup_delete_ne by lia. apply Hrun. lia.
  - destruct (decide (j = h)) as [->|Hne]; [done|].
    specialize (Hrun j ltac:(lia)). by rewrite lookup_delete_ne in Hrun by lia.
Qed.

(** What the records of a consistent cache become when the index entry
    [to_remove] of height [h] and its records are deleted. *)
Lemma clean_one_height (self : Blockchain) (h : Z) (to_remove : gset Z) :
  cache_consistent self ->
  __heights_in_cache self !! h = Some to_remove ->
  exists records',
    del_block_records (__block_records self) to_remove = Returned records' /\
    cache_consistent (set_cache self records' (delete h (__heights_in_cache self))) /\
    (forall hh, __block_records self !! hh = None -> records' !! hh = None) /\
    (forall hh r, __block_records self !! hh = Some r ->
                  records' !! hh = if decide (height r = h) then None else Some r).
Proof.
  intros Hc Hh.
  assert (Hmem : forall hh, hh ∈ to_remove <->
                   exists r, __block_records self !! hh = Some r /\ height r = h).
  { intros hh. rewrite <- (Hc h hh). split.
    - intros Hin. eauto.
    - intros (s & Hs & Hin). congruence. }
  destruct (del_block_records_cached (__block_records self) to_remove)
    as (records' & Hdel & Hlook).
  { intros hh Hin. apply Hmem in Hin as (r & Hr & _). eauto. }
  assert (Hsome : forall hh r, __block_records self !! hh = Some r ->
                    records' !! hh = if decide (height r = h) then None else Some r).
  { intros hh r Hr. rewrite Hlook.
    destruct (decide (hh ∈ to_remove)) as [Hin|Hin]; destruct (decide (height r = h)) as [He|He];
      try done.
    - apply Hmem in Hin as (r' & Hr' & Hh'). congruence.
    - exfalso. apply Hin, Hmem. eauto. }
  exists records'. split; [done|]. split; [|split; [|done]].
  - intros h' hh. simpl. split.
    + intros (s & Hs & Hin).
      destruct (decide (h' = h)) as [->|Hne]; [by rewrite lookup_delete_eq in Hs|].
      rewrite lookup_delete_ne in Hs by done.
      destruct (proj1 (Hc h' hh)) as (r & Hr & Hrh); [eauto|].
      exists r. split; [|done]. rewrite (Hsome _ _ Hr).
      by rewrite decide_False by congruence.
    + intros (r & Hr & Hrh). rewrite Hlook in Hr.
      destruct (decide (hh ∈ to_remove)) as [|Hin]; [done|].
      destruct (decide (h' = h)) as [->|Hne].
      * exfalso. apply Hin, Hmem. eauto.
      * rewrite lookup_delete_ne by done. apply Hc. eauto.
  - intros hh Hn. rewrite Hlook. by destruct (decide _).
Qed.

(** The loop of [clean_block_record] on a consistent cache: it returns,
    keeps the cache consistent, and removes the records whose height lies
    in the unbroken run of cached heights that ends at [h], and no other. *)
Lemma clean_block_record_loop_run (fuel : nat) :
  forall (self : Blockchain) (h : Z),
    cache_consistent self ->
    0 <= h < 2 ^ 32 ->
    (Z.to_nat h < fuel)%nat ->
    exists self',
      clean_block_record_loop fuel self h (__heights_in_cache self !! h)
      = Returned self' /\
      cache_consistent self' /\
      (forall hh, __block_records self !! hh = None ->
                  __block_records self' !! hh = None) /\
      (forall hh r, __block_records self !! hh = Some r ->
                    cached_run (__heights_in_cache self) (height r) h ->
                    __block_records self' !! hh = None) /\
      (forall hh r, __block_records self !! hh = Some r ->
                    ¬ cached_run (__heights_in_cache self) (height r) h ->
                    __block_records self' !! hh = Some r).
Proof.
  induction fuel as [|fuel IH]; intros self h Hc Hh Hfuel; [lia|].
  assert (Hu : uint32 h = Returned h) by (by apply sized_uint_in_range).
  assert (Hu' : h ≠ 0 -> uint32 (h - 1) = Returned (h - 1)).
  { intros Hne. apply sized_uint_in_range. lia. }
  destruct (__heights_in_cache self !! h) as [to_remove|] eqn:Hidx; simpl.
  2:{ exists self. do 3 (split; [done|]). split; [|done].
      intros hh r _ Hrun. by apply cached_run_absent in Hrun. }
  rewrite (proj2 (Z.leb_le 0 h)) by lia. simpl.
  destruct (clean_one_height self h to_remove Hc Hidx)
    as (records' & -> & Hc' & Hnone & Hsome).
  simpl. rewrite Hu. simpl.
  unfold dict_del. rewrite Hidx. simpl.
  assert (Htop : is_Some (__heights_in_cache self !! h)) by eauto.
  case_bool_decide as Hzero.
  - eexists. split; [done|]. split; [done|]. split; [done|]. simpl. split.
    + intros hh r Hr [Hk _]. rewrite (Hsome _ _ Hr). rewrite decide_True; [done|]. lia.
    + intros hh r Hr Hrun. rewrite (Hsome _ _ Hr). rewrite decide_False; [done|].
      intros Heq. apply Hrun. rewrite Heq. by apply cached_run_top; [lia|].
  - rewrite (Hu' Hzero). simpl.
    destruct (IH _ (h - 1) Hc') as (self' & Hloop & Hc'' & Hnone' & Hin' & Hout');
      [lia | lia |].
    simpl in Hloop.
    exists self'. split; [done|]. split; [done|]. simpl in *. split; [|split].
    + intros hh Hn. apply Hnone', Hnone, Hn.
    + intros hh r Hr Hrun. specialize (Hsome _ _ Hr).
      destruct (decide (height r = h)) as [Heq|Hne]; simpl in Hsome.
      * by apply Hnone'.
      * apply (Hin' _ _ Hsome).
        assert (Hlt : height r < h) by (destruct Hrun as [? _]; lia).
        by apply (proj1 (cached_run_delete _ _ _ Htop Hlt)).
    + intros hh r Hr Hrun. specialize (Hsome _ _ Hr).
      destruct (decide (height r = h)) as [Heq|Hne]; simpl in Hsome.
      * exfalso. apply Hrun. rewrite Heq. apply cached_run_top; [lia|done].
      * apply (Hout' _ _ Hsome). intros Hrun'. apply Hrun.
        destruct (decide (height r < h)) as [Hlt|Hge].
        -- by apply (proj2 (cached_run_delete _ _ _ Htop Hlt)).
        -- destruct Hrun' as [? _]. lia.
Qed.

Lemma clean_block_record_run (self : Blockchain) (h : Z) :
  cache_consistent self ->
  0 <= h < 2 ^ 32 ->
  exists self',
    clean_block_record self h = Returned self' /\
    cache_consistent self' /\
    (forall hh, __block_records self !! hh = None ->
                __block_records self' !! hh = None) /\
    (forall hh r, __block_records self !! hh = Some r ->
                  cached_run (__heights_in_cache self) (height r) h ->
                  __block_records self' !! hh = None) /\
    (forall hh r, __block_records self !! hh = Some r ->
                  ¬ cached_run (__heights_in_cache self) (height r) h ->
                  __block_records self' !! hh = Some r).
Proof.
  intros Hc Hh. unfold clean_block_record.
  rewrite (proj2 (Z.ltb_ge h 0)) by lia.
  unfold uint32. rewrite sized_uint_in_range by done. rewrite bind_Returned.
  apply clean_block_record_loop_run; [done | done | lia].
Qed.

(** What the sweep of [clean_block_record] removes, record by record. On
    a cache whose index by height agrees with
    its records:
    - [clean_block_record(h)], for [0 <= h < 2^32], returns; it keeps
      every record above [h]; of the records below [h] it removes those
      whose height lies in the unbroken run of cached heights ending at
      [h], and keeps the others;
    - [clean_block_records()] returns; it changes nothing when fewer than
      BLOCKS_CACHE_SIZE records are cached or the peak is below
      BLOCKS_CACHE_SIZE; otherwise it does what
      [clean_block_record(peak - BLOCKS_CACHE_SIZE)] does, and when every
      height from 0 to
      [peak - BLOCKS_CACHE_SIZE] is cached, every record that remains has
      height at least [peak - BLOCKS_CACHE_SIZE], and every record above
      that height remains. *)
Theorem cache_gc (self : Blockchain) :
  cache_consistent self ->
  (forall h, 0 <= h < 2 ^ 32 ->
     exists self',
       clean_block_record self h = Returned self' /\
       forall hh,
         match __block_records self !! hh with
         | None => __block_records self' !! hh = None
         | Some r =>
             (h < height r -> __block_records self' !! hh = Some r) /\
             (height r < h -> cached_run (__heights_in_cache self) (height r) h ->
              __block_records self' !! hh = None) /\
             (height r < h -> ¬ cached_run (__heights_in_cache self) (height r) h ->
              __block_records self' !! hh = Some r)
         end) /\
  (forall peak,
     _peak_height self = Some peak ->
     let low := peak - BLOCKS_CACHE_SIZE (constants self) in
     low < 2 ^ 32 ->
     exists self',
       clean_block_records self = Returned self' /\
       (Z.of_nat (size (__block_records self)) < BLOCKS_CACHE_SIZE (constants self)
        \/ low < 0 -> self' = self) /\
       (BLOCKS_CACHE_SIZE (constants self) <= Z.of_nat (size (__block_records self)) ->
        0 <= low -> clean_block_record self low = Returned self') /\
       (BLOCKS_CACHE_SIZE (constants self) <= Z.of_nat (size (__block_records self)) ->
        (forall j, 0 <= j <= low -> is_Some (__heights_in_cache self !! j)) ->
        (forall hh r, __block_records self !! hh = Some r -> 0 <= height r) ->
        (forall hh r, __block_records self' !! hh = Some r ->
                      low <= height r /\ __block_records self !! hh = Some r) /\
        (forall hh r, __block_records self !! hh = Some r -> low < height r ->
                      __block_records self' !! hh = Some r))).
Proof.
  intros Hc. split.
  - intros h Hh.
    destruct (clean_block_record_run self h Hc Hh)
      as (self' & Hrun & _ & Hnone & Hin & Hout).
    exists self'. split; [done|]. intros hh.
    destruct (__block_records self !! hh) as [r|] eqn:Hr; [|by apply Hnone].
    split; [|split].
    + intros Hgt. apply (Hout _ _ Hr). intros [? _]. lia.
    + intros _ Hr'. by apply (Hin _ _ Hr).
    + intros _ Hr'. by apply (Hout _ _ Hr).
  - intros peak Hpeak low Hlow. subst low. unfold clean_block_records.
    rewrite Hpeak.
    destruct (Z.ltb_spec (Z.of_nat (size (__block_records self)))
                (BLOCKS_CACHE_SIZE (constants self))) as [Hsmall|Hbig].
    { exists self. split; [done|]. split; [done|]. split; lia. }
    destruct (Z.ltb_spec (peak - BLOCKS_CACHE_SIZE (constants self)) 0) as [Hneg|Hpos].
    { exists self. split; [done|]. split; [done|]. split; [lia|].
      intros _ _ Hnn. split.
      - intros hh r Hr. split; [|done]. specialize (Hnn _ _ Hr). lia.
      - by intros hh r Hr _. }
    destruct (clean_block_record_run self _ Hc (conj Hpos Hlow))
      as (self' & Hrun & _ & Hnone & Hin & Hout).
    exists self'. split; [done|]. split; [lia|]. split; [done|].
    intros _ Hgap Hnn.
    assert (Hcases : forall hh r, __block_records self !! hh = Some r ->
              (height r <= peak - BLOCKS_CACHE_SIZE (constants self) /\
               __block_records self' !! hh = None) \/
              (peak - BLOCKS_CACHE_SIZE (constants self) < height r /\
               __block_records self' !! hh = Some r)).
    { intros hh r Hr.
      destruct (decide (height r <= peak - BLOCKS_CACHE_SIZE (constants self))) as [Hle|Hgt].
      - left. split; [done|]. apply (Hin _ _ Hr). split.
        + specialize (Hnn _ _ Hr). lia.
        + intros j Hj. apply Hgap. specialize (Hnn _ _ Hr). lia.
      - right. split; [lia|]. apply (Hout _ _ Hr). intros [? _]. lia. }
    split.
    + intros hh r Hr'.
      destruct (__block_records self !! hh) as [r0|] eqn:Hr0.
      * destruct (Hcases _ _ Hr0) as [[_ Hn]|[Hgt Hs]]; [congruence|].
        assert (r0 = r) by congruence. subst r0. split; [lia|done].
      * rewrite (Hnone _ Hr0) in Hr'. discriminate.
    + intros hh r Hr Hgt. destruct (Hcases _ _ Hr) as [[Hle _]|[_ Hs]]; [lia|done].
Qed.

(** The empty cache is consistent, and caching a record under a new hash
    keeps the cache consistent. *)
Lemma cache_consistent_empty (constants : ConsensusConstants) (ec : ExecutionClient) :
  cache_consistent (empty_chain constants ec).
Proof.
  intros h hh. simpl. split.
  - intros (s & Hs & _). by rewrite lookup_empty in Hs.
  - intros (r & Hr & _). by rewrite lookup_empty in Hr.
Qed.

Lemma cache_consistent_add (self : Blockchain) (r : BlockRecord) :
  cache_consistent self ->
  __block_records self !! header_hash r = None ->
  cache_consistent (add_block_record self r).
Proof.
  intros Hc Hnew h hh. simpl.
  set (heights0 := if bool_decide (is_Some (__heights_in_cache self !! height r))
                   then __heights_in_cache self
                   else <[height r := ∅]> (__heights_in_cache self)).
  assert (Hother : forall h', h' ≠ height r ->
            heights0 !! h' = __heights_in_cache self !! h').
  { intros h' Hne. subst heights0. case_bool_decide; [done|].
    by rewrite lookup_insert_ne. }
  assert (Hhere : exists s0, heights0 !! height r = Some s0 /\
            forall x, x ∈ s0 <->
              exists s, __heights_in_cache self !! height r = Some s /\ x ∈ s).
  { subst heights0. case_bool_decide as Hs.
    - destruct Hs as [s Hs]. exists s. split; [done|]. intros x. split.
      + eauto.
      + intros (s' & Hs' & Hx). congruence.
    - exists ∅. split; [by rewrite lookup_insert_eq|]. intros x. split; [set_solver|].
      intros (s & Hs' & _). destruct Hs. eauto. }
  destruct Hhere as (s0 & Hs0 & Hmem).
  destruct (decide (h = height r)) as [->|Hh].
  - rewrite lookup_alter_eq, Hs0. simpl.
    destruct (decide (hh = header_hash r)) as [->|Hhh].
    + rewrite lookup_insert_eq. split; [eauto|].
      intros _. eexists. split; [done|].
      apply elem_of_union. right. by apply elem_of_singleton.
    + rewrite lookup_insert_ne by done. rewrite <- (Hc (height r) hh). split.
      * intros (s & [= <-] & Hin). apply Hmem.
        apply elem_of_union in Hin as [Hin|Hin]; [done|].
        by apply elem_of_singleton in Hin.
      * intros Hin. apply Hmem in Hin. eexists. split; [done|].
        apply elem_of_union. by left.
  - rewrite lookup_alter_ne by done. rewrite Hother by done.
    destruct (decide (hh = header_hash r)) as [->|Hhh].
    + rewrite lookup_insert_eq. split.
      * intros Hin. apply Hc in Hin as (r' & Hr' & _). congruence.
      * intros (r' & [= <-] & Hr'). done.
    + rewrite lookup_insert_ne by done. apply Hc.
Qed.

Lemma gc_chain_consistent : cache_consistent gc_chain.
Proof.
  change (cache_consistent gc_chain) with
    (cache_consistent
       (foldl add_block_record (empty_chain sample_constants (sample_client None))
          [sample_record 13 12 3 40 true; sample_record 14 13 4 50 false;
           sample_record 15 14 5 60 true;
           sample_record 10 1000 0 10 true; sample_record 11 10 1 20 false])).
  simpl foldl.
  repeat (apply cache_consistent_add; [| vm_compute; reflexivity]).
  apply cache_consistent_empty.
Qed.

(** On the cache with a gap: [clean_block_record(4)] keeps the record of
    height 5, removes the record of height 3, which lies in the run of
    cached heights ending at 4, and keeps the record of height 1, which
    does not. *)
Lemma cache_gc_witness :
  exists self',
    clean_block_record gc_chain 4 = Returned self' /\
    __block_records self' !! 15 = Some (sample_record 15 14 5 60 true) /\
    __block_records self' !! 13 = None /\
    __block_records self' !! 11 = Some (sample_record 11 10 1 20 false).
Proof.
  destruct (proj1 (cache_gc gc_chain gc_chain_consistent) 4) as (self' & Hrun & Hrec);
    [split; [lia | reflexivity]|].
  exists self'. split; [done|]. split; [|split].
  - pose proof (Hrec 15) as H.
    change (__block_records gc_chain !! 15)
      with (Some (sample_record 15 14 5 60 true)) in H.
    destruct H as (Habove & _ & _). apply Habove. reflexivity.
  - pose proof (Hrec 13) as H.
    change (__block_records gc_chain !! 13)
      with (Some (sample_record 13 12 3 40 true)) in H.
    destruct H as (_ & Hrun_in & _). apply Hrun_in; [reflexivity|].
    split; [simpl; lia|].
    intros j Hj. simpl in Hj.
    assert (j = 3 \/ j = 4) as [-> | ->] by lia; vm_compute; eexists; reflexivity.
  - pose proof (Hrec 11) as H.
    change (__block_records gc_chain !! 11)
      with (Some (sample_record 11 10 1 20 false)) in H.
    destruct H as (_ & _ & Hrun_out). apply Hrun_out; [reflexivity|].
    intros [_ Hgap].
    destruct (Hgap 2) as [s Hs]; [simpl; lia|]. vm_compute in Hs. discriminate Hs.
Defined.

(** C7 at failing inputs. On every cache whose index agrees with its
    records, [clean_block_record(h)] deletes the records of height [h]
    itself, where its docstring says that it clears the records below [h]
    and that [h] is the minimum height to keep in the cache. So:
    - after BLOCKS_CACHE_SIZE + 100 = 102 consecutive blocks (heights 0 to
      101, BLOCKS_CACHE_SIZE 2), [clean_block_records()] leaves the records
      of the heights 100 and 101, the top BLOCKS_CACHE_SIZE heights and not
      the top BLOCKS_CACHE_SIZE + 1: the record of height
      [99 = peak - BLOCKS_CACHE_SIZE] is deleted;
    - on six consecutive blocks, [clean_block_record(3)] deletes the record
      of height 3 with those below it;
    - on the cache with a gap (heights 0, 1, 3, 4, 5, the peak at 5),
      [clean_block_records()] deletes the record of height 3 and leaves
      those of heights 0 and 1, below [peak - BLOCKS_CACHE_SIZE = 3], and
      [clean_block_record(4)] leaves the record of height 1. *)
Theorem cache_gc_clears_threshold_height :
  (forall (self : Blockchain) (h : Z),
      cache_consistent self -> 0 <= h < 2 ^ 32 ->
      exists self',
        clean_block_record self h = Returned self' /\
        forall hh r, __block_records self !! hh = Some r -> height r = h ->
                     __block_records self' !! hh = None) /\
  (exists self',
      BLOCKS_CACHE_SIZE (constants (consecutive_chain 102)) = 2 /\
      _peak_height (consecutive_chain 102) = Some 101 /\
      cached_heights (consecutive_chain 102) = list_to_set (seqZ 0 102) /\
      clean_block_records (consecutive_chain 102) = Returned self' /\
      cached_heights self' = {[100; 101]} /\
      __block_records (consecutive_chain 102) !! 299
      = Some (sample_record 299 298 99 1000 true) /\
      __block_records self' !! 299 = None) /\
  (exists self',
      cached_heights (consecutive_chain 6) = {[0; 1; 2; 3; 4; 5]} /\
      clean_block_record (consecutive_chain 6) 3 = Returned self' /\
      cached_heights self' = {[4; 5]}) /\
  (exists self1 self2,
      BLOCKS_CACHE_SIZE (constants gc_chain) = 2 /\
      _peak_height gc_chain = Some 5 /\
      cached_heights gc_chain = {[0; 1; 3; 4; 5]} /\
      clean_block_records gc_chain = Returned self1 /\
      cached_heights self1 = {[0; 1; 4; 5]} /\
      clean_block_record gc_chain 4 = Returned self2 /\
      cached_heights self2 = {[0; 1; 5]}).
Proof.
  split; [|split; [|split]].
  - intros self h Hc Hh.
    destruct (clean_block_record_run self h Hc Hh) as (self' & Hrun & _ & _ & Hin & _).
    exists self'. split; [exact Hrun|]. intros hh r Hr Hheight.
    apply (Hin hh r Hr). rewrite Hheight. split; [lia|].
    intros j Hj. assert (j = h) as -> by lia.
    destruct (proj2 (Hc h hh)) as (s & Hs & _); [exists r; by split|]. eauto.
  - eexists. repeat (split; [vm_compute; reflexivity|]). vm_compute; reflexivity.
  - eexists. repeat (split; [vm_compute; reflexivity|]). vm_compute; reflexivity.
  - eexists. eexists. repeat (split; [vm_compute; reflexivity|]).
    vm_compute; reflexivity.
Qed.

(** ** Recent reward challenges *)

Section RecentRewardChallenges.
Variable env : Collaborators.
Variable self : Blockchain.
Variable peak : BlockRecord.

Let limit : Z := 2 * MAX_SUB_SLOT_BLOCKS (constants self).
Let contribution : BlockRecord -> list (Z * Z) :=
  rc_contribution env (constants self) peak.
Let collected : list BlockRecord -> list (Z * Z) :=
  rc_collected env (constants self) peak.
Let len {A} (l : list A) : Z := Z.of_nat (length l).

Lemma try_block_record_lookup (hh : Z) :
  try_block_record self hh = Returned (__block_records self !! hh).
Proof.
  unfold try_block_record. simpl. unfold dict_get.
  destruct (__block_records self !! hh) as [r|] eqn:Hr.
  - by rewrite bool_decide_eq_true_2 by eauto.
  - rewrite bool_decide_eq_false_2; [done|]. by intros [? ?].
Qed.

(** The totals stay between 0 and the first one, so the [uint128]
    constructor of the loop does not fail. *)
Lemma recent_rc_sub_slots_pairs (ssi : Z) (rcs : list Z) :
  0 <= ssi ->
  forall total recent_rc,
    total < 2 ^ 128 ->
    recent_rc_sub_slots ssi rcs total recent_rc
    = Returned (recent_rc ++ sub_slot_pairs ssi total rcs).
Proof.
  intros Hssi.
  induction rcs as [|rc rcs IH]; intros total recent_rc Htotal; simpl.
  - by rewrite app_nil_r.
  - destruct (Z.ltb_spec total ssi) as [Hlt|Hge]; [by rewrite app_nil_r|].
    unfold uint128. rewrite sized_uint_in_range by lia. rewrite bind_Returned.
    rewrite IH by lia. by rewrite <- app_assoc.
Qed.

Lemma recent_rc_visit_contribution (curr : BlockRecord) (recent_rc : list (Z * Z)) :
  (first_in_sub_slot curr = true ->
   is_Some (finished_reward_slot_hashes curr) /\
   0 <= sub_slot_iters curr /\
   ip_sub_slot_total_iters env curr (constants self) < 2 ^ 128) ->
  recent_rc_visit env (constants self) peak curr recent_rc
  = Returned (recent_rc ++ contribution curr).
Proof.
  intros Hwf. unfold recent_rc_visit, contribution, rc_contribution.
  destruct (first_in_sub_slot curr).
  - destruct (Hwf eq_refl) as ([hashes ->] & Hssi & Htotal). simpl.
    rewrite recent_rc_sub_slots_pairs by done.
    case_bool_decide; case_bool_decide; try done; by rewrite <- ?app_assoc.
  - case_bool_decide; case_bool_decide; try done; by rewrite ?app_nil_r.
Qed.

Lemma contribution_nonempty (b : BlockRecord) :
  b ≠ peak -> 1 <= len (contribution b).
Proof.
  intros Hne. unfold len, contribution, rc_contribution.
  rewrite bool_decide_eq_false_2 by done. simpl. lia.
Qed.

Lemma recent_rc_loop_None (fuel : nat) (recent_rc : list (Z * Z)) :
  recent_rc_loop env fuel self peak None recent_rc = Returned recent_rc.
Proof. by destruct fuel. Qed.

Hypothesis cache_ok : rc_cache_ok env self.

(** The walk from [curr] with [recent_rc] collected so far: the loop
    returns what was collected plus the contributions of the blocks it
    visits; each visited block is the cached parent of the one before; a
    block is visited only while fewer than [limit] entries are collected;
    and the walk ends at a block without a cached parent or with the
    limit reached. *)
Lemma recent_rc_loop_walk (fuel : nat) :
  forall (curr : BlockRecord) (recent_rc : list (Z * Z)),
    (exists hh, __block_records self !! hh = Some curr) ->
    curr = peak \/ height curr < height peak ->
    (Z.to_nat (limit - len recent_rc) + (if bool_decide (curr = peak) then 1 else 0)
     <= fuel)%nat ->
    exists visited,
      recent_rc_loop env fuel self peak (Some curr) recent_rc
      = Returned (recent_rc ++ collected visited) /\
      (forall b, head visited = Some b -> b = curr) /\
      parent_linked self visited /\
      (forall n, (n < length visited)%nat ->
                 len recent_rc + len (collected (take n visited)) < limit) /\
      ((exists b, last visited = Some b /\ __block_records self !! prev_hash b = None)
       \/ limit <= len recent_rc + len (collected visited)).
Proof.
  induction fuel as [|fuel IH]; intros curr recent_rc Hcached Hbelow Hfuel.
  - (* no fuel: the limit is already reached *)
    assert (Hfull : limit <= len recent_rc) by (unfold len in *; lia).
    exists []. simpl. fold limit.
    rewrite (proj2 (Z.ltb_ge _ _)) by (unfold len in Hfull; lia).
    rewrite app_nil_r. split; [done|]. split; [done|]. split; [by intros i b p ?|].
    split; [simpl; lia|]. right. unfold collected, rc_collected, len. simpl.
    unfold len in Hfull. lia.
  - simpl. fold limit.
    destruct (Z.ltb_spec (Z.of_nat (length recent_rc)) limit) as [Hroom|Hfull].
    2:{ exists []. rewrite app_nil_r. split; [done|]. split; [done|].
        split; [by intros i b p ?|]. split; [simpl; lia|]. right.
        unfold collected, rc_collected, len. simpl. lia. }
    destruct Hcached as [hh Hcurr]. destruct cache_ok as [Hdown Hslots].
    rewrite recent_rc_visit_contribution by (by apply (Hslots hh)).
    simpl. rewrite try_block_record_lookup. simpl.
    destruct (__block_records self !! prev_hash curr) as [p|] eqn:Hparent.
    2:{ exists [curr]. unfold collected, rc_collected. simpl. rewrite app_nil_r.
        rewrite recent_rc_loop_None.
        split; [done|]. split; [by intros b [= <-]|].
        split; [by intros [|i] b p ? ?|]. split.
        - intros [|n] Hn; simpl in Hn; [|lia]. unfold len. simpl. lia.
        - left. exists curr. by split. }
    assert (Hp_low : height p < height curr) by (by apply (Hdown hh)).
    assert (Hp_ne : p ≠ peak).
    { intros ->. destruct Hbelow as [->|Hlt]; lia. }
    destruct (IH p (recent_rc ++ contribution curr))
      as (visited & Hloop & Hhead & Hlink & Hpre & Hstop).
    + eauto.
    + right. destruct Hbelow as [->|Hlt]; lia.
    + rewrite (bool_decide_eq_false_2 _ Hp_ne).
      unfold len in *. rewrite length_app.
      case_bool_decide as Hc; [lia|].
      pose proof (contribution_nonempty curr Hc) as Hone.
      fold contribution in Hone. unfold len in Hone. lia.
    + exists (curr :: visited).
      assert (Hcons : forall l, collected (curr :: l) = contribution curr ++ collected l)
        by done.
      split; [by rewrite Hloop, Hcons, <- app_assoc|].
      split; [by intros b [= <-]|]. split; [|split].
      * intros [|i] b q Hb Hq; simpl in Hb, Hq.
        -- injection Hb as <-. rewrite Hparent. f_equal. symmetry.
           apply Hhead. by destruct visited.
        -- by apply (Hlink i).
      * intros [|n] Hn; simpl in Hn.
        -- unfold collected, rc_collected, len. simpl. lia.
        -- specialize (Hpre n ltac:(lia)). simpl take. rewrite Hcons.
           unfold len in *. rewrite length_app in *. lia.
      * destruct Hstop as [(b & Hlast & Hnone)|Hfull'].
        -- left. exists b. split; [|done]. destruct visited; [done|]. done.
        -- right. rewrite Hcons. unfold len in *. rewrite length_app in *. lia.
Qed.
End RecentRewardChallenges.

Lemma get_peak_cached (self : Blockchain) (peak : BlockRecord) :
  get_peak self = Returned (Some peak) ->
  exists hh, __block_records self !! hh = Some peak.
Proof.
  unfold get_peak, height_to_block_record.
  destruct (_peak_height self) as [h|]; [|discriminate].
  destruct (height_to_hash self h) as [[hh|]| |]; simpl; try discriminate.
  unfold dict_get. destruct (__block_records self !! hh) as [r|] eqn:Hr; [|discriminate].
  intros [= <-]. eauto.
Qed.

Lemma rc_cache_check_ok (env : Collaborators) (self : Blockchain) :
  rc_cache_check env self = true -> rc_cache_ok env self.
Proof.
  unfold rc_cache_check. rewrite forallb_forall. intros Hall.
  assert (Hrec : forall hh r, __block_records self !! hh = Some r ->
                   rc_record_ok env self r = true).
  { intros hh r Hr. apply Hall. apply list_elem_of_In.
    apply list_elem_of_fmap. exists (hh, r). split; [done|].
    by apply elem_of_map_to_list. }
  split.
  - intros hh r p Hr Hp. specialize (Hrec _ _ Hr). unfold rc_record_ok in Hrec.
    rewrite Hp in Hrec. apply andb_true_iff in Hrec as [Hlt _]. lia.
  - intros hh r Hr Hfirst. specialize (Hrec _ _ Hr). unfold rc_record_ok in Hrec.
    rewrite Hfirst in Hrec. apply andb_true_iff in Hrec as [_ Hs].
    simpl in Hs. apply andb_true_iff in Hs as [Hs Htotal].
    apply andb_true_iff in Hs as [Hs Hssi].
    apply bool_decide_eq_true_1 in Hs. split; [done|]. split; lia.
Qed.

(** C9, as the code has it. With a peak, on a cache where the height goes
    down along the parent links and the records first in their sub-slot
    are well formed ([rc_cache_ok]), and with fuel for
    [2 * MAX_SUB_SLOT_BLOCKS + 1] iterations, [get_recent_reward_challenges]
    returns, in chronological order, what the walk back from the peak
    collects: for each visited block its own pair, the peak's own pair
    excepted, and the pairs of its finished reward sub-slots when it is
    first in its sub-slot. Each visited block is the cached parent of the
    one before; a block is visited only while fewer than
    [2 * MAX_SUB_SLOT_BLOCKS] entries are collected; the walk ends at a
    block without a cached parent, or with that many entries or more. *)
Theorem recent_reward_challenges_walk (env : Collaborators) (fuel : nat)
    (self : Blockchain) (peak : BlockRecord) :
  get_peak self = Returned (Some peak) ->
  rc_cache_ok env self ->
  (Z.to_nat (2 * MAX_SUB_SLOT_BLOCKS (constants self)) < fuel)%nat ->
  exists visited,
    get_recent_reward_challenges env fuel self
    = Returned (reverse (rc_collected env (constants self) peak visited)) /\
    (forall b, head visited = Some b -> b = peak) /\
    parent_linked self visited /\
    (forall n, (n < length visited)%nat ->
       Z.of_nat (length (rc_collected env (constants self) peak (take n visited)))
       < 2 * MAX_SUB_SLOT_BLOCKS (constants self)) /\
    ((exists b, last visited = Some b /\ __block_records self !! prev_hash b = None)
     \/ 2 * MAX_SUB_SLOT_BLOCKS (constants self)
        <= Z.of_nat (length (rc_collected env (constants self) peak visited))).
Proof.
  intros Hpeak Hok Hfuel.
  destruct (recent_rc_loop_walk env self peak Hok fuel peak [])
    as (visited & Hloop & Hhead & Hlink & Hpre & Hstop).
  - by apply get_peak_cached.
  - by left.
  - rewrite bool_decide_eq_true_2 by done. simpl. lia.
  - exists visited. unfold get_recent_reward_challenges.
    rewrite Hpeak. simpl. simpl in Hloop. rewrite Hloop. simpl.
    split; [done|]. split; [done|]. split; [done|]. split.
    + intros n Hn. specialize (Hpre n Hn). simpl in Hpre. lia.
    + destruct Hstop as [Hlast|Hfull]; [by left|right]. simpl in Hfull. lia.
Qed.

(** On the sample chain the walk from block 3 collects the pairs of
    blocks 2 and 1. *)
Lemma recent_reward_challenges_walk_witness :
  exists visited,
    get_recent_reward_challenges sample_env 5 sample_chain
    = Returned (reverse (rc_collected sample_env sample_constants
                           (sample_record 3 2 2 30 true) visited)) /\
    parent_linked sample_chain visited.
Proof.
  destruct (recent_reward_challenges_walk sample_env 5 sample_chain
              (sample_record 3 2 2 30 true))
    as (visited & Hres & _ & Hlink & _).
  - vm_compute. reflexivity.
  - apply rc_cache_check_ok. vm_compute. reflexivity.
  - vm_compute. lia.
  - exists visited. split; [exact Hres | exact Hlink].
Defined.

(** C9 as stated fails on the chain of one block that closes three
    sub-slots, with MAX_SUB_SLOT_BLOCKS 1: the list has three entries,
    more than [2 * MAX_SUB_SLOT_BLOCKS], and the peak's own pair (901,
    100) is not among them. *)
Lemma recent_reward_challenges_counterexample :
  get_recent_reward_challenges sample_env 5 rc_chain
  = Returned [(11, 79); (12, 89); (13, 99)] /\
  (exists peak,
      get_peak rc_chain = Returned (Some peak) /\
      (reward_infusion_new_challenge peak, total_iters peak) = (901, 100)) /\
  2 * MAX_SUB_SLOT_BLOCKS (constants rc_chain) = 2.
Proof.
  split; [vm_compute; reflexivity|]. split; [|reflexivity].
  eexists. split; vm_compute; reflexivity.
Qed.

(** ** Pre-validation: the view after an error result *)

(** C8 at a failing input. The sample chain does not cache block 4.
    Pre-validating block 4 followed by a block whose record cannot be
    built returns INVALID_SUB_EPOCH_SUMMARY and leaves the tentative
    record of block 4 in the view; so does pre-validating block 4 followed
    by a block whose sub-epoch summary is not the one of the weight proof;
    the INVALID_POSPACE return on the same two heights does remove the
    record. *)
Theorem pre_validate_error_leaves_tentative_record :
  let run blocks wp_summaries :=
    pre_validate_blocks_multiprocessing sample_env sample_constants 10 sample_chain
      blocks 4 wp_summaries in
  let bad_ses := run [sample_child; sample_bad_ses] None in
  let other_ses :=
    run [sample_child; sample_other_ses] (Some [ {| ses_get_hash := 1 |} ]) in
  let bad_pos := run [sample_child; sample_bad_pos] None in
  let result err :=
    Returned [ {| PreValidationResult.error := Some (Err_value sample_env err);
                  PreValidationResult.required_iters := None |} ] in
  contains_block sample_chain 4 = false /\
  bad_ses.1 = result INVALID_SUB_EPOCH_SUMMARY /\
  contains_block bad_ses.2 4 = true /\
  __block_records bad_ses.2 ≠ __block_records sample_chain /\
  other_ses.1 = result INVALID_SUB_EPOCH_SUMMARY /\
  contains_block other_ses.2 4 = true /\
  bad_pos.1 = result INVALID_POSPACE /\
  __block_records bad_pos.2 = __block_records sample_chain.
Proof.
  intros run bad_ses other_ses bad_pos result.
  assert (Hin : contains_block bad_ses.2 4 = true) by (vm_compute; reflexivity).
  assert (Hout : contains_block sample_chain 4 = false) by (vm_compute; reflexivity).
  split; [exact Hout|]. split; [vm_compute; reflexivity|]. split; [exact Hin|].
  split.
  - intros Heq. rewrite !contains_block_lookup, Heq in *. congruence.
  - repeat (split; [vm_compute; reflexivity|]). vm_compute; reflexivity.
Qed.

(** ** More on the views of block records *)

Lemma sized_uint_Returned bits v x :
  sized_uint bits v = Returned x -> x = v /\ 0 <= v < 2 ^ bits.
Proof.
  unfold sized_uint. case_bool_decide; [|discriminate]. by intros [= <-].
Qed.

(** X1. [try_block_record] never raises on a [Blockchain] or a
    [BlockCache]: it returns the cached record of the hash, and [None]
    for a hash that is not cached. *)
Theorem try_block_record_cached :
  (forall (self : Blockchain) (hh : Z),
      try_block_record self hh = Returned (__block_records self !! hh)) /\
  (forall (self : BlockCache) (hh : Z),
      try_block_record self hh = Returned (_block_records self !! hh)).
Proof.
  split; intros self hh; unfold try_block_record; simpl; unfold dict_get.
  - destruct (__block_records self !! hh) as [r|] eqn:Hr.
    + by rewrite bool_decide_eq_true_2 by eauto.
    + rewrite bool_decide_eq_false_2; [done|]. by intros [? ?].
  - destruct (_block_records self !! hh) as [r|] eqn:Hr.
    + by rewrite bool_decide_eq_true_2 by eauto.
    + rewrite bool_decide_eq_false_2; [done|]. by intros [? ?].
Qed.

(** X2. On a [BlockCache]: after [add_block_record(block)] the hash of
    the block is contained and [block_record] returns the block, the
    other hashes are as before; [remove_block_record] of a hash that is
    not contained raises [KeyError] and changes nothing; and removing a
    block that was added under a new hash gives back the cache as it was. *)
Theorem block_cache_add_remove (self : BlockCache) (block : BlockRecord) :
  let added := add_block_record self block in
  contains_block added (header_hash block) = true /\
  block_record added (header_hash block) = Returned block /\
  (forall hh, hh ≠ header_hash block ->
     contains_block added hh = contains_block self hh /\
     block_record added hh = block_record self hh) /\
  (forall hh, contains_block self hh = false ->
     remove_block_record self hh = (Raised KeyError, self)) /\
  (forall hh, contains_block self hh = true ->
     exists self',
       remove_block_record self hh = (Returned tt, self') /\
       contains_block self' hh = false /\
       forall hh', hh' ≠ hh -> block_record self' hh' = block_record self hh') /\
  (contains_block self (header_hash block) = false ->
     remove_block_record added (header_hash block) = (Returned tt, self)).
Proof.
  intros added. subst added. destruct self as [m]. simpl. unfold dict_get, dict_del.
  split; [|split; [|split; [|split; [|split]]]].
  - rewrite lookup_insert_eq. by apply bool_decide_eq_true_2.
  - by rewrite lookup_insert_eq.
  - intros hh Hne. by rewrite lookup_insert_ne.
  - intros hh Hc. apply bool_decide_eq_false in Hc.
    destruct (m !! hh) eqn:Hm; [|done]. destruct Hc. eauto.
  - intros hh Hc. apply bool_decide_eq_true in Hc as [r Hr]. rewrite Hr.
    eexists. split; [done|]. simpl. split.
    + rewrite lookup_delete_eq. apply bool_decide_eq_false_2. by intros [? ?].
    + intros hh' Hne. by rewrite lookup_delete_ne.
  - intros Hc. apply bool_decide_eq_false in Hc.
    rewrite lookup_insert_eq. rewrite delete_insert_id; [done|].
    destruct (m !! header_hash block) eqn:Hm; [|done]. destruct Hc. eauto.
Qed.

(** X3. [Blockchain.add_block_record(r)]: afterwards [block_record]
    returns [r] for its hash and the hash is listed under the height of
    [r] in the index; the records of the other hashes and the index at
    the other heights are as before, and so are the peak, the height map
    and the store; adding the same record once more changes nothing. *)
Theorem add_block_record_lookup (self : Blockchain) (r : BlockRecord) :
  let added := add_block_record self r in
  block_record added (header_hash r) = Returned r /\
  contains_block added (header_hash r) = true /\
  (forall hh, hh ≠ header_hash r ->
     __block_records added !! hh = __block_records self !! hh) /\
  (exists s, __heights_in_cache added !! height r = Some s /\ header_hash r ∈ s) /\
  (forall h, h ≠ height r ->
     __heights_in_cache added !! h = __heights_in_cache self !! h) /\
  _peak_height added = _peak_height self /\
  __height_map added = __height_map self /\
  block_store added = block_store self /\
  add_block_record added r = added.
Proof.
  intros added. subst added. simpl. unfold dict_get.
  rewrite lookup_insert_eq.
  split; [done|]. split; [by apply bool_decide_eq_true_2|].
  split; [intros hh Hne; by rewrite lookup_insert_ne|].
  set (heights0 := if bool_decide (is_Some (__heights_in_cache self !! height r))
                   then __heights_in_cache self
                   else <[height r := ∅]> (__heights_in_cache self)).
  assert (Hhere : is_Some (heights0 !! height r)).
  { subst heights0. case_bool_decide; [done|]. rewrite lookup_insert_eq. eauto. }
  destruct Hhere as [s0 Hs0].
  split; [|split; [|split; [|split; [|split]]]]; try done.
  - exists (s0 ∪ {[header_hash r]}). rewrite lookup_alter_eq, Hs0. split; [done|].
    apply elem_of_union. right. by apply elem_of_singleton.
  - intros h Hne. rewrite lookup_alter_ne by done.
    subst heights0. case_bool_decide; [done|]. by rewrite lookup_insert_ne.
  - unfold Blockchain_add_block_record, set_cache. simpl.
    fold heights0. f_equal.
    + apply insert_insert_eq.
    + rewrite bool_decide_eq_true_2.
      2:{ rewrite lookup_alter_eq, Hs0. simpl. eauto. }
      apply map_eq. intros h. destruct (decide (h = height r)) as [->|Hne].
      * rewrite !lookup_alter_eq, Hs0. simpl. f_equal.
        apply set_eq. intros x. rewrite !elem_of_union. tauto.
      * by rewrite !lookup_alter_ne.
Qed.

(** X4. [Blockchain.add_block_record(r)] keeps the index by height in
    agreement with the records, when the hash of [r] is new to the cache
    or is cached with a record of the same height. *)
Theorem add_block_record_consistent (self : Blockchain) (r : BlockRecord) :
  cache_consistent self ->
  (forall r0, __block_records self !! header_hash r = Some r0 -> height r0 = height r) ->
  cache_consistent (add_block_record self r).
Proof.
  intros Hc Hsame h hh. simpl.
  set (heights0 := if bool_decide (is_Some (__heights_in_cache self !! height r))
                   then __heights_in_cache self
                   else <[height r := ∅]> (__heights_in_cache self)).
  assert (Hother : forall h', h' ≠ height r ->
            heights0 !! h' = __heights_in_cache self !! h').
  { intros h' Hne. subst heights0. case_bool_decide; [done|].
    by rewrite lookup_insert_ne. }
  assert (Hhere : exists s0, heights0 !! height r = Some s0 /\
            forall x, x ∈ s0 <->
              exists s, __heights_in_cache self !! height r = Some s /\ x ∈ s).
  { subst heights0. case_bool_decide as Hs.
    - destruct Hs as [s Hs]. exists s. split; [done|]. intros x. split.
      + eauto.
      + intros (s' & Hs' & Hx). congruence.
    - exists ∅. split; [by rewrite lookup_insert_eq|]. intros x. split.
      + intros Hx. by apply not_elem_of_empty in Hx.
      + intros (s & Hs' & _). destruct Hs. eauto. }
  destruct Hhere as (s0 & Hs0 & Hmem).
  destruct (decide (h = height r)) as [->|Hh].
  - rewrite lookup_alter_eq, Hs0. simpl.
    destruct (decide (hh = header_hash r)) as [->|Hhh].
    + rewrite lookup_insert_eq. split; [eauto|].
      intros _. eexists. split; [done|].
      apply elem_of_union. right. by apply elem_of_singleton.
    + rewrite lookup_insert_ne by done. rewrite <- (Hc (height r) hh). split.
      * intros (s & [= <-] & Hin). apply Hmem.
        apply elem_of_union in Hin as [Hin|Hin]; [done|].
        by apply elem_of_singleton in Hin.
      * intros Hin. apply Hmem in Hin. eexists. split; [done|].
        apply elem_of_union. by left.
  - rewrite lookup_alter_ne by done. rewrite Hother by done.
    destruct (decide (hh = header_hash r)) as [->|Hhh].
    + rewrite lookup_insert_eq. split.
      * intros Hin. apply Hc in Hin as (r' & Hr' & Hh'). destruct Hh.
        rewrite <- Hh'. by apply Hsame.
      * intros (r' & [= <-] & Hr'). done.
    + rewrite lookup_insert_ne by done. apply Hc.
Qed.

(** Adding a record of height 6 under the new hash 16 to the sample
    cache with a gap. *)
Lemma add_block_record_consistent_witness :
  cache_consistent gc_chain /\
  cache_consistent (add_block_record gc_chain (sample_record 16 15 6 70 true)).
Proof.
  split; [apply gc_chain_consistent|].
  apply (add_block_record_consistent gc_chain (sample_record 16 15 6 70 true)).
  - apply gc_chain_consistent.
  - intros r0 Hr0. vm_compute in Hr0. discriminate Hr0.
Defined.

(** X5. [Blockchain.remove_block_record(hh)] on a cache whose index
    agrees with its records: for a hash that is not cached it raises
    [KeyError] and changes nothing; for a cached hash it returns, deletes
    that record and no other, takes the hash out of the index entry of
    the record's height, keeps the index in agreement with the records,
    and leaves the peak, the height map and the store alone. *)
Theorem remove_block_record_cached (self : Blockchain) (hh : Z) :
  cache_consistent self ->
  match __block_records self !! hh with
  | None => remove_block_record self hh = (Raised KeyError, self)
  | Some sbr =>
      exists self',
        remove_block_record self hh = (Returned tt, self') /\
        __block_records self' = delete hh (__block_records self) /\
        (exists s, __heights_in_cache self !! height sbr = Some s /\
           __heights_in_cache self'
           = <[height sbr := s ∖ {[hh]}]> (__heights_in_cache self)) /\
        cache_consistent self' /\
        _peak_height self' = _peak_height self /\
        __height_map self' = __height_map self /\
        block_store self' = block_store self
  end.
Proof.
  intros Hc. simpl. unfold Blockchain_remove_block_record.
  destruct (__block_records self !! hh) as [sbr|] eqn:Hr; [|done].
  destruct (proj2 (Hc (height sbr) hh)) as (s & Hs & Hin); [eauto|].
  simpl. rewrite Hs. rewrite bool_decide_eq_true_2 by done.
  eexists. split; [done|]. simpl. split; [done|]. split; [eauto|].
  split; [|done].
  intros h' hh'. simpl.
  destruct (decide (hh' = hh)) as [->|Hne].
  - rewrite lookup_delete_eq. split.
    + intros (s' & Hs' & Hin').
      destruct (decide (h' = height sbr)) as [->|Hh].
      * rewrite lookup_insert_eq in Hs'. injection Hs' as <-.
        apply elem_of_difference in Hin' as [_ Hn]. destruct Hn.
        by apply elem_of_singleton.
      * rewrite lookup_insert_ne in Hs' by done.
        destruct (proj1 (Hc h' hh)) as (r' & Hr' & Hh'); [eauto|]. congruence.
    + intros (r' & Hr' & _). discriminate.
  - rewrite lookup_delete_ne by done. rewrite <- (Hc h' hh').
    destruct (decide (h' = height sbr)) as [->|Hh].
    + rewrite lookup_insert_eq, Hs. split.
      * intros (s' & [= <-] & Hin'). apply elem_of_difference in Hin' as [Hin' _]. eauto.
      * intros (s' & [= <-] & Hin'). eexists. split; [done|].
        apply elem_of_difference. split; [done|].
        intros Hx. by apply elem_of_singleton in Hx.
    + by rewrite lookup_insert_ne.
Qed.

(** Removing block 14 from the sample cache with a gap. *)
Lemma remove_block_record_cached_witness :
  exists self',
    remove_block_record gc_chain 14 = (Returned tt, self') /\
    __block_records self' !! 14 = None /\
    __block_records self' !! 15 = Some (sample_record 15 14 5 60 true) /\
    cache_consistent self'.
Proof.
  pose proof (remove_block_record_cached gc_chain 14 gc_chain_consistent) as H.
  change (__block_records gc_chain !! 14)
    with (Some (sample_record 14 13 4 50 false)) in H.
  destruct H as (self' & Hrun & Hrec & _ & Hc & _).
  exists self'. split; [done|]. rewrite Hrec. split; [|split; [|done]].
  - apply lookup_delete_eq.
  - rewrite lookup_delete_ne by done. reflexivity.
Defined.

(** X6. The tentative insertion of pre-validation, undone: on a cache
    whose index agrees with its records, [add_block_record(r)] under a
    hash that is not cached followed by [remove_block_record] of that
    hash returns and gives back the records as they were; the index is as
    it was, except that a height that had no entry now has an empty one. *)
Theorem remove_block_record_undoes_add (self : Blockchain) (r : BlockRecord) :
  cache_consistent self ->
  __block_records self !! header_hash r = None ->
  exists self',
    remove_block_record (add_block_record self r) (header_hash r)
    = (Returned tt, self') /\
    __block_records self' = __block_records self /\
    __heights_in_cache self'
    = (if bool_decide (is_Some (__heights_in_cache self !! height r))
       then __heights_in_cache self
       else <[height r := ∅]> (__heights_in_cache self)) /\
    cache_consistent self' /\
    _peak_height self' = _peak_height self /\
    __height_map self' = __height_map self /\
    block_store self' = block_store self.
Proof.
  intros Hc Hnew.
  set (heights0 := if bool_decide (is_Some (__heights_in_cache self !! height r))
                   then __heights_in_cache self
                   else <[height r := ∅]> (__heights_in_cache self)).
  assert (Hhere : exists s0, heights0 !! height r = Some s0 /\ header_hash r ∉ s0).
  { subst heights0. case_bool_decide as Hs.
    - destruct Hs as [s Hs]. exists s. split; [done|]. intros Hin.
      destruct (proj1 (Hc (height r) (header_hash r))) as (r' & Hr' & _); [eauto|].
      congruence.
    - exists ∅. split; [by rewrite lookup_insert_eq|]. apply not_elem_of_empty. }
  destruct Hhere as (s0 & Hs0 & Hnot).
  assert (Hidx : <[height r := (s0 ∪ {[header_hash r]}) ∖ {[header_hash r]}]>
                   (alter (fun s => s ∪ {[header_hash r]}) (height r) heights0)
                 = heights0).
  { apply map_eq. intros h. destruct (decide (h = height r)) as [->|Hne].
    - rewrite lookup_insert_eq, Hs0. f_equal. apply set_eq. intros x.
      rewrite elem_of_difference, elem_of_union, !elem_of_singleton.
      split; [tauto|]. intros Hx. split; [by left|]. by intros ->.
    - rewrite lookup_insert_ne by done. by rewrite lookup_alter_ne by done. }
  simpl. unfold Blockchain_remove_block_record, Blockchain_add_block_record. simpl.
  fold heights0. rewrite lookup_insert_eq, lookup_alter_eq, Hs0. simpl.
  rewrite bool_decide_eq_true_2
    by (apply elem_of_union; right; by apply elem_of_singleton).
  eexists. split; [done|]. simpl. rewrite Hidx.
  rewrite delete_insert_id by done.
  split; [done|]. split; [done|]. split; [|done].
  intros h hh. simpl. rewrite <- (Hc h hh). subst heights0.
  case_bool_decide as Hs; [done|].
  destruct (decide (h = height r)) as [->|Hne].
  - rewrite lookup_insert_eq. split.
    + intros (s & [= <-] & Hin). by apply not_elem_of_empty in Hin.
    + intros (s & Hsome & _). destruct Hs. eauto.
  - by rewrite lookup_insert_ne.
Qed.

(** On the sample cache with a gap, whose index has no entry for height
    2: the record of a block 12 of height 2, added and removed. *)
Lemma remove_block_record_undoes_add_witness :
  exists self',
    remove_block_record (add_block_record gc_chain (sample_record 12 11 2 30 false)) 12
    = (Returned tt, self') /\
    __block_records self' = __block_records gc_chain /\
    __heights_in_cache gc_chain !! 2 = None /\
    __heights_in_cache self' !! 2 = Some ∅.
Proof.
  destruct (remove_block_record_undoes_add gc_chain (sample_record 12 11 2 30 false))
    as (self' & Hrun & Hrec & Hidx & _).
  - apply gc_chain_consistent.
  - reflexivity.
  - exists self'. split; [exact Hrun|]. split; [exact Hrec|].
    split; [reflexivity|]. rewrite Hidx. reflexivity.
Defined.

(** ** More on the cache garbage collection *)

Lemma foldl_dict_del_subseteq (l : list Z) :
  forall records records' : gmap Z BlockRecord,
    foldl (fun acc hh => records ← acc; dict_del records hh) (Returned records) l
    = Returned records' ->
    records' ⊆ records.
Proof.
  induction l as [|x l IH]; intros records records'; simpl.
  - by intros [= ->].
  - unfold dict_del at 2. destruct (records !! x) as [r|] eqn:Hr; simpl.
    + intros Hfold. etrans; [by apply IH | apply delete_subseteq].
    + intros Hfold. exfalso. clear -Hfold.
      induction l as [|y l IHl]; simpl in Hfold; [discriminate | by apply IHl].
Qed.

(** The loop of [clean_block_record] only deletes: records and index
    entries. When it starts with an entry to remove at a height that is
    not negative, that height has no entry at the end. *)
Lemma clean_block_record_loop_shrinks (fuel : nat) :
  forall (self self' : Blockchain) (k : Z) (to_remove : option (gset Z)),
    clean_block_record_loop fuel self k to_remove = Returned self' ->
    __block_records self' ⊆ __block_records self /\
    (forall j, __heights_in_cache self !! j = None ->
               __heights_in_cache self' !! j = None) /\
    (is_Some to_remove -> 0 <= k -> __heights_in_cache self' !! k = None) /\
    constants self' = constants self /\
    _peak_height self' = _peak_height self /\
    __height_map self' = __height_map self /\
    block_store self' = block_store self /\
    execution_client self' = execution_client self.
Proof.
  induction fuel as [|fuel IH]; intros self self' k to_remove;
    destruct to_remove as [s|]; simpl.
  2,4: intros [= <-]; split; [done|]; split; [done|]; split; [|done];
       by intros [? ?].
  - destruct (0 <=? k) eqn:Hk; simpl; [discriminate|].
    intros [= <-]. split; [done|]. split; [done|]. split; [|done].
    intros _ Hk'. apply Z.leb_gt in Hk. lia.
  - destruct (0 <=? k) eqn:Hk; simpl.
    2:{ intros [= <-]. split; [done|]. split; [done|]. split; [|done].
        intros _ Hk'. apply Z.leb_gt in Hk. lia. }
    destruct (del_block_records (__block_records self) s) as [records| |] eqn:Hdel;
      simpl; try discriminate.
    destruct (uint32 k) as [h| |] eqn:Hu; simpl; try discriminate.
    apply sized_uint_Returned in Hu as [-> _].
    unfold dict_del. destruct (__heights_in_cache self !! k) as [s'|] eqn:Hidx;
      simpl; [|discriminate].
    apply foldl_dict_del_subseteq in Hdel.
    case_bool_decide as Hzero.
    + intros [= <-]. simpl. split; [done|]. split; [|split; [|done]].
      * intros j Hj. destruct (decide (j = k)) as [->|Hne];
          [apply lookup_delete_eq | by rewrite lookup_delete_ne].
      * intros _ _. apply lookup_delete_eq.
    + destruct (uint32 (k - 1)) as [h| |] eqn:Hu; simpl; try discriminate.
      intros Hloop. apply IH in Hloop
        as (Hsub & Hnone & _ & Hc & Hp & Hm & Hst & Hec).
      simpl in *. split; [by etrans|]. split; [|split; [|done]].
      * intros j Hj. apply Hnone. destruct (decide (j = k)) as [->|Hne];
          [apply lookup_delete_eq | by rewrite lookup_delete_ne].
      * intros _ _. apply Hnone, lookup_delete_eq.
Qed.

Lemma clean_block_record_shrinks (self self' : Blockchain) (h : Z) :
  clean_block_record self h = Returned self' ->
  __block_records self' ⊆ __block_records self /\
  (forall j, __heights_in_cache self !! j = None ->
             __heights_in_cache self' !! j = None) /\
  (0 <= h -> __heights_in_cache self' !! h = None) /\
  constants self' = constants self /\
  _peak_height self' = _peak_height self /\
  __height_map self' = __height_map self /\
  block_store self' = block_store self /\
  execution_client self' = execution_client self.
Proof.
  unfold clean_block_record. destruct (h <? 0) eqn:Hneg.
  - intros [= <-]. do 2 (split; [done|]). split; [|done].
    intros Hh. apply Z.ltb_lt in Hneg. lia.
  - destruct (uint32 h) as [h'| |] eqn:Hu; cbn [mbind outcome_bind]; try discriminate.
    apply sized_uint_Returned in Hu as [-> _].
    intros Hloop.
    apply clean_block_record_loop_shrinks in Hloop
      as (Hsub & Hnone & Htop & Hrest).
    split; [done|]. split; [done|]. split; [|done].
    intros Hh. destruct (__heights_in_cache self !! h) as [s|] eqn:Hidx.
    + apply Htop; [eauto | done].
    + by apply Hnone.
Qed.

(** X7. [clean_block_records()] is idempotent: when a call returns, a
    second call right after it returns too and changes nothing more. *)
Theorem clean_block_records_idempotent (self self' : Blockchain) :
  clean_block_records self = Returned self' ->
  clean_block_records self' = Returned self'.
Proof.
  unfold clean_block_records.
  destruct (Z.of_nat (size (__block_records self)) <? BLOCKS_CACHE_SIZE (constants self))
    eqn:Hsmall.
  { intros [= <-]. by rewrite Hsmall. }
  destruct (_peak_height self) as [peak|] eqn:Hpeak; [|discriminate].
  destruct (peak - BLOCKS_CACHE_SIZE (constants self) <? 0) eqn:Hlow.
  { intros [= <-]. by rewrite Hsmall, Hpeak, Hlow. }
  intros Hclean. pose proof Hclean as Hrun.
  apply clean_block_record_shrinks in Hclean as (_ & _ & Htop & Hc & Hp & _).
  rewrite Hc, Hp, Hpeak, Hlow.
  destruct (Z.of_nat (size (__block_records self')) <? BLOCKS_CACHE_SIZE (constants self));
    [done|].
  apply Z.ltb_ge in Hlow. specialize (Htop Hlow).
  unfold clean_block_record in Hrun |- *.
  rewrite (proj2 (Z.ltb_ge _ _) Hlow) in Hrun |- *.
  destruct (uint32 (peak - BLOCKS_CACHE_SIZE (constants self))) as [h| |] eqn:Hu;
    cbn [mbind outcome_bind] in Hrun |- *; try discriminate.
  apply sized_uint_Returned in Hu as [-> _].
  rewrite Htop. by destruct (Z.to_nat _).
Qed.

(** On the sample cache with a gap: the first call removes the record of
    height 3, the second call changes nothing. *)
Lemma clean_block_records_idempotent_witness :
  exists self',
    clean_block_records gc_chain = Returned self' /\
    __block_records self' ≠ __block_records gc_chain /\
    clean_block_records self' = Returned self'.
Proof.
  destruct (clean_block_records gc_chain) as [self'| |] eqn:Hrun;
    [| vm_compute in Hrun; discriminate Hrun ..].
  exists self'. split; [done|]. split.
  - intros Heq. assert (H : __block_records self' !! 13 = __block_records gc_chain !! 13)
      by (by rewrite Heq).
    vm_compute in Hrun. injection Hrun as <-. vm_compute in H. discriminate H.
  - by apply (clean_block_records_idempotent gc_chain).
Defined.

(** X8. [clean_block_record(h)] on a cache whose index agrees with its
    records, for [0 <= h < 2^32]: it returns; it only deletes (every
    record left was cached before, unchanged); the index still agrees
    with the records; and the height [h] itself is cleared as well: no
    record of height [h] is left and the index has no entry for [h]. The
    peak, the height map and the store are not touched. *)
Theorem clean_block_record_consistent (self : Blockchain) (h : Z) :
  cache_consistent self ->
  0 <= h < 2 ^ 32 ->
  exists self',
    clean_block_record self h = Returned self' /\
    cache_consistent self' /\
    __block_records self' ⊆ __block_records self /\
    __heights_in_cache self' !! h = None /\
    (forall hh r, __block_records self' !! hh = Some r -> height r ≠ h) /\
    _peak_height self' = _peak_height self /\
    __height_map self' = __height_map self /\
    block_store self' = block_store self.
Proof.
  intros Hc Hh.
  destruct (clean_block_record_run self h Hc Hh) as (self' & Hrun & Hc' & _).
  destruct (clean_block_record_shrinks _ _ _ Hrun)
    as (Hsub & _ & Htop & _ & Hp & Hm & Hst & _).
  exists self'. split; [done|]. split; [done|]. split; [done|].
  split; [apply Htop; lia|]. split; [|done].
  intros hh r Hr Heq.
  destruct (proj2 (Hc' h hh)) as (s & Hs & _); [eauto|].
  rewrite Htop in Hs by lia. discriminate.
Qed.

(** On the sample cache with a gap, [clean_block_record(4)]: block 14,
    of height 4, is removed. *)
Lemma clean_block_record_consistent_witness :
  exists self',
    clean_block_record gc_chain 4 = Returned self' /\
    cache_consistent self' /\
    __block_records gc_chain !! 14 = Some (sample_record 14 13 4 50 false) /\
    __block_records self' !! 14 = None.
Proof.
  destruct (clean_block_record_consistent gc_chain 4 gc_chain_consistent)
    as (self' & Hrun & Hc & Hsub & _ & Hno & _); [split; [lia | reflexivity]|].
  exists self'. split; [done|]. split; [done|]. split; [reflexivity|].
  destruct (__block_records self' !! 14) as [r|] eqn:Hr; [|done].
  exfalso. apply (Hno _ _ Hr).
  pose proof (lookup_weaken _ _ _ _ Hr Hsub) as Hr'.
  vm_compute in Hr'. by injection Hr' as <-.
Defined.

(** ** More on the block rewards *)

(** X9. The block reward is defined at every height (the float products
    never leave the [uint64] range), lies between 0 and [2 * 10^9], never
    grows with the height, and halves every three years of blocks up to
    the twelfth: for [0 <= h < 12 * _blocks_per_year] the reward at
    [h + 3 * _blocks_per_year] is half the reward at [h]. *)
Theorem block_reward_halving (h : Z) :
  exists reward,
    _calculate_block_reward h = Returned reward /\
    0 <= reward <= 2 * _corpochain_to_gwei /\
    (forall h', h <= h' ->
       exists reward', _calculate_block_reward h' = Returned reward' /\ reward' <= reward) /\
    (0 <= h < 12 * _blocks_per_year ->
       exists later,
         _calculate_block_reward (h + 3 * _blocks_per_year) = Returned later /\
         2 * later = reward).
Proof.
  exists (reward_schedule h). split; [apply calculate_block_reward_schedule|].
  unfold _corpochain_to_gwei, _blocks_per_year.
  split; [|split].
  - unfold reward_schedule. repeat case_match; lia.
  - intros h' Hle. exists (reward_schedule h').
    split; [apply calculate_block_reward_schedule|].
    unfold reward_schedule. repeat case_match; lia.
  - intros Hh. eexists. split; [apply calculate_block_reward_schedule|].
    unfold reward_schedule. repeat case_match; lia.
Qed.

(** ** The previous transaction block *)

(** X10. [get_prev_transaction_block(curr, blocks, total_iters_sp)]: let
    [t] be the nearest transaction block at or before [curr] along the
    parent links of [blocks]. When [total_iters_sp > t.total_iters] the
    call returns [(True, t)]; otherwise it returns [(False, curr)], the
    record it was given and not [t]. One unit of fuel per parent link is
    enough. *)
Theorem get_prev_transaction_block_nearest {V} `{BlockchainInterface V}
    (blocks : V) (curr t : BlockRecord) (n fuel : nat) (total_iters_sp : Z) :
  nearest_transaction_block blocks curr n t ->
  (n <= fuel)%nat ->
  get_prev_transaction_block fuel curr blocks total_iters_sp
  = Returned (if bool_decide (total_iters t < total_iters_sp) then (true, t)
              else (false, curr)).
Proof.
  intros Hwalk Hfuel. unfold get_prev_transaction_block.
  assert (Hloop : prev_transaction_block_loop fuel blocks curr = Returned t).
  { revert fuel Hfuel. induction Hwalk as [curr Htx | curr parent n t Htx Hp _ IH];
      intros fuel Hfuel.
    - destruct fuel; simpl; by rewrite Htx.
    - destruct fuel as [|fuel]; [lia|]. simpl. rewrite Htx, Hp. simpl.
      apply IH. lia. }
  rewrite Hloop. simpl. rewrite Z.gtb_ltb.
  case_bool_decide as Hlt.
  - by rewrite (proj2 (Z.ltb_lt _ _) Hlt).
  - by rewrite (proj2 (Z.ltb_ge _ _)) by lia.
Qed.

(** In the sample cache, block 2 is not a transaction block and its
    parent, block 1 (total iterations 100), is: with a signage point at
    150 the call returns block 1, with one at 50 it returns block 2. *)
Lemma get_prev_transaction_block_nearest_witness :
  get_prev_transaction_block 5 (sample_record 2 1 1 20 false) sample_cache 150
  = Returned (true, sample_record 1 1000 0 10 true) /\
  get_prev_transaction_block 5 (sample_record 2 1 1 20 false) sample_cache 50
  = Returned (false, sample_record 2 1 1 20 false).
Proof.
  assert (Hwalk : nearest_transaction_block sample_cache
                    (sample_record 2 1 1 20 false) 1 (sample_record 1 1000 0 10 true)).
  { eapply nearest_parent; [reflexivity | vm_compute; reflexivity |].
    apply nearest_here. reflexivity. }
  split.
  - rewrite (get_prev_transaction_block_nearest _ _ _ _ 5%nat 150 Hwalk); [done | lia].
  - rewrite (get_prev_transaction_block_nearest _ _ _ _ 5%nat 50 Hwalk); [done | lia].
Defined.

(** ** Compact proofs seen *)

(** X11. [seen_compact_proofs(vdf_info, height)] returns [True] exactly
    when the pair is already in the set, and then leaves the set as it
    is; after any call the pair is in the set, so that the same call made
    again returns [True]; and while the set holds at most 10000 pairs
    nothing is forgotten. *)
Theorem seen_compact_proofs_dedup `{Countable VDF} (seen : gset (VDF * Z))
    (vdf_info : VDF) (height : Z) :
  let first := seen_compact_proofs seen vdf_info height in
  (first.1 = true <-> (vdf_info, height) ∈ seen) /\
  (first.1 = true -> first.2 = seen) /\
  (vdf_info, height) ∈ first.2 /\
  seen_compact_proofs first.2 vdf_info height = (true, first.2) /\
  (Z.of_nat (size seen) <= 10000 -> seen ⊆ first.2).
Proof.
  intros first. subst first.
  assert (Hseen : forall s : gset (VDF * Z),
            (vdf_info, height) ∈ s -> seen_compact_proofs s vdf_info height = (true, s)).
  { intros s Hs. unfold seen_compact_proofs. by rewrite bool_decide_eq_true_2. }
  destruct (decide ((vdf_info, height) ∈ seen)) as [Hin|Hin].
  - rewrite (Hseen seen Hin). simpl.
    split; [done|]. split; [done|]. split; [done|]. split; [by apply Hseen|].
    by intros _.
  - assert (Hrun : exists kept : gset (VDF * Z),
              seen_compact_proofs seen vdf_info height
              = (false, kept ∪ {[(vdf_info, height)]}) /\
              (Z.of_nat (size seen) <= 10000 -> kept = seen)).
    { unfold seen_compact_proofs. rewrite bool_decide_eq_false_2 by done.
      eexists. split; [reflexivity|]. intros Hsize. simpl.
      rewrite Z.gtb_ltb. by rewrite (proj2 (Z.ltb_ge _ _)) by lia. }
    destruct Hrun as (kept & -> & Hkept). simpl.
    assert (Hnow : (vdf_info, height) ∈ kept ∪ {[(vdf_info, height)]}).
    { apply elem_of_union. right. by apply elem_of_singleton. }
    split; [split; [discriminate | done]|]. split; [discriminate|].
    split; [exact Hnow|]. split; [by apply Hseen|].
    intros Hsize. rewrite (Hkept Hsize). apply union_subseteq_l.
Qed.

(** X12. The set of compact proofs seen stays small: when it holds at
    most 10001 pairs before a call of [seen_compact_proofs], it holds at
    most 10001 pairs after it; a call that finds more than 10000 pairs,
    none of them the one asked for, forgets them all and keeps the new
    pair only. *)
Theorem seen_compact_proofs_bounded `{Countable VDF} (seen : gset (VDF * Z))
    (vdf_info : VDF) (height : Z) :
  Z.of_nat (size seen) <= 10001 ->
  Z.of_nat (size (seen_compact_proofs seen vdf_info height).2) <= 10001 /\
  (10000 < Z.of_nat (size seen) -> (vdf_info, height) ∉ seen ->
   (seen_compact_proofs seen vdf_info height).2 = {[(vdf_info, height)]}).
Proof.
  intros Hsize. unfold seen_compact_proofs.
  case_bool_decide as Hin; simpl.
  - split; [done|]. intros _ Hn. by destruct Hn.
  - rewrite Z.gtb_ltb. destruct (10000 <? Z.of_nat (size seen)) eqn:Hbig.
    + rewrite (left_id_L ∅ (∪)). rewrite size_singleton. split; [lia | done].
    + apply Z.ltb_ge in Hbig. split; [|lia].
      rewrite size_union.
      * rewrite size_singleton. lia.
      * intros x Hx Hx'. apply elem_of_singleton in Hx'. by subst x.
Qed.

(** On the empty set, the pair (7, 3). *)
Lemma seen_compact_proofs_bounded_witness :
  Z.of_nat (size (seen_compact_proofs (∅ : gset (Z * Z)) 7 3).2) <= 10001 /\
  seen_compact_proofs (∅ : gset (Z * Z)) 7 3 = (false, {[(7, 3)]}).
Proof.
  split.
  - apply (seen_compact_proofs_bounded (∅ : gset (Z * Z)) 7 3).
    rewrite size_empty. lia.
  - vm_compute. reflexivity.
Defined.

(** ** More on the body validation *)

(** X13. What [validate_block_body] does to the execution client, on
    every input: it only appends to the log of engine calls, either
    nothing, or [new_payload] of the block's payload, or that followed by
    [forkchoice_update] of the record of a full block; it never asks
    [forkchoice_update] for an unfinished block, and never without asking
    [new_payload] first. It either returns or fails one of its two
    assertions: a wrong height fails before any call, a full block given
    without its record fails after [new_payload] was asked. *)
Theorem validate_block_body_engine_calls (ec : ExecutionClient) (block : Block)
    (h : Z) (r : option BlockRecord) :
  let res := validate_block_body ec block h r in
  ((exists code, res.1 = Returned code) \/ res.1 = Raised AssertionError) /\
  (forall b, block = Full b -> h ≠ FullBlock.height b ->
     res = (Raised AssertionError, ec)) /\
  (forall b payload, block = Full b -> h = FullBlock.height b -> r = None ->
     FullBlock.execution_payload b = Some payload ->
     respond ec (calls ec) (NewPayload payload) = "VALID" ->
     res = (Raised AssertionError, (new_payload ec payload).2)) /\
  respond res.2 = respond ec /\
  config res.2 = config ec /\
  (calls res.2 = calls ec \/
   exists payload,
     block_execution_payload block = Some payload /\
     (calls res.2 = calls ec ++ [NewPayload payload] \/
      exists b block_record,
        block = Full b /\ r = Some block_record /\
        calls res.2 = calls ec ++ [NewPayload payload; ForkchoiceUpdate block_record])).
Proof.
  intros res. subst res.
  cut ((respond (validate_block_body ec block h r).2 = respond ec /\
        config (validate_block_body ec block h r).2 = config ec /\
        (calls (validate_block_body ec block h r).2 = calls ec \/
         exists payload,
           block_execution_payload block = Some payload /\
           (calls (validate_block_body ec block h r).2 = calls ec ++ [NewPayload payload] \/
            exists b block_record,
              block = Full b /\ r = Some block_record /\
              calls (validate_block_body ec block h r).2
              = calls ec ++ [NewPayload payload; ForkchoiceUpdate block_record]))) /\
       ((exists code, (validate_block_body ec block h r).1 = Returned code) \/
        (validate_block_body ec block h r).1 = Raised AssertionError)).
  { intros ((H1 & H2 & H3) & H4). split; [exact H4|].
    split; [|split; [|by repeat split]].
    - intros b -> Hh. unfold validate_block_body.
      by rewrite bool_decide_eq_false_2.
    - intros b payload -> -> -> Hp Hst. unfold validate_block_body.
      rewrite bool_decide_eq_true_2 by done. simpl. rewrite Hp.
      unfold new_payload, engine_call. simpl. rewrite Hst. reflexivity. }
  unfold validate_block_body.
  destruct block as [b|b]; simpl.
  - case_bool_decide as Hh; simpl.
    2:{ split; [|by right]. split; [done|]. split; [done|]. by left. }
    destruct (FullBlock.execution_payload b) as [payload|] eqn:Hp.
    2:{ split; [|left; eauto]. split; [done|]. split; [done|]. by left. }
    unfold validate_block_body_forkchoice, new_payload, forkchoice_update, engine_call.
    simpl.
    generalize (respond ec (calls ec) (NewPayload payload)); intros status.
    destruct r as [block_record|]; simpl.
    + generalize (respond ec ((calls ec ++ [NewPayload payload]))
                    (ForkchoiceUpdate block_record)); intros status'.
      assert (Hboth : calls ec ++ [NewPayload payload; ForkchoiceUpdate block_record]
                      = (calls ec ++ [NewPayload payload])
                        ++ [ForkchoiceUpdate block_record])
        by apply (assoc_L (++) _ [_] [_]).
      repeat case_match; simpl;
        (split; [|left; eauto]); (split; [done|]); (split; [done|]);
        right; exists payload; (split; [done|]);
        first [by left | right; exists b, block_record; by rewrite Hboth].
    + repeat case_match; simpl;
        (split; [|first [left; by eauto | by right]]);
        (split; [done|]); (split; [done|]);
        right; exists payload; (split; [done|]); by left.
  - destruct (UnfinishedBlock.execution_payload b) as [payload|] eqn:Hp.
    2:{ split; [|left; eauto]. split; [done|]. split; [done|]. by left. }
    unfold new_payload, engine_call. simpl.
    generalize (respond ec (calls ec) (NewPayload payload)); intros status.
    repeat case_match; simpl;
      (split; [|left; eauto]); (split; [done|]); (split; [done|]);
      right; exists payload; (split; [done|]); by left.
Qed.

(** ** More on [receive_block] *)

(** The execution client after [validate_block_body]: the same engine and
    configuration, with a longer log of calls. *)
Lemma validate_block_body_client (ec : ExecutionClient) (block : Block)
    (h : Z) (r : option BlockRecord) :
  respond (validate_block_body ec block h r).2 = respond ec /\
  config (validate_block_body ec block h r).2 = config ec /\
  exists more, calls (validate_block_body ec block h r).2 = calls ec ++ more.
Proof.
  assert (Hnil : exists more, calls ec = calls ec ++ more)
    by (exists []; by rewrite (right_id_L [] (++))).
  unfold validate_block_body, validate_block_body_forkchoice, new_payload,
    forkchoice_update, engine_call.
  repeat case_match; simpl; (split; [done|]); (split; [done|]);
    try done; try (by eexists); rewrite <- (assoc_L (++)); by eexists.
Qed.

Lemma set_execution_client_same (self : Blockchain) :
  set_execution_client self (execution_client self) = self.
Proof. by destruct self. Qed.

(** X14. The shape of what [receive_block] returns: there is a
    [StateChangeSummary] exactly when the result is NEW_PEAK; there is no
    error exactly when the result is NEW_PEAK, ADDED_AS_ORPHAN or
    ALREADY_HAVE_BLOCK; and DISCONNECTED_BLOCK always comes with
    INVALID_PREV_BLOCK_HASH. *)
Theorem receive_block_result_shape (env : Collaborators) (fuel : nat)
    (self self' : Blockchain) (block : FullBlock.t)
    (pre_validation_result : PreValidationResult.t) (fork_point_with_peak : option Z)
    (result : ReceiveBlockResult) (err : option Err)
    (summary : option StateChangeSummary.t) :
  receive_block env fuel self block pre_validation_result fork_point_with_peak
  = (Returned (result, err, summary), self') ->
  (is_Some summary <-> result = NEW_PEAK) /\
  (err = None <->
   result = NEW_PEAK \/ result = ADDED_AS_ORPHAN \/ result = ALREADY_HAVE_BLOCK) /\
  (result = DISCONNECTED_BLOCK -> err = Some INVALID_PREV_BLOCK_HASH).
Proof.
  unfold receive_block, receive_block_commit. intros Hrun.
  repeat (case_match; simplify_eq; simpl in *);
    (split; [split; [first [done | by intros [? ?]] | first [done | by eauto]]|]);
    (split; [split; [first [done | by auto] | first [done | by intros [?|[?|?]]]]|]);
    done.
Qed.

(** On the sample chain: a child of the peak whose payload the engine
    finds invalid. *)
Lemma receive_block_result_shape_witness :
  receive_block sample_env 10 sample_chain (sample_block 4 3 3 40 (Some 9))
    valid_result None
  = (Returned (INVALID_BLOCK, Some PAYLOAD_INVALIDATED, None),
     (receive_block sample_env 10 sample_chain (sample_block 4 3 3 40 (Some 9))
        valid_result None).2) /\
  (is_Some (None : option StateChangeSummary.t) <-> INVALID_BLOCK = NEW_PEAK).
Proof.
  assert (Hrun : receive_block sample_env 10 sample_chain (sample_block 4 3 3 40 (Some 9))
                   valid_result None
                 = (Returned (INVALID_BLOCK, Some PAYLOAD_INVALIDATED, None),
                    (receive_block sample_env 10 sample_chain
                       (sample_block 4 3 3 40 (Some 9)) valid_result None).2))
    by (vm_compute; reflexivity).
  split; [exact Hrun|].
  exact (proj1 (receive_block_result_shape _ _ _ _ _ _ _ _ _ _ Hrun)).
Defined.

(** X15. A block that [receive_block] does not add is neither persisted
    nor cached: when the result is other than NEW_PEAK and
    ADDED_AS_ORPHAN, the record cache and its index, the height map, the
    peak and the block store are as before the call; only the execution
    client may have logged more calls. *)
Theorem receive_block_rejected_frame (env : Collaborators) (fuel : nat)
    (self self' : Blockchain) (block : FullBlock.t)
    (pre_validation_result : PreValidationResult.t) (fork_point_with_peak : option Z)
    (result : ReceiveBlockResult) (err : option Err)
    (summary : option StateChangeSummary.t) :
  receive_block env fuel self block pre_validation_result fork_point_with_peak
  = (Returned (result, err, summary), self') ->
  result ≠ NEW_PEAK -> result ≠ ADDED_AS_ORPHAN ->
  self' = set_execution_client self (execution_client self') /\
  respond (execution_client self') = respond (execution_client self) /\
  config (execution_client self') = config (execution_client self) /\
  exists more,
    calls (execution_client self') = calls (execution_client self) ++ more.
Proof.
  assert (Hnil : exists more, calls (execution_client self)
                              = calls (execution_client self) ++ more)
    by (exists []; by rewrite (right_id_L [] (++))).
  unfold receive_block, receive_block_commit. intros Hrun Hnp Hno.
  repeat (case_match; simplify_eq; simpl in *);
    try (by rewrite set_execution_client_same);
    match goal with
    | H : validate_block_body ?ec ?b ?h ?r = (_, ?ec') |- _ =>
        pose proof (validate_block_body_client ec b h r) as Hec;
        rewrite H in Hec; simpl in Hec; done
    end.
Qed.

Lemma receive_block_rejected_frame_witness :
  let run := receive_block sample_env 10 sample_chain (sample_block 4 3 3 40 (Some 9))
               valid_result None in
  run.1 = Returned (INVALID_BLOCK, Some PAYLOAD_INVALIDATED, None) /\
  run.2 = set_execution_client sample_chain (execution_client run.2) /\
  length (calls (execution_client run.2))
  = S (length (calls (execution_client sample_chain))).
Proof.
  intros run.
  assert (Hrun : receive_block sample_env 10 sample_chain (sample_block 4 3 3 40 (Some 9))
                   valid_result None
                 = (Returned (INVALID_BLOCK, Some PAYLOAD_INVALIDATED, None), run.2))
    by (vm_compute; reflexivity).
  split; [exact (f_equal fst Hrun)|]. split.
  - by apply (receive_block_rejected_frame _ _ _ _ _ _ _ _ _ _ Hrun).
  - vm_compute. reflexivity.
Defined.

(** ** [receive_block] when it raises *)

Lemma update_heights_total (records : list BlockRecord) :
  forall hm : BlockHeightMap.t,
    HeightMapFailures.update_heights HeightMapFailures.total hm records
    = (Returned tt,
       foldl (fun hm fetched_block_record =>
                BlockHeightMap.update_height hm
                  (height fetched_block_record)
                  (header_hash fetched_block_record)
                  (sub_epoch_summary_included fetched_block_record))
             hm records).
Proof.
  induction records as [|r records IH]; intros hm; simpl; [done|]. apply IH.
Qed.

Lemma update_heights_raised (ops : HeightMapFailures.t) (records : list BlockRecord) :
  forall (hm hm' : BlockHeightMap.t) (e : PyExn),
    HeightMapFailures.update_heights ops hm records = (Raised e, hm') ->
    exists hm0 h hh ses,
      HeightMapFailures.update_height ops hm0 h hh ses = (Raised e, hm').
Proof.
  induction records as [|r records IH]; intros hm hm' e; simpl; [discriminate|].
  destruct (HeightMapFailures.update_height ops hm _ _ _) as [[[]|e0|] hm0] eqn:Hu.
  - apply IH.
  - intros [= <- <-]. eauto.
  - discriminate.
Qed.

(** With a height map whose operations do not fail, the definitions of
    [HeightMapFailures] are those used everywhere else. *)
Lemma receive_block_commit_total (env : Collaborators) (fuel : nat)
    (self : Blockchain) (block : FullBlock.t) (block_record : BlockRecord)
    (genesis : bool) (fork_point_with_peak : option Z) :
  HeightMapFailures.receive_block_commit HeightMapFailures.total env fuel self block
    block_record genesis fork_point_with_peak
  = receive_block_commit env fuel self block block_record genesis fork_point_with_peak.
Proof.
  unfold HeightMapFailures.receive_block_commit, receive_block_commit.
  destruct (_reconsider_peak _ _ _ _ _ _) as [[[records summary] store]| |];
    [| reflexivity | reflexivity].
  destruct summary as [s|]; simpl; rewrite update_heights_total; reflexivity.
Qed.

Lemma receive_block_total (env : Collaborators) (fuel : nat) (self : Blockchain)
    (block : FullBlock.t) (pre_validation_result : PreValidationResult.t)
    (fork_point_with_peak : option Z) :
  HeightMapFailures.receive_block HeightMapFailures.total env fuel self block
    pre_validation_result fork_point_with_peak
  = receive_block env fuel self block pre_validation_result fork_point_with_peak.
Proof.
  unfold HeightMapFailures.receive_block, receive_block.
  repeat (case_match; try reflexivity).
  all: apply receive_block_commit_total.
Qed.

(** What [_reconsider_peak] does to the store: it never touches the
    persisted blocks; without a summary it changes nothing, with one it
    points the peak at the record. *)
Lemma reconsider_peak_store (env : Collaborators) (fuel : nat) (self : Blockchain)
    (block_record : BlockRecord) (genesis : bool) (fork_point_with_peak : option Z)
    (records : list BlockRecord) (summary : option StateChangeSummary.t)
    (store : BlockStore.t) :
  _reconsider_peak env fuel self block_record genesis fork_point_with_peak
  = Returned (records, summary, store) ->
  BlockStore.full_blocks store = BlockStore.full_blocks (block_store self) /\
  match summary with
  | None => store = block_store self
  | Some _ => BlockStore.peak store = Some (header_hash block_record)
  end.
Proof.
  unfold _reconsider_peak.
  destruct (get_peak self) as [[peak|]| |]; simpl; try discriminate.
  - destruct genesis; simpl; [by intros [= <- <- <-]|].
    destruct (weight block_record <=? weight peak); simpl; [by intros [= <- <- <-]|].
    destruct (if bool_decide _ then _ else _) as [fh| |]; simpl; try discriminate.
    destruct (backtrack_to_fork _ _ _ _ _) as [bs| |]; simpl; try discriminate.
    destruct (uint32 _) as [fh'| |]; simpl; try discriminate.
    by intros [= <- <- <-].
  - destruct genesis; simpl; [|discriminate].
    destruct (BlockStore.get_full_block _ _); [|discriminate].
    by intros [= <- <- <-].
Qed.

Lemma receive_block_commit_raises (ops : HeightMapFailures.t) (env : Collaborators)
    (fuel : nat) (self self' : Blockchain) (block : FullBlock.t)
    (block_rec : BlockRecord) (genesis : bool) (fork_point_with_peak : option Z)
    (e : PyExn) :
  HeightMapFailures.receive_block_commit ops env fuel self block block_rec genesis
    fork_point_with_peak = (Raised e, self') ->
  (__block_records self' = __block_records self /\
   __heights_in_cache self' = __heights_in_cache self /\
   __height_map self' = __height_map self /\
   _peak_height self' = _peak_height self /\
   BlockStore.full_blocks (block_store self') = BlockStore.full_blocks (block_store self) /\
   BlockStore.in_main_chain (block_store self')
   = BlockStore.in_main_chain (block_store self) /\
   BlockStore.peak (block_store self') = BlockStore.peak (block_store self))
  \/
  (__block_records self' = <[header_hash block_rec := block_rec]> (__block_records self) /\
   __heights_in_cache self' = __heights_in_cache (add_block_record self block_rec) /\
   _peak_height self' = _peak_height self /\
   BlockStore.full_blocks (block_store self') = BlockStore.full_blocks (block_store self) /\
   BlockStore.in_main_chain (block_store self')
   = BlockStore.in_main_chain (block_store self) /\
   BlockStore.peak (block_store self') = BlockStore.peak (block_store self) /\
   ((exists hm h, HeightMapFailures.rollback ops hm h = (Raised e, __height_map self')) \/
    (exists hm h hh ses,
        HeightMapFailures.update_height ops hm h hh ses
        = (Raised e, __height_map self'))))
  \/
  (BlockStore.full_blocks (block_store self')
   = <[FullBlock.header_hash block := (block, block_rec)]>
       (BlockStore.full_blocks (block_store self)) /\
   __block_records self' = <[header_hash block_rec := block_rec]> (__block_records self) /\
   __heights_in_cache self' = __heights_in_cache (add_block_record self block_rec) /\
   (exists hm, HeightMapFailures.maybe_flush ops hm = (Raised e, __height_map self')) /\
   ((_peak_height self' = Some (height block_rec) /\
     BlockStore.peak (block_store self') = Some (header_hash block_rec))
    \/
    (_peak_height self' = _peak_height self /\
     BlockStore.peak (block_store self') = BlockStore.peak (block_store self) /\
     BlockStore.in_main_chain (block_store self')
     = BlockStore.in_main_chain (block_store self)))).
Proof.
  unfold HeightMapFailures.receive_block_commit.
  destruct (_reconsider_peak _ _ _ _ _ _) as [[[records summary] store]|e0|] eqn:Hrp;
    [| | discriminate].
  2:{ intros [= <- <-]. left. by repeat split. }
  apply reconsider_peak_store in Hrp as [Hfull Hsum]. simpl in Hfull.
  destruct summary as [s|].
  - destruct (HeightMapFailures.rollback ops _ _) as [[[]|e1|] hm1] eqn:Hrb.
    + destruct (HeightMapFailures.update_heights ops hm1 records)
        as [[[]|e2|] hm2] eqn:Hup.
      * destruct (HeightMapFailures.maybe_flush ops _) as [[[]|e3|] hm3] eqn:Hfl;
          [discriminate | | discriminate].
        intros [= <- <-]. right. right. simpl in *.
        split; [done|]. split; [done|]. split; [done|]. split; [eauto|].
        left. by split.
      * intros [= <- <-]. right. left. simpl.
        do 6 (split; [done|]). right.
        by apply update_heights_raised in Hup.
      * discriminate.
    + intros [= <- <-]. right. left. simpl.
      do 6 (split; [done|]). left. eauto.
    + discriminate.
  - subst store.
    destruct (HeightMapFailures.update_heights ops _ records)
      as [[[]|e2|] hm2] eqn:Hup.
    + destruct (HeightMapFailures.maybe_flush ops _) as [[[]|e3|] hm3] eqn:Hfl;
        [discriminate | | discriminate].
      intros [= <- <-]. right. right. simpl in *.
      split; [done|]. split; [done|]. split; [done|]. split; [eauto|].
      right. by repeat split.
    + intros [= <- <-]. right. left. simpl.
      do 6 (split; [done|]). right.
      by apply update_heights_raised in Hup.
    + discriminate.
Qed.

(** X16. What a raise of [receive_block] leaves behind, with a height map
    whose operations may fail. One of three:
    - the raise came before the in-memory update (from the checks, the
      record builder, the body validation or [_reconsider_peak]): the
      record cache, its index, the height map and the peak are as before
      the call, and so are the persisted blocks, the in-chain marks and
      the peak pointer of the store;
    - [rollback] or [update_height] of the height map raised, inside the
      [try]: the store is rolled back and the peak is as before, but the
      record of the block stays in the cache and in its index, since
      nothing undoes [add_block_record];
    - [maybe_flush] raised, after the writer block: nothing is reverted,
      the block is persisted and its record cached, and either the block
      is the new peak ([_peak_height] and the peak pointer of the store
      are its), or it is an orphan and the peak is as before. *)
Theorem receive_block_raises_cases (ops : HeightMapFailures.t) (env : Collaborators)
    (fuel : nat) (self self' : Blockchain) (block : FullBlock.t)
    (pre_validation_result : PreValidationResult.t) (fork_point_with_peak : option Z)
    (e : PyExn) :
  HeightMapFailures.receive_block ops env fuel self block pre_validation_result
    fork_point_with_peak = (Raised e, self') ->
  (__block_records self' = __block_records self /\
   __heights_in_cache self' = __heights_in_cache self /\
   __height_map self' = __height_map self /\
   _peak_height self' = _peak_height self /\
   BlockStore.full_blocks (block_store self') = BlockStore.full_blocks (block_store self) /\
   BlockStore.in_main_chain (block_store self')
   = BlockStore.in_main_chain (block_store self) /\
   BlockStore.peak (block_store self') = BlockStore.peak (block_store self))
  \/
  (exists block_rec,
     __block_records self' = <[header_hash block_rec := block_rec]> (__block_records self) /\
     __heights_in_cache self' = __heights_in_cache (add_block_record self block_rec) /\
     _peak_height self' = _peak_height self /\
     BlockStore.full_blocks (block_store self') = BlockStore.full_blocks (block_store self) /\
     BlockStore.in_main_chain (block_store self')
     = BlockStore.in_main_chain (block_store self) /\
     BlockStore.peak (block_store self') = BlockStore.peak (block_store self) /\
     ((exists hm h, HeightMapFailures.rollback ops hm h = (Raised e, __height_map self')) \/
      (exists hm h hh ses,
          HeightMapFailures.update_height ops hm h hh ses
          = (Raised e, __height_map self'))))
  \/
  (exists block_rec,
     BlockStore.full_blocks (block_store self')
     = <[FullBlock.header_hash block := (block, block_rec)]>
         (BlockStore.full_blocks (block_store self)) /\
     __block_records self' = <[header_hash block_rec := block_rec]> (__block_records self) /\
     __heights_in_cache self' = __heights_in_cache (add_block_record self block_rec) /\
     (exists hm, HeightMapFailures.maybe_flush ops hm = (Raised e, __height_map self')) /\
     ((_peak_height self' = Some (height block_rec) /\
       BlockStore.peak (block_store self') = Some (header_hash block_rec))
      \/
      (_peak_height self' = _peak_height self /\
       BlockStore.peak (block_store self') = BlockStore.peak (block_store self) /\
       BlockStore.in_main_chain (block_store self')
       = BlockStore.in_main_chain (block_store self)))).
Proof.
  unfold HeightMapFailures.receive_block. intros Hrun.
  repeat (case_match; simplify_eq; simpl in *);
    try (left; by repeat split).
  all: match goal with
       | H : HeightMapFailures.receive_block_commit _ _ _ _ _ ?r _ _ = _ |- _ =>
           apply receive_block_commit_raises in H as [H|[H|H]];
             [left; exact H | right; left; exists r; exact H
              | right; right; exists r; exact H]
       end.
Qed.

(** Each of the three happens. On the sample chain, whose peak is block 3
    (height 2), receiving block 4, a heavier child of block 3:
    - with a height map whose [maybe_flush] raises, the call raises and
      block 4 is persisted, cached and the peak;
    - with a height map whose [update_height] raises, the call raises and
      block 4 is cached without being persisted, the peak being as before.
    On the sample cache with a gap, whose height map does not know the
    peak height, receiving a child of block 15 raises while the peak is
    reconsidered, and the block is not kept. *)
Lemma receive_block_raises_cases_witness :
  let flush := HeightMapFailures.receive_block flush_fails sample_env 10 sample_chain
                 sample_child valid_result None in
  let update := HeightMapFailures.receive_block update_height_fails sample_env 10
                  sample_chain sample_child valid_result None in
  let before := HeightMapFailures.receive_block HeightMapFailures.total sample_env 10
                  gc_chain (sample_block 16 15 6 70 None) valid_result None in
  BlockStore.peak (block_store sample_chain) = Some 3 /\
  _peak_height sample_chain = Some 2 /\
  flush.1 = Raised ValueError /\
  contains_block flush.2 4 = true /\
  is_Some (BlockStore.full_blocks (block_store flush.2) !! 4) /\
  BlockStore.peak (block_store flush.2) = Some 4 /\
  _peak_height flush.2 = Some 3 /\
  update.1 = Raised ValueError /\
  contains_block update.2 4 = true /\
  BlockStore.full_blocks (block_store update.2) !! 4 = None /\
  BlockStore.peak (block_store update.2) = Some 3 /\
  _peak_height update.2 = Some 2 /\
  before.1 = Raised ValueError /\
  __block_records before.2 = __block_records gc_chain /\
  BlockStore.full_blocks (block_store before.2) = ∅.
Proof.
  intros flush update before.
  assert (Hrun : HeightMapFailures.receive_block flush_fails sample_env 10 sample_chain
                   sample_child valid_result None = (Raised ValueError, flush.2))
    by (vm_compute; reflexivity).
  assert (Hold : BlockStore.peak (block_store sample_chain) = Some 3)
    by (vm_compute; reflexivity).
  assert (Hnew : BlockStore.peak (block_store flush.2) = Some 4)
    by (vm_compute; reflexivity).
  split; [exact Hold|]. split; [vm_compute; reflexivity|].
  split; [exact (f_equal fst Hrun)|]. split; [vm_compute; reflexivity|].
  split.
  { destruct (receive_block_raises_cases _ _ _ _ _ _ _ _ _ Hrun)
      as [(_ & _ & _ & _ & _ & _ & Hp)
         |[(r & _ & _ & _ & _ & _ & Hp & _)|(r & Hfull & _)]].
    - rewrite Hnew, Hold in Hp. discriminate Hp.
    - rewrite Hnew, Hold in Hp. discriminate Hp.
    - rewrite Hfull. change (FullBlock.header_hash sample_child) with 4.
      rewrite lookup_insert_eq. eauto. }
  split; [exact Hnew|].
  repeat (split; [vm_compute; reflexivity|]). vm_compute; reflexivity.
Defined.

(** ** [receive_block]: new peaks *)

Lemma get_peak_set_execution_client (self : Blockchain) (ec : ExecutionClient) :
  get_peak (set_execution_client self ec) = get_peak self.
Proof. by apply get_peak_frame. Qed.

(** What a commit that reports a new peak has done. *)
Lemma receive_block_commit_new_peak (env : Collaborators) (fuel : nat)
    (self self' : Blockchain) (block : FullBlock.t) (block_rec : BlockRecord)
    (genesis : bool) (fork_point_with_peak : option Z) (err : option Err)
    (summary : option StateChangeSummary.t) :
  receive_block_commit env fuel self block block_rec genesis fork_point_with_peak
  = (Returned (NEW_PEAK, err, summary), self') ->
  exists s,
    summary = Some s /\
    StateChangeSummary.peak s = block_rec /\
    0 <= StateChangeSummary.fork_height s < 2 ^ 32 /\
    _peak_height self' = Some (height block_rec) /\
    BlockStore.peak (block_store self') = Some (header_hash block_rec) /\
    match get_peak self with
    | Returned (Some old) => genesis = false /\ weight old < weight block_rec
    | Returned None => genesis = true
    | _ => False
    end.
Proof.
  unfold receive_block_commit, _reconsider_peak.
  erewrite (get_peak_frame self); [| reflexivity ..].
  destruct (get_peak self) as [[old|]| |]; simpl; [| | done | done].
  - destruct genesis; simpl; [discriminate|].
    destruct (weight block_rec <=? weight old) eqn:Hw; simpl; [discriminate|].
    apply Z.leb_gt in Hw.
    destruct (if bool_decide (prev_hash block_rec = header_hash old) then _ else _)
      as [fork_height| |]; simpl; try discriminate.
    destruct (backtrack_to_fork _ _ _ _ _) as [blocks_to_add| |]; simpl; try discriminate.
    destruct (uint32 (Z.max fork_height 0)) as [fh| |] eqn:Hfh; simpl; try discriminate.
    apply sized_uint_Returned in Hfh as [-> Hfh].
    intros [= <- <- <-]. eexists. split; [done|]. simpl. done.
  - destruct genesis; simpl; [|discriminate].
    destruct (BlockStore.get_full_block _ _); simpl; [|discriminate].
    intros [= <- <- <-]. eexists. split; [done|]. simpl.
    split; [done|]. split; [|done]. split; [lia | reflexivity].
Qed.

(** X17. What NEW_PEAK means. When [receive_block] returns NEW_PEAK, the
    record built for the block is the peak of the summary, it is cached,
    [_peak_height] is its height and the peak pointer of the store its
    hash; the fork height of the summary is a [uint32]; and either the
    chain had no peak and the block is a genesis block, or the block is
    not a genesis block and its record is strictly heavier than the peak
    before the call. *)
Theorem receive_block_new_peak (env : Collaborators) (fuel : nat)
    (self self' : Blockchain) (block : FullBlock.t)
    (pre_validation_result : PreValidationResult.t) (fork_point_with_peak : option Z)
    (err : option Err) (summary : option StateChangeSummary.t) :
  receive_block env fuel self block pre_validation_result fork_point_with_peak
  = (Returned (NEW_PEAK, err, summary), self') ->
  exists iters block_rec s,
    PreValidationResult.required_iters pre_validation_result = Some iters /\
    block_to_block_record env Blockchain _ (constants self) self iters block None
    = Returned block_rec /\
    summary = Some s /\
    StateChangeSummary.peak s = block_rec /\
    0 <= StateChangeSummary.fork_height s < 2 ^ 32 /\
    _peak_height self' = Some (height block_rec) /\
    __block_records self' !! header_hash block_rec = Some block_rec /\
    BlockStore.peak (block_store self') = Some (header_hash block_rec) /\
    match get_peak self with
    | Returned (Some old) => FullBlock.height block ≠ 0 /\ weight old < weight block_rec
    | Returned None => FullBlock.height block = 0
    | _ => False
    end.
Proof.
  unfold receive_block. intros Hrun.
  repeat (case_match; simplify_eq; simpl in *).
  all: match goal with
       | H : receive_block_commit _ _ _ _ _ _ _ = _ |- _ =>
           pose proof (receive_block_commit_cached _ _ _ _ _ _ _ _ _ H) as Hcached;
           apply receive_block_commit_new_peak in H
             as (s & -> & Hpeak & Hfh & Hp & Hst & Hold)
       end.
  all: rewrite get_peak_set_execution_client in Hold.
  all: do 3 eexists; split; [done|]; split; [done|]; split; [done|].
  all: do 5 (split; [done|]).
  all: match goal with H : get_peak _ = _ |- _ => rewrite H in Hold end.
  all: try done.
  all: first [ by apply bool_decide_eq_true in Hold
             | destruct Hold as [Hg Hw]; apply bool_decide_eq_false in Hg; done ].
Qed.

(** On the sample chain, whose peak is block 3 (height 2, weight 30): a
    child of block 3 of weight 40. *)
Lemma receive_block_new_peak_witness :
  exists self' s,
    receive_block sample_env 10 sample_chain (sample_block 4 3 3 40 None)
      valid_result None
    = (Returned (NEW_PEAK, None, Some s), self') /\
    _peak_height self' = Some 3 /\
    StateChangeSummary.fork_height s = 2 /\
    30 < weight (StateChangeSummary.peak s).
Proof.
  destruct (receive_block sample_env 10 sample_chain (sample_block 4 3 3 40 None)
              valid_result None) as [res self'] eqn:Hrun.
  assert (Hres : exists s, res = Returned (NEW_PEAK, None, Some s) /\
                           StateChangeSummary.fork_height s = 2).
  { vm_compute in Hrun. injection Hrun as <- _. eexists. split; reflexivity. }
  destruct Hres as (s & -> & Hfork).
  destruct (receive_block_new_peak _ _ _ _ _ _ _ _ _ Hrun)
    as (iters & block_rec & s' & _ & Hrec & [= <-] & Hpeak & _ & Hp & _ & _ & Hold).
  exists self', s. split; [done|].
  assert (Hpk : get_peak sample_chain = Returned (Some (sample_record 3 2 2 30 true)))
    by (vm_compute; reflexivity).
  rewrite Hpk in Hold. destruct Hold as [_ Hw].
  assert (Hh : height block_rec = 3).
  { unfold block_to_block_record in Hrec. simpl in Hrec.
    unfold sample_block_to_block_record in Hrec.
    rewrite bool_decide_eq_false_2 in Hrec by (by intros ?%elem_of_nil).
    by injection Hrec as <-. }
  rewrite Hp, Hh, Hpeak.
  split; [reflexivity|]. split; [exact Hfork | exact Hw].
Defined.

(** [height_to_hash] never raises: it is the lookup in the height map. *)
Lemma height_to_hash_lookup (self : Blockchain) (h : Z) :
  height_to_hash self h
  = Returned (BlockHeightMap.height_to_hash (__height_map self) !! h).
Proof.
  unfold height_to_hash, BlockHeightMap.contains_height, BlockHeightMap.get_hash,
    dict_get.
  destruct (BlockHeightMap.height_to_hash (__height_map self) !! h) eqn:Hh.
  - by rewrite bool_decide_eq_true_2 by eauto.
  - rewrite bool_decide_eq_false_2; [done|]. by intros [? ?].
Qed.

Section ReceiveNewPeak.
Variable env : Collaborators.

(** X18. A second genesis block never takes over: once the chain has a
    peak, a block of height 0 that passes the checks is added as an
    orphan, whatever its weight; the peak pointer of the store, the
    [_peak_height] cursor, the in-chain marks and the height map are as
    before; the block is persisted and its record cached. *)
Theorem receive_block_second_genesis (fuel : nat) (self : Blockchain)
    (block : FullBlock.t) (pre_validation_result : PreValidationResult.t)
    (fork_point_with_peak : option Z) (block_rec peak : BlockRecord) (iters : Z) :
  FullBlock.height block = 0 ->
  ¬ is_Some (__block_records self !! FullBlock.header_hash block) ->
  PreValidationResult.error pre_validation_result = None ->
  PreValidationResult.required_iters pre_validation_result = Some iters ->
  block_to_block_record env Blockchain _ (constants self) self iters block None
  = Returned block_rec ->
  (validate_block_body (execution_client self) (Full block)
     (FullBlock.height block) (Some block_rec)).1 = Returned None ->
  get_peak self = Returned (Some peak) ->
  let run := receive_block env fuel self block pre_validation_result
               fork_point_with_peak in
  run.1 = Returned (ADDED_AS_ORPHAN, None, None) /\
  BlockStore.peak (block_store run.2) = BlockStore.peak (block_store self) /\
  _peak_height run.2 = _peak_height self /\
  BlockStore.in_main_chain (block_store run.2)
  = BlockStore.in_main_chain (block_store self) /\
  __height_map run.2 = __height_map self /\
  BlockStore.full_blocks (block_store run.2)
  = <[FullBlock.header_hash block := (block, block_rec)]>
      (BlockStore.full_blocks (block_store self)) /\
  __block_records run.2
  = <[header_hash block_rec := block_rec]> (__block_records self).
Proof.
  intros Hg Hnew Herr Hiters Hrec Hbody Hpeak run.
  subst run. unfold receive_block. rewrite !contains_block_lookup.
  rewrite (bool_decide_eq_false_2 _ Hnew).
  rewrite (bool_decide_eq_true_2 _ Hg). rewrite andb_false_r. simpl.
  rewrite Herr, Hiters, Hrec.
  destruct (validate_block_body _ _ _ _) as [code ec] eqn:Hvb.
  simpl in Hbody. subst code.
  unfold receive_block_commit, _reconsider_peak.
  erewrite (get_peak_frame self); [| reflexivity ..].
  rewrite Hpeak. simpl. done.
Qed.

(** X19. Extending the chain. A block on top of the peak, one higher,
    that passes the checks and whose record is heavier than the peak,
    becomes the new peak with the old peak's height as fork height:
    [_peak_height] moves to the record's height, [get_peak] returns the
    record, the height map gets the record's hash at its height and keeps
    every entry up to the old peak, the store marks the block as in the
    chain and points its peak at it. Two units of fuel are enough for the
    walk back to the fork. The builder gives the record the hash, the
    parent and the height of the block. *)
Theorem receive_block_extends_peak (fuel : nat) (self : Blockchain)
    (block : FullBlock.t) (pre_validation_result : PreValidationResult.t)
    (fork_point_with_peak : option Z) (block_rec peak : BlockRecord) (iters : Z) :
  (2 <= fuel)%nat ->
  ¬ is_Some (__block_records self !! FullBlock.header_hash block) ->
  __block_records self !! FullBlock.prev_header_hash block = Some peak ->
  header_hash peak = FullBlock.prev_header_hash block ->
  0 <= height peak < 2 ^ 32 ->
  height peak + 1 = FullBlock.height block ->
  _peak_height self = Some (height peak) ->
  BlockHeightMap.height_to_hash (__height_map self) !! height peak
  = Some (header_hash peak) ->
  PreValidationResult.error pre_validation_result = None ->
  PreValidationResult.required_iters pre_validation_result = Some iters ->
  block_to_block_record env Blockchain _ (constants self) self iters block None
  = Returned block_rec ->
  header_hash block_rec = FullBlock.header_hash block ->
  prev_hash block_rec = FullBlock.prev_header_hash block ->
  height block_rec = FullBlock.height block ->
  (validate_block_body (execution_client self) (Full block)
     (FullBlock.height block) (Some block_rec)).1 = Returned None ->
  weight peak < weight block_rec ->
  let run := receive_block env fuel self block pre_validation_result
               fork_point_with_peak in
  run.1 = Returned (NEW_PEAK, None,
                    Some {| StateChangeSummary.peak := block_rec;
                            StateChangeSummary.fork_height := height peak |}) /\
  _peak_height run.2 = Some (height block_rec) /\
  get_peak run.2 = Returned (Some block_rec) /\
  height_to_hash run.2 (height block_rec) = Returned (Some (header_hash block_rec)) /\
  (forall h, h <= height peak -> height_to_hash run.2 h = height_to_hash self h) /\
  (forall h, height block_rec < h -> height_to_hash run.2 h = Returned None) /\
  BlockStore.peak (block_store run.2) = Some (header_hash block_rec) /\
  BlockStore.in_main_chain (block_store run.2)
  = BlockStore.in_main_chain (block_store self) ∪ {[header_hash block_rec]} /\
  BlockStore.full_blocks (block_store run.2)
  = <[FullBlock.header_hash block := (block, block_rec)]>
      (BlockStore.full_blocks (block_store self)) /\
  __block_records run.2
  = <[header_hash block_rec := block_rec]> (__block_records self).
Proof.
  intros Hfuel Hnew Hparent Hph Hrange Hheight Hpk Hmap Herr Hiters Hrec
    Hhash Hprev Hrh Hbody Hw run.
  assert (Hng : FullBlock.height block ≠ 0) by lia.
  assert (Hpeak : get_peak self = Returned (Some peak)).
  { unfold get_peak, height_to_block_record, height_to_hash,
      BlockHeightMap.contains_height, BlockHeightMap.get_hash, dict_get.
    rewrite Hpk, Hmap. rewrite bool_decide_eq_true_2 by eauto. simpl.
    unfold dict_get. by rewrite Hph, Hparent. }
  assert (Hhh : height_to_hash self (height peak) = Returned (Some (header_hash peak))).
  { unfold height_to_hash, BlockHeightMap.contains_height, BlockHeightMap.get_hash,
      dict_get. rewrite Hmap. by rewrite bool_decide_eq_true_2 by eauto. }
  assert (Hdiff : header_hash block_rec ≠ header_hash peak).
  { rewrite Hhash, Hph. intros Heq. apply Hnew. rewrite Heq. eauto. }
  subst run. unfold receive_block. rewrite !contains_block_lookup.
  rewrite (bool_decide_eq_false_2 _ Hnew).
  rewrite (bool_decide_eq_true_2 (is_Some _)) by eauto.
  rewrite (bool_decide_eq_false_2 _ Hng). simpl.
  unfold dict_get. rewrite Hparent. simpl.
  rewrite bool_decide_eq_false_2 by (intros Hne; by apply Hne).
  rewrite Herr, Hiters, Hrec.
  destruct (validate_block_body _ _ _ _) as [code ec] eqn:Hvb.
  simpl in Hbody. subst code.
  unfold receive_block_commit, _reconsider_peak.
  erewrite (get_peak_frame self); [| reflexivity ..].
  rewrite Hpeak. simpl.
  rewrite (proj2 (Z.leb_gt _ _) Hw). simpl.
  rewrite bool_decide_eq_true_2 by congruence. simpl.
  destruct fuel as [|[|fuel]]; [lia | lia |]. simpl.
  rewrite (proj2 (Z.ltb_ge _ _)) by lia.
  unfold uint32. rewrite !sized_uint_in_range by lia. simpl.
  assert (Hhh' : forall s ec', height_to_hash
            (set_block_store (set_execution_client self ec') s) (height peak)
            = Returned (Some (header_hash peak))) by (intros; exact Hhh).
  rewrite !Hhh'. simpl.
  rewrite (bool_decide_eq_true_2 (Some (header_hash block_rec) ≠ _)) by congruence.
  unfold BlockStore.get_full_block, BlockStore.get_block_record. simpl.
  rewrite Hhash, !lookup_insert_eq. simpl.
  rewrite (bool_decide_eq_false_2 _ Hng).
  rewrite Hprev, <- Hph.
  rewrite bool_decide_eq_false_2 by (intros Hne; by apply Hne).
  simpl. rewrite Z.max_l by lia.
  split; [done|]. split; [done|].
  split.
  { unfold get_peak, height_to_block_record. simpl.
    rewrite height_to_hash_lookup. simpl. rewrite lookup_insert_eq. simpl.
    unfold dict_get. by rewrite lookup_insert_eq. }
  split.
  { rewrite height_to_hash_lookup. simpl. by rewrite lookup_insert_eq, Hhash. }
  split.
  { intros h Hh. rewrite !height_to_hash_lookup. simpl. f_equal.
    rewrite lookup_insert_ne by lia.
    destruct (BlockHeightMap.height_to_hash (__height_map self) !! h) as [x|] eqn:Hx.
    - by apply map_lookup_filter_Some_2.
    - apply map_lookup_filter_None_2. by left. }
  split.
  { intros h Hh. rewrite height_to_hash_lookup. simpl. f_equal.
    rewrite lookup_insert_ne by lia.
    apply map_lookup_filter_None_2. right. intros x _. simpl. lia. }
  split; [done|].
  rewrite Hhash. split; [|done].
  by rewrite (right_id_L ∅ (∪)).
Qed.
End ReceiveNewPeak.

(** On the sample chain, whose peak is block 3 of weight 30: a block 9
    of height 0 and weight 99. *)
Lemma receive_block_second_genesis_witness :
  let run := receive_block sample_env 10 sample_chain (sample_block 9 1000 0 99 None)
               valid_result None in
  run.1 = Returned (ADDED_AS_ORPHAN, None, None) /\
  _peak_height run.2 = Some 2 /\
  BlockStore.peak (block_store run.2) = Some 3.
Proof.
  intros run.
  edestruct (receive_block_second_genesis sample_env 10 sample_chain
               (sample_block 9 1000 0 99 None) valid_result None)
    as (H1 & H2 & H3 & _).
  - reflexivity.
  - not_cached.
  - reflexivity.
  - reflexivity.
  - vm_compute. reflexivity.
  - vm_compute. reflexivity.
  - vm_compute. reflexivity.
  - subst run. rewrite H1, H2, H3. repeat split.
Defined.

(** On the sample chain, whose peak is block 3 (height 2, weight 30): a
    child of block 3 of height 3 and weight 40. *)
Lemma receive_block_extends_peak_witness :
  let run := receive_block sample_env 10 sample_chain (sample_block 4 3 3 40 None)
               valid_result None in
  outcome_of run.1 = Some NEW_PEAK /\
  _peak_height run.2 = Some 3 /\
  height_to_hash run.2 3 = Returned (Some 4) /\
  height_to_hash run.2 2 = Returned (Some 3) /\
  BlockStore.peak (block_store run.2) = Some 4.
Proof.
  intros run.
  edestruct (receive_block_extends_peak sample_env 10 sample_chain
               (sample_block 4 3 3 40 None) valid_result None)
    as (H1 & H2 & _ & H4 & H5 & _ & H7 & _).
  - lia.
  - not_cached.
  - vm_compute. reflexivity.
  - reflexivity.
  - split; [vm_compute; discriminate | reflexivity].
  - reflexivity.
  - vm_compute. reflexivity.
  - vm_compute. reflexivity.
  - reflexivity.
  - reflexivity.
  - vm_compute. reflexivity.
  - reflexivity.
  - reflexivity.
  - reflexivity.
  - vm_compute. reflexivity.
  - simpl. lia.
  - subst run. split; [by rewrite H1|]. split; [exact H2|]. split; [exact H4|].
    split; [|exact H7].
    rewrite (H5 2); [|simpl; lia]. vm_compute. reflexivity.
Defined.

Section ReceiveFirstBlock.
Variable env : Collaborators.

(** X20. The first block. On a chain without a peak, a block of height 0
    that passes the checks becomes the peak, with fork height 0, whatever
    its parent hash and without fuel: [_peak_height] is the height of its
    record, [get_peak] returns the record, the height map has its hash at
    that height, the store marks it as in the chain and points its peak
    at it. The builder gives the record the hash of the block. *)
Theorem receive_block_first_genesis (fuel : nat) (self : Blockchain)
    (block : FullBlock.t) (pre_validation_result : PreValidationResult.t)
    (fork_point_with_peak : option Z) (block_rec : BlockRecord) (iters : Z) :
  FullBlock.height block = 0 ->
  ¬ is_Some (__block_records self !! FullBlock.header_hash block) ->
  _peak_height self = None ->
  PreValidationResult.error pre_validation_result = None ->
  PreValidationResult.required_iters pre_validation_result = Some iters ->
  block_to_block_record env Blockchain _ (constants self) self iters block None
  = Returned block_rec ->
  header_hash block_rec = FullBlock.header_hash block ->
  (validate_block_body (execution_client self) (Full block)
     (FullBlock.height block) (Some block_rec)).1 = Returned None ->
  let run := receive_block env fuel self block pre_validation_result
               fork_point_with_peak in
  run.1 = Returned (NEW_PEAK, None,
                    Some {| StateChangeSummary.peak := block_rec;
                            StateChangeSummary.fork_height := 0 |}) /\
  _peak_height run.2 = Some (height block_rec) /\
  get_peak run.2 = Returned (Some block_rec) /\
  height_to_hash run.2 (height block_rec) = Returned (Some (header_hash block_rec)) /\
  BlockStore.peak (block_store run.2) = Some (header_hash block_rec) /\
  BlockStore.in_main_chain (block_store run.2)
  = BlockStore.in_main_chain (block_store self) ∪ {[header_hash block_rec]} /\
  BlockStore.full_blocks (block_store run.2)
  = <[FullBlock.header_hash block := (block, block_rec)]>
      (BlockStore.full_blocks (block_store self)) /\
  __block_records run.2
  = <[header_hash block_rec := block_rec]> (__block_records self).
Proof.
  intros Hg Hnew Hpk Herr Hiters Hrec Hhash Hbody run.
  subst run. unfold receive_block. rewrite !contains_block_lookup.
  rewrite (bool_decide_eq_false_2 _ Hnew).
  rewrite (bool_decide_eq_true_2 _ Hg). rewrite andb_false_r. simpl.
  rewrite Herr, Hiters, Hrec.
  destruct (validate_block_body _ _ _ _) as [code ec] eqn:Hvb.
  simpl in Hbody. subst code.
  unfold receive_block_commit, _reconsider_peak, get_peak. simpl.
  rewrite Hpk. simpl.
  unfold BlockStore.get_full_block. simpl.
  rewrite Hhash, lookup_insert_eq. simpl.
  split; [done|]. split; [done|].
  split.
  { unfold height_to_block_record. rewrite height_to_hash_lookup. simpl.
    rewrite lookup_insert_eq. simpl. unfold dict_get.
    by rewrite lookup_insert_eq. }
  split.
  { rewrite height_to_hash_lookup. simpl. by rewrite lookup_insert_eq, ?Hhash. }
  rewrite ?Hhash.
  split; [done|].
  split; [by rewrite (right_id_L ∅ (∪))|].
  done.
Qed.
End ReceiveFirstBlock.

(** The first sample block on the empty chain. *)
Lemma receive_block_first_genesis_witness :
  let run := receive_block sample_env 0 (empty_chain sample_constants (sample_client None))
               (sample_block 1 1000 0 10 (Some 1)) valid_result None in
  outcome_of run.1 = Some NEW_PEAK /\
  _peak_height run.2 = Some 0 /\
  height_to_hash run.2 0 = Returned (Some 1) /\
  BlockStore.peak (block_store run.2) = Some 1.
Proof.
  intros run.
  edestruct (receive_block_first_genesis sample_env 0
               (empty_chain sample_constants (sample_client None))
               (sample_block 1 1000 0 10 (Some 1)) valid_result None)
    as (H1 & H2 & _ & H4 & H5 & _).
  - reflexivity.
  - not_cached.
  - reflexivity.
  - reflexivity.
  - reflexivity.
  - vm_compute. reflexivity.
  - reflexivity.
  - vm_compute. reflexivity.
  - subst run. split; [by rewrite H1|]. split; [exact H2|]. split; [exact H4|].
    exact H5.
Defined.

(** ** Pre-validation: what happens to the view *)

Section PreValidationFrame.
Context {V : Type} `{!BlockchainInterface V}.

(** The records of a view, and how the operations of the interface act
    on them. *)
Variable recs : V -> gmap Z BlockRecord.
Hypothesis contains_recs :
  forall v hh, contains_block v hh = bool_decide (is_Some (recs v !! hh)).
Hypothesis add_recs :
  forall v r, recs (add_block_record v r) = <[header_hash r := r]> (recs v).
Hypothesis remove_recs :
  forall v hh v', remove_block_record v hh = (Returned tt, v') ->
                  recs v' = delete hh (recs v).

Variable env : Collaborators.
Variable constants : ConsensusConstants.

(** The record built for a block carries the header hash of the block. *)
Hypothesis builder_hash :
  forall v iters b ssi r,
    block_to_block_record env V _ constants v iters b ssi = Returned r ->
    header_hash r = FullBlock.header_hash b.

Variable orig : V.

(** The blocks paired with whether their record was in the view before
    the call. *)
Let present (blocks : list FullBlock.t) : list (FullBlock.t * bool) :=
  zip blocks ((fun block => contains_block orig (FullBlock.header_hash block)) <$> blocks).

(** The hashes that the clean-up may still remove. *)
Let tentative (todo : list (FullBlock.t * bool)) (hh : Z) : Prop :=
  exists b, (b, false) ∈ todo /\ FullBlock.header_hash b = hh.

Lemma present_elem (blocks : list FullBlock.t) (b : FullBlock.t) (wp : bool) :
  (b, wp) ∈ present blocks ->
  b ∈ blocks /\ wp = bool_decide (is_Some (recs orig !! FullBlock.header_hash b)).
Proof.
  unfold present. induction blocks as [|x blocks IH]; simpl.
  - by intros ?%elem_of_nil.
  - intros [Heq|Hin]%elem_of_cons.
    + injection Heq as -> ->. split; [by left | apply contains_recs].
    + destruct (IH Hin). split; [by right | done].
Qed.

(** Both clean-up loops, when they return, leave the records of the view
    as they were before the call, provided the view differs from them
    only at hashes the loop is still to remove. *)
Lemma remove_tentative_if_present_restores (todo : list (FullBlock.t * bool)) :
  forall v v',
    (forall b wp, (b, wp) ∈ todo ->
       wp = bool_decide (is_Some (recs orig !! FullBlock.header_hash b))) ->
    (forall hh, ¬ tentative todo hh -> recs v !! hh = recs orig !! hh) ->
    remove_tentative_if_present v todo = (Returned tt, v') ->
    recs v' = recs orig.
Proof.
  induction todo as [|[b wp] todo IH]; intros v v' Hwp Hpre; simpl.
  - intros [= <-]. apply map_eq. intros hh. apply Hpre.
    intros (b & Hb & _). by apply elem_of_nil in Hb.
  - assert (Hwp' : forall b' wp', (b', wp') ∈ todo ->
              wp' = bool_decide (is_Some (recs orig !! FullBlock.header_hash b'))).
    { intros b' wp' Hin. apply Hwp. by right. }
    assert (Hb : wp = bool_decide (is_Some (recs orig !! FullBlock.header_hash b)))
      by (apply Hwp; by left).
    assert (Hrest : forall (v1 : V),
              (forall hh, hh ≠ FullBlock.header_hash b -> recs v1 !! hh = recs v !! hh) ->
              (wp = false -> recs v1 !! FullBlock.header_hash b = None) ->
              (wp = true -> recs v1 !! FullBlock.header_hash b
                            = recs v !! FullBlock.header_hash b) ->
              forall hh, ¬ tentative todo hh -> recs v1 !! hh = recs orig !! hh).
    { intros v1 Hother Hfalse Htrue hh Hnot.
      destruct (decide (hh = FullBlock.header_hash b)) as [->|Hne].
      - destruct wp.
        + rewrite Htrue by done. apply Hpre. intros (b' & Hin & Hhash).
          apply elem_of_cons in Hin as [[= <-]|Hin]. apply Hnot. by exists b'.
        + rewrite Hfalse by done. symmetry in Hb. apply bool_decide_eq_false in Hb.
          destruct (recs orig !! FullBlock.header_hash b) eqn:Ho; [|done].
          destruct Hb. eauto.
      - rewrite Hother by done. apply Hpre. intros (b' & Hin & Hhash).
        apply elem_of_cons in Hin as [[= <- _]|Hin]; [done|].
        apply Hnot. by exists b'. }
    destruct wp; simpl.
    + intros Hrun. apply (IH v v' Hwp'); [|done]. by apply Hrest.
    + rewrite contains_recs.
      destruct (bool_decide (is_Some (recs v !! FullBlock.header_hash b))) eqn:Hc;
        [apply bool_decide_eq_true in Hc | apply bool_decide_eq_false in Hc].
      * destruct (remove_block_record v (FullBlock.header_hash b)) as [[[]| |] v1]
          eqn:Hrm; try discriminate.
        apply remove_recs in Hrm. intros Hrun. apply (IH v1 v' Hwp'); [|done].
        apply Hrest; [| |done].
        -- intros hh Hne. by rewrite Hrm, lookup_delete_ne.
        -- intros _. by rewrite Hrm, lookup_delete_eq.
      * intros Hrun. apply (IH v v' Hwp'); [|done].
        apply Hrest; [done| |done].
        intros _. destruct (recs v !! FullBlock.header_hash b) eqn:Hv; [|done].
        destruct Hc. eauto.
Qed.

Lemma remove_tentative_restores (todo : list (FullBlock.t * bool)) :
  forall v v',
    (forall b wp, (b, wp) ∈ todo ->
       wp = bool_decide (is_Some (recs orig !! FullBlock.header_hash b))) ->
    (forall hh, ¬ tentative todo hh -> recs v !! hh = recs orig !! hh) ->
    remove_tentative v todo = (Returned tt, v') ->
    recs v' = recs orig.
Proof.
  induction todo as [|[b wp] todo IH]; intros v v' Hwp Hpre; simpl.
  - intros [= <-]. apply map_eq. intros hh. apply Hpre.
    intros (b & Hb & _). by apply elem_of_nil in Hb.
  - assert (Hwp' : forall b' wp', (b', wp') ∈ todo ->
              wp' = bool_decide (is_Some (recs orig !! FullBlock.header_hash b'))).
    { intros b' wp' Hin. apply Hwp. by right. }
    assert (Hb : wp = bool_decide (is_Some (recs orig !! FullBlock.header_hash b)))
      by (apply Hwp; by left).
    destruct wp; simpl.
    + intros Hrun. apply (IH v v' Hwp'); [|done].
      intros hh Hnot. apply Hpre. intros (b' & Hin & Hhash).
      apply elem_of_cons in Hin as [[= <-]|Hin]. apply Hnot. by exists b'.
    + destruct (remove_block_record v (FullBlock.header_hash b)) as [[[]| |] v1]
        eqn:Hrm; try discriminate.
      apply remove_recs in Hrm. intros Hrun. apply (IH v1 v' Hwp'); [|done].
      intros hh Hnot. rewrite Hrm.
      destruct (decide (hh = FullBlock.header_hash b)) as [->|Hne].
      * rewrite lookup_delete_eq. symmetry in Hb. apply bool_decide_eq_false in Hb.
        destruct (recs orig !! FullBlock.header_hash b) eqn:Ho; [|done].
        destruct Hb. eauto.
      * rewrite lookup_delete_ne by done. apply Hpre. intros (b' & Hin & Hhash).
        apply elem_of_cons in Hin as [[= <-]|Hin]; [done|].
        apply Hnot. by exists b'.
Qed.

(** The view in the main loop: it differs from the view before the call
    only at the hashes of the blocks gone through, and not at hashes that
    were present before the call; one pair of difficulty and sub-slot
    iterations is kept per block gone through. *)
Let inv (seen : list FullBlock.t) (st : @LoopState V) : Prop :=
  (forall hh, (forall b, b ∈ seen -> FullBlock.header_hash b ≠ hh) ->
              recs (view st) !! hh = recs orig !! hh) /\
  (forall hh, is_Some (recs orig !! hh) -> recs (view st) !! hh = recs orig !! hh) /\
  length (diff_ssis st) = length seen.

Lemma inv_tentative (blocks seen rest : list FullBlock.t) (st : @LoopState V) :
  blocks = seen ++ rest ->
  inv seen st ->
  forall hh, ¬ tentative (present blocks) hh -> recs (view st) !! hh = recs orig !! hh.
Proof.
  intros Hblocks (Hother & Hkept & _) hh Hnot.
  destruct (recs orig !! hh) as [r|] eqn:Ho.
  - rewrite <- Ho. apply Hkept. rewrite Ho. eauto.
  - rewrite <- Ho. apply Hother. intros b Hb Hhash. apply Hnot. exists b.
    split; [|done].
    assert (Hin : b ∈ blocks) by (rewrite Hblocks; apply elem_of_app; by left).
    clear -Hin Hhash Ho contains_recs. unfold present.
    induction blocks as [|x blocks IH]; [by apply elem_of_nil in Hin|].
    simpl. apply elem_of_cons in Hin as [->|Hin].
    + apply elem_of_cons. left. f_equal. symmetry. rewrite contains_recs, Hhash, Ho.
      apply bool_decide_eq_false_2. by intros [? ?].
    + apply elem_of_cons. right. by apply IH.
Qed.

(** One iteration of the main loop. *)
Lemma pre_validate_block_step (blocks : list FullBlock.t) (wps : list bool)
    (wp_summaries : option (list SubEpochSummary)) (st : @LoopState V)
    (block : FullBlock.t) :
  match pre_validate_block env constants blocks wps wp_summaries st block with
  | Next st' =>
      ((recs (view st') = recs (view st) /\
        is_Some (recs (view st) !! FullBlock.header_hash block)) \/
       (exists r,
          recs (view st) !! FullBlock.header_hash block = None /\
          recs (view st') = <[FullBlock.header_hash block := r]> (recs (view st)))) /\
      length (diff_ssis st') = S (length (diff_ssis st))
  | Return res v' =>
      error_result env INVALID_SUB_EPOCH_SUMMARY = Returned res \/
      (error_result env INVALID_POSPACE = Returned res /\
       remove_tentative_if_present (view st) (zip blocks wps) = (Returned tt, v'))
  | _ => True
  end.
Proof.
  unfold pre_validate_block, finish.
  repeat (case_match; simplify_eq; try done).
  all: try (by left).
  all: try (right; split; [done|];
            by match goal with x : () |- _ => destruct x end).
  all: simpl; rewrite length_app; simpl; (split; [|lia]).
  all: match goal with
       | Hb : block_to_block_record _ _ _ _ _ _ _ _ = Returned _,
         Hc : negb (contains_block _ _) = _ |- _ =>
           apply builder_hash in Hb; rewrite contains_recs, Hb in Hc
       end.
  all: match goal with
       | Hb : header_hash _ = _, Hc : negb (bool_decide _) = true |- _ =>
           apply negb_true_iff, bool_decide_eq_false in Hc; right; eexists;
           split; [|by rewrite add_recs, Hb];
           destruct (recs (view st) !! FullBlock.header_hash block) eqn:Hv;
           [destruct Hc; eauto | done]
       | Hc : negb (bool_decide _) = false |- _ =>
           apply negb_false_iff, bool_decide_eq_true in Hc; by left
       end.
Qed.

(** The main loop keeps the invariant; when it returns early, either
    with INVALID_SUB_EPOCH_SUMMARY, or with INVALID_POSPACE and the
    records of the view as before the call. *)
Lemma pre_validate_loop_inv (blocks : list FullBlock.t)
    (wp_summaries : option (list SubEpochSummary)) :
  forall (todo seen : list FullBlock.t) (st : @LoopState V),
    blocks = seen ++ todo ->
    inv seen st ->
    match pre_validate_loop env constants blocks
            ((fun block => contains_block orig (FullBlock.header_hash block)) <$> blocks)
            wp_summaries todo st with
    | Next st' => inv blocks st'
    | Return res v' =>
        error_result env INVALID_SUB_EPOCH_SUMMARY = Returned res \/
        (error_result env INVALID_POSPACE = Returned res /\ recs v' = recs orig)
    | _ => True
    end.
Proof.
  induction todo as [|block todo IH]; intros seen st Hblocks Hinv; simpl.
  - by rewrite Hblocks, (right_id_L [] (++)).
  - pose proof (pre_validate_block_step blocks
                  ((fun block => contains_block orig (FullBlock.header_hash block))
                     <$> blocks) wp_summaries st block) as Hstep.
    destruct (pre_validate_block _ _ _ _ _ _ _) as [st'|res v'|e v'|v']; try done.
    + apply (IH (seen ++ [block])); [by rewrite <- (assoc_L (++))|].
      destruct Hstep as [Hview Hlen]. destruct Hinv as (Hother & Hkept & Hn).
      split; [|split].
      * intros hh Hnot.
        assert (Hne : FullBlock.header_hash block ≠ hh).
        { apply Hnot. apply elem_of_app. right. apply elem_of_cons. by left. }
        assert (Hold : recs (view st) !! hh = recs orig !! hh).
        { apply Hother. intros b Hb. apply Hnot. apply elem_of_app. by left. }
        destruct Hview as [[-> _] | (r & _ & ->)]; [done|].
        by rewrite lookup_insert_ne.
      * intros hh Hsome. specialize (Hkept hh Hsome).
        destruct Hview as [[-> _] | (r & Hnone & ->)]; [done|].
        rewrite lookup_insert_ne; [done|].
        intros Heq. rewrite Heq, Hkept in Hnone. rewrite Hnone in Hsome.
        by destruct Hsome.
      * rewrite Hlen, length_app. simpl. lia.
    + destruct Hstep as [Hses | [Hpos Hclean]]; [by left|]. right. split; [done|].
      apply (remove_tentative_if_present_restores (present blocks) (view st));
        [| | exact Hclean].
      * intros b wp Hin. by apply present_elem in Hin as [_ ?].
      * by apply (inv_tentative blocks seen (block :: todo)).
Qed.

(** Whenever the call returns anything but the INVALID_SUB_EPOCH_SUMMARY
    result, the records of the view are those before the call. *)
Lemma pre_validate_restores_records (fuel : nat) (blocks : list FullBlock.t)
    (batch_size : Z) (wp_summaries : option (list SubEpochSummary))
    (res : list PreValidationResult.t) (v' : V) :
  pre_validate_blocks_multiprocessing env constants fuel orig blocks batch_size
    wp_summaries = (Returned res, v') ->
  error_result env INVALID_SUB_EPOCH_SUMMARY ≠ Returned res ->
  recs v' = recs orig.
Proof.
  unfold pre_validate_blocks_multiprocessing.
  destruct blocks as [|first rest]; [discriminate|].
  set (blocks := first :: rest).
  destruct ((0 <? FullBlock.height first) && _); [by intros [= _ <-]|].
  destruct (if 0 <? FullBlock.height first then _ else _) as [w| |];
    try discriminate.
  match goal with
  | |- context [pre_validate_loop _ _ _ _ _ _ ?st0] =>
      pose proof (pre_validate_loop_inv blocks wp_summaries blocks [] st0 eq_refl)
        as Hloop
  end.
  destruct (pre_validate_loop _ _ _ _ _ _ _) as [st'|res' v''|e v''|v''];
    try discriminate.
  - destruct (remove_tentative _ _) as [[[]| |] v1] eqn:Hrm; try discriminate.
    intros [= _ <-] _.
    apply (remove_tentative_restores (present blocks) (view st')); [| |exact Hrm].
    + intros b wp Hin. by apply present_elem in Hin as [_ ?].
    + apply (inv_tentative blocks blocks []); [by rewrite (right_id_L [] (++))|].
      apply Hloop. by split; [|split].
  - intros [= <- <-] Hnot.
    destruct Hloop as [Hses|[_ Hrec]]; [by split; [|split] | done | done].
Qed.
End PreValidationFrame.

(** X21. [Blockchain.pre_validate_blocks_multiprocessing] undoes its
    tentative insertions on every return but one: whenever the call
    returns anything other than the INVALID_SUB_EPOCH_SUMMARY result (the
    results of the batches, INVALID_PREV_BLOCK_HASH, INVALID_POSPACE), the
    block records of the chain are those before the call, and
    [contains_block] answers as before. The builder gives a record the
    header hash of its block. *)
Theorem pre_validate_restores_block_records (env : Collaborators) (fuel : nat)
    (self self' : Blockchain) (blocks : list FullBlock.t) (batch_size : Z)
    (wp_summaries : option (list SubEpochSummary))
    (res : list PreValidationResult.t) :
  (forall v iters b ssi r,
      block_to_block_record env Blockchain _ (constants self) v iters b ssi
      = Returned r ->
      header_hash r = FullBlock.header_hash b) ->
  Blockchain_pre_validate_blocks_multiprocessing env fuel self blocks batch_size
    wp_summaries = (Returned res, self') ->
  error_result env INVALID_SUB_EPOCH_SUMMARY ≠ Returned res ->
  __block_records self' = __block_records self /\
  (forall hh, contains_block self' hh = contains_block self hh).
Proof.
  intros Hbuilder Hrun Hnot.
  assert (Hrec : __block_records self' = __block_records self).
  { apply (pre_validate_restores_records __block_records) with
      (env := env) (constants := constants self) (fuel := fuel) (blocks := blocks)
      (batch_size := batch_size) (wp_summaries := wp_summaries) (res := res);
      try done.
    intros v hh v'. simpl. unfold Blockchain_remove_block_record.
    repeat case_match; intros [= <-]; done. }
  split; [done|]. intros hh. simpl. by rewrite Hrec.
Qed.

(** On the sample chain: block 4 followed by a block 5 whose proof of
    space does not verify. *)
Lemma pre_validate_restores_block_records_witness :
  let run := Blockchain_pre_validate_blocks_multiprocessing sample_env 10 sample_chain
               [sample_child; sample_bad_pos] 4 None in
  run.1 = Returned [ {| PreValidationResult.error := Some 4;
                        PreValidationResult.required_iters := None |} ] /\
  __block_records run.2 = __block_records sample_chain.
Proof.
  intros run.
  assert (Hrun : Blockchain_pre_validate_blocks_multiprocessing sample_env 10 sample_chain
                   [sample_child; sample_bad_pos] 4 None
                 = (Returned [ {| PreValidationResult.error := Some 4;
                                  PreValidationResult.required_iters := None |} ],
                    run.2))
    by (vm_compute; reflexivity).
  split; [exact (f_equal fst Hrun)|].
  assert (Hbuilder : forall v iters b ssi r,
             block_to_block_record sample_env Blockchain _ (constants sample_chain)
               v iters b ssi = Returned r ->
             header_hash r = FullBlock.header_hash b).
  { intros v iters b ssi r. unfold block_to_block_record. simpl.
    unfold sample_block_to_block_record.
    case_bool_decide; [discriminate|]. by intros [= <-]. }
  apply (pre_validate_restores_block_records _ _ _ _ _ _ _ _ Hbuilder Hrun).
  intros H. vm_compute in H. discriminate H.
Defined.

(** ** Pre-validation: the shape of the result *)

Lemma error_result_length (env : Collaborators) (e : Err)
    (res : list PreValidationResult.t) :
  error_result env e = Returned res -> length res = 1%nat.
Proof.
  unfold error_result. destruct (uint16 _); simpl; [|done ..]. by intros [= <-].
Qed.

Lemma batch_pre_validate_from_length (env : Collaborators)
    (constants : ConsensusConstants) (blocks : gmap Z BlockRecord)
    (expected_difficulty expected_sub_slot_iters : list Z) :
  forall (full_blocks : list FullBlock.t) (i : nat) (rs : list PreValidationResult.t),
    batch_pre_validate_from env constants blocks expected_difficulty
      expected_sub_slot_iters i full_blocks = Returned rs ->
    length rs = length full_blocks.
Proof.
  induction full_blocks as [|b l IH]; intros i rs; simpl; [by intros [= <-]|].
  destruct (batch_pre_validate_one _ _ _ _ _ _ _) as [r|e|]; simpl;
    [| destruct (unknown_result env) as [r| |]; simpl; try discriminate
     | discriminate].
  all: destruct (batch_pre_validate_from _ _ _ _ _ _ _) as [rs'| |] eqn:Hrest;
    simpl; try discriminate.
  all: intros [= <-]; simpl; f_equal; by eapply IH.
Qed.

Lemma batches_concat {A} (batch_size : nat) :
  (0 < batch_size)%nat ->
  forall (fuel : nat) (l : list A),
    (length l <= fuel)%nat -> concat (batches fuel batch_size l) = l.
Proof.
  intros Hbs. induction fuel as [|fuel IH]; intros l Hl.
  - destruct l; [done | simpl in Hl; lia].
  - destruct l as [|x l]; [done|].
    change (batches (S fuel) batch_size (x :: l))
      with (take batch_size (x :: l)
            :: batches fuel batch_size (drop batch_size (x :: l))).
    simpl concat. rewrite IH; [apply take_drop|].
    rewrite length_drop. simpl in *. lia.
Qed.

Lemma foldl_batches_length {B} (g : list B -> outcome (list PreValidationResult.t)) :
  (forall b res, g b = Returned res -> length res = length b) ->
  forall (bs : list (list B)) (acc : outcome (list PreValidationResult.t))
         (res : list PreValidationResult.t),
    foldl (fun acc b => done ← acc; res ← g b; Returned (done ++ res)) acc bs
    = Returned res ->
    exists acc0, acc = Returned acc0 /\
                 length res = (length acc0 + length (concat bs))%nat.
Proof.
  intros Hg. induction bs as [|b bs IH]; intros acc res; simpl.
  - intros ->. exists res. split; [done|]. lia.
  - intros Hfold. apply IH in Hfold as (acc1 & Hacc1 & Hlen).
    destruct acc as [acc0| |]; simpl in Hacc1; try discriminate.
    destruct (g b) as [r| |] eqn:Hr; simpl in Hacc1; try discriminate.
    injection Hacc1 as <-. exists acc0. split; [done|].
    rewrite Hlen, !length_app, (Hg _ _ Hr). lia.
Qed.

Section PreValidationShape.
Context {V : Type} `{!BlockchainInterface V}.
Variable env : Collaborators.
Variable constants : ConsensusConstants.

Lemma pre_validate_block_shape (blocks : list FullBlock.t) (wps : list bool)
    (wp_summaries : option (list SubEpochSummary)) (st : @LoopState V)
    (block : FullBlock.t) :
  match pre_validate_block env constants blocks wps wp_summaries st block with
  | Next st' => length (diff_ssis st') = S (length (diff_ssis st))
  | Return res _ => length res = 1%nat
  | _ => True
  end.
Proof.
  unfold pre_validate_block, finish.
  repeat (case_match; simplify_eq; try done).
  all: try (by eapply error_result_length).
  all: simpl; rewrite length_app; simpl; lia.
Qed.

Lemma pre_validate_loop_shape (blocks : list FullBlock.t) (wps : list bool)
    (wp_summaries : option (list SubEpochSummary)) :
  forall (todo : list FullBlock.t) (st : @LoopState V),
    match pre_validate_loop env constants blocks wps wp_summaries todo st with
    | Next st' => length (diff_ssis st') = (length (diff_ssis st) + length todo)%nat
    | Return res _ => length res = 1%nat
    | _ => True
    end.
Proof.
  induction todo as [|block todo IH]; intros st; simpl; [lia|].
  pose proof (pre_validate_block_shape blocks wps wp_summaries st block) as Hstep.
  destruct (pre_validate_block _ _ _ _ _ _ _) as [st'|res v'|e v'|v']; try done.
  specialize (IH st').
  destruct (pre_validate_loop _ _ _ _ _ _ _) as [st''|res v'|e v'|v']; try done.
  lia.
Qed.

Lemma validate_batches_length (st : @LoopState V) (blocks : list FullBlock.t)
    (batch_size : Z) (res : list PreValidationResult.t) :
  0 < batch_size ->
  validate_batches env constants st blocks batch_size = Returned res ->
  length res = length (zip blocks (diff_ssis st)).
Proof.
  intros Hbs. unfold validate_batches.
  rewrite bool_decide_eq_false_2 by lia.
  rewrite (proj2 (Z.ltb_ge _ _)) by lia.
  set (g := fun blocks_to_validate : list (FullBlock.t * (Z * Z)) =>
         batch_pre_validate_blocks env constants
           (if existsb (fun bd : FullBlock.t * (Z * Z) =>
                          bool_decide (0 < length (FullBlock.finished_sub_slots bd.1))%nat)
                       blocks_to_validate
            then recent st else recent_compressed st)
           (fst <$> blocks_to_validate)
           ((fun bd : FullBlock.t * (Z * Z) => bd.2.1) <$> blocks_to_validate)
           ((fun bd : FullBlock.t * (Z * Z) => bd.2.2) <$> blocks_to_validate)).
  intros Hfold.
  apply (foldl_batches_length g) in Hfold as (acc0 & [= <-] & Hlen).
  - rewrite Hlen. simpl. rewrite batches_concat; [done | lia | done].
  - intros b r Hr. unfold g, batch_pre_validate_blocks in Hr.
    apply batch_pre_validate_from_length in Hr. by rewrite Hr, length_fmap.
Qed.

(** X22. The shape of what [pre_validate_blocks_multiprocessing] returns,
    for a positive batch size: either a single result, on an early error
    return, or one result per block. *)
Theorem pre_validate_result_shape (fuel : nat) (block_records v' : V)
    (blocks : list FullBlock.t) (batch_size : Z)
    (wp_summaries : option (list SubEpochSummary))
    (res : list PreValidationResult.t) :
  pre_validate_blocks_multiprocessing env constants fuel block_records blocks
    batch_size wp_summaries = (Returned res, v') ->
  0 < batch_size ->
  length res = 1%nat \/ length res = length blocks.
Proof.
  unfold pre_validate_blocks_multiprocessing.
  destruct blocks as [|first rest]; [discriminate|].
  set (blocks := first :: rest).
  destruct ((0 <? FullBlock.height first) && _).
  { intros [= Hres _] _. left. by eapply error_result_length. }
  destruct (if 0 <? FullBlock.height first then _ else _) as [w| |];
    try discriminate.
  match goal with
  | |- context [pre_validate_loop _ _ _ ?wps _ _ ?st0] =>
      pose proof (pre_validate_loop_shape blocks wps wp_summaries blocks st0)
        as Hloop
  end.
  destruct (pre_validate_loop _ _ _ _ _ _ _) as [st'|res' v''|e v''|v''];
    try discriminate.
  - destruct (remove_tentative _ _) as [[[]| |] v1]; try discriminate.
    intros [= Hres _] Hbs. right.
    apply validate_batches_length in Hres; [|done].
    rewrite Hres, length_zip, Hloop. simpl. lia.
  - intros [= <- _] _. by left.
Qed.
End PreValidationShape.

(** On the sample chain: blocks 4 and 5, both valid, give two results. *)
Lemma pre_validate_result_shape_witness :
  let run := pre_validate_blocks_multiprocessing sample_env sample_constants 10
               sample_chain [sample_child; sample_block 5 4 4 50 None] 4 None in
  run.1 = Returned [valid_result; valid_result] /\
  (length [valid_result; valid_result] = 1%nat \/
   length [valid_result; valid_result]
   = length [sample_child; sample_block 5 4 4 50 None]).
Proof.
  intros run.
  assert (Hrun : pre_validate_blocks_multiprocessing sample_env sample_constants 10
                   sample_chain [sample_child; sample_block 5 4 4 50 None] 4 None
                 = (Returned [valid_result; valid_result], run.2))
    by (vm_compute; reflexivity).
  split; [exact (f_equal fst Hrun)|].
  apply (pre_validate_result_shape _ _ _ _ _ _ _ _ _ Hrun). lia.
Defined.

(** ** The batches *)

Lemma unknown_result_in_range (env : Collaborators) :
  0 <= Err_value env UNKNOWN < 2 ^ 16 ->
  unknown_result env
  = Returned {| PreValidationResult.error := Some (Err_value env UNKNOWN);
                PreValidationResult.required_iters := None |}.
Proof.
  intros Hu. unfold unknown_result, uint16. by rewrite sized_uint_in_range.
Qed.

Lemma batch_pre_validate_one_lands (env : Collaborators)
    (constants : ConsensusConstants) (blocks : gmap Z BlockRecord)
    (expected_difficulty expected_sub_slot_iters : list Z) (i : nat)
    (block : FullBlock.t) :
  (forall c d s, validate_finished_header_block env constants c block d s ≠ OutOfFuel) ->
  batch_pre_validate_one env constants blocks expected_difficulty
    expected_sub_slot_iters i block ≠ OutOfFuel.
Proof.
  intros Hv. unfold batch_pre_validate_one.
  assert (Hget : forall (l : list Z) j, list_get l j ≠ OutOfFuel).
  { intros l j. unfold list_get. repeat case_match; done. }
  destruct (list_get expected_difficulty _) as [d|e|] eqn:Hd; simpl;
    [|done|by apply Hget in Hd].
  destruct (list_get expected_sub_slot_iters _) as [s|e|] eqn:Hs; simpl;
    [|done|by apply Hget in Hs].
  destruct (validate_finished_header_block _ _ _ _ _ _) as [[ri err]|e|] eqn:Hval;
    simpl; [|done|by apply Hv in Hval].
  destruct err as [e|]; simpl; [|done].
  unfold uint16, sized_uint. case_bool_decide; done.
Qed.

Lemma batch_pre_validate_one_short (env : Collaborators)
    (constants : ConsensusConstants) (blocks : gmap Z BlockRecord)
    (expected_difficulty expected_sub_slot_iters : list Z) (i : nat)
    (block : FullBlock.t) :
  (length expected_difficulty <= i)%nat \/ (length expected_sub_slot_iters <= i)%nat ->
  batch_pre_validate_one env constants blocks expected_difficulty
    expected_sub_slot_iters i block = Raised IndexError.
Proof.
  intros Hshort. unfold batch_pre_validate_one, list_get.
  rewrite !(proj2 (Z.ltb_ge _ _)) by lia.
  destruct Hshort as [Hd|Hs].
  - by rewrite (bool_decide_eq_false_2 (_ <= _ < Z.of_nat (length expected_difficulty)))
      by lia.
  - rewrite (bool_decide_eq_false_2 (_ <= _ < Z.of_nat (length expected_sub_slot_iters)))
      by lia.
    repeat (case_match; simpl; try done).
Qed.

Lemma batch_pre_validate_from_catches (env : Collaborators)
    (constants : ConsensusConstants) (blocks : gmap Z BlockRecord)
    (expected_difficulty expected_sub_slot_iters : list Z) :
  0 <= Err_value env UNKNOWN < 2 ^ 16 ->
  forall (full_blocks : list FullBlock.t) (i : nat),
    (forall c b d s, b ∈ full_blocks ->
        validate_finished_header_block env constants c b d s ≠ OutOfFuel) ->
    exists rs,
      batch_pre_validate_from env constants blocks expected_difficulty
        expected_sub_slot_iters i full_blocks = Returned rs /\
      length rs = length full_blocks /\
      forall (k : nat) (b : FullBlock.t),
        full_blocks !! k = Some b ->
        rs !! k
        = Some match batch_pre_validate_one env constants blocks expected_difficulty
                       expected_sub_slot_iters (i + k) b with
               | Returned r => r
               | _ => {| PreValidationResult.error := Some (Err_value env UNKNOWN);
                         PreValidationResult.required_iters := None |}
               end.
Proof.
  intros Hu. induction full_blocks as [|b l IH]; intros i Hv.
  - exists []. repeat split. intros k b' Hk. by rewrite lookup_nil in Hk.
  - destruct (IH (S i)) as (rs & Hrs & Hlen & Hk).
    { intros c b' d s Hb'. apply Hv. by apply elem_of_cons; right. }
    pose proof (batch_pre_validate_one_lands env constants blocks expected_difficulty
                  expected_sub_slot_iters i b) as Hone.
    simpl. rewrite Hrs.
    destruct (batch_pre_validate_one env constants blocks expected_difficulty
                expected_sub_slot_iters i b) as [r|e|] eqn:Hr.
    + simpl. eexists. split; [done|]. split; [by simpl; rewrite Hlen|].
      intros [|k] b' Hb'; simpl in *.
      * injection Hb' as <-. by rewrite Nat.add_0_r, Hr.
      * rewrite (Hk k b' Hb'). by rewrite Nat.add_succ_r.
    + rewrite (unknown_result_in_range env Hu). simpl.
      eexists. split; [done|]. split; [by simpl; rewrite Hlen|].
      intros [|k] b' Hb'; simpl in *.
      * injection Hb' as <-. by rewrite Nat.add_0_r, Hr.
      * rewrite (Hk k b' Hb'). by rewrite Nat.add_succ_r.
    + exfalso. apply Hone; [|done].
      intros c d s. apply Hv. by apply elem_of_cons; left.
Qed.

(** X23. [batch_pre_validate_blocks] on full blocks never raises what an
    iteration raises: whatever the header validator does on a block
    (given that it ends), the batch returns one result per block, in the
    order of the blocks; a block on which the iteration raised has the
    UNKNOWN result, and so has every block beyond the end of one of the two
    lists of expected values, where the subscript raises. The code of
    UNKNOWN is a [uint16]. *)
Theorem batch_pre_validate_blocks_catches (env : Collaborators)
    (constants : ConsensusConstants) (blocks : gmap Z BlockRecord)
    (full_blocks : list FullBlock.t)
    (expected_difficulty expected_sub_slot_iters : list Z) :
  0 <= Err_value env UNKNOWN < 2 ^ 16 ->
  (forall c b d s, b ∈ full_blocks ->
      validate_finished_header_block env constants c b d s ≠ OutOfFuel) ->
  let unknown := {| PreValidationResult.error := Some (Err_value env UNKNOWN);
                    PreValidationResult.required_iters := None |} in
  exists rs,
    batch_pre_validate_blocks env constants blocks full_blocks expected_difficulty
      expected_sub_slot_iters = Returned rs /\
    length rs = length full_blocks /\
    (forall (k : nat) (b : FullBlock.t) (e : PyExn),
        full_blocks !! k = Some b ->
        batch_pre_validate_one env constants blocks expected_difficulty
          expected_sub_slot_iters k b = Raised e ->
        rs !! k = Some unknown) /\
    (forall (k : nat) (b : FullBlock.t) (r : PreValidationResult.t),
        full_blocks !! k = Some b ->
        batch_pre_validate_one env constants blocks expected_difficulty
          expected_sub_slot_iters k b = Returned r ->
        rs !! k = Some r) /\
    (forall k : nat,
        (k < length full_blocks)%nat ->
        (length expected_difficulty <= k)%nat \/
        (length expected_sub_slot_iters <= k)%nat ->
        rs !! k = Some unknown).
Proof.
  intros Hu Hv unknown.
  destruct (batch_pre_validate_from_catches env constants blocks expected_difficulty
              expected_sub_slot_iters Hu full_blocks 0%nat Hv) as (rs & Hrs & Hlen & Hk).
  exists rs. split; [exact Hrs|]. split; [exact Hlen|].
  split; [|split].
  - intros k b e Hb Hr. rewrite (Hk k b Hb). simpl. by rewrite Hr.
  - intros k b r Hb Hr. rewrite (Hk k b Hb). simpl. by rewrite Hr.
  - intros k Hlt Hshort.
    destruct (lookup_lt_is_Some_2 full_blocks k Hlt) as [b Hb].
    rewrite (Hk k b Hb). simpl.
    by rewrite (batch_pre_validate_one_short env constants blocks expected_difficulty
                  expected_sub_slot_iters k b Hshort).
Qed.

(** Two blocks with one expected difficulty: the second result is
    UNKNOWN. *)
Lemma batch_pre_validate_blocks_catches_witness :
  batch_pre_validate_blocks sample_env sample_constants ∅
    [sample_child; sample_block 5 4 4 50 None] [1] [10; 10]
  = Returned [valid_result;
              {| PreValidationResult.error := Some 1;
                 PreValidationResult.required_iters := None |}] /\
  exists rs,
    batch_pre_validate_blocks sample_env sample_constants ∅
      [sample_child; sample_block 5 4 4 50 None] [1] [10; 10] = Returned rs /\
    rs !! 1%nat = Some {| PreValidationResult.error := Some 1;
                          PreValidationResult.required_iters := None |}.
Proof.
  split; [vm_compute; reflexivity|].
  destruct (batch_pre_validate_blocks_catches sample_env sample_constants ∅
              [sample_child; sample_block 5 4 4 50 None] [1] [10; 10])
    as (rs & Hrs & _ & _ & _ & Hshort).
  - simpl. lia.
  - intros c b d s _. discriminate.
  - exists rs. split; [exact Hrs|]. apply Hshort; simpl; lia.
Defined.

(** ** Unfinished blocks *)

Lemma validate_block_body_unfinished_calls (ec : ExecutionClient)
    (block : UnfinishedBlock.t) (h : Z) (r : option BlockRecord) :
  let res := validate_block_body ec (Unfinished block) h r in
  (exists code, res.1 = Returned code /\
     code ∈ [None; Some PAYLOAD_INVALIDATED; Some PAYLOAD_NOT_VALIDATED;
             Some UNKNOWN]) /\
  respond res.2 = respond ec /\
  config res.2 = config ec /\
  (calls res.2 = calls ec /\ UnfinishedBlock.execution_payload block = None \/
   exists payload,
     UnfinishedBlock.execution_payload block = Some payload /\
     calls res.2 = calls ec ++ [NewPayload payload]).
Proof.
  unfold validate_block_body. simpl.
  destruct (UnfinishedBlock.execution_payload block) as [payload|] eqn:Hp; simpl.
  2:{ split; [eexists; split; [done|]; apply elem_of_cons; by left|].
      split; [done|]. split; [done|]. by left. }
  unfold new_payload, engine_call. simpl.
  generalize (respond ec (calls ec) (NewPayload payload)); intros status.
  repeat case_match; simpl;
    (split; [eexists; split; [done|]; rewrite !elem_of_cons; tauto|]);
    (split; [done|]); (split; [done|]);
    right; exists payload; by split.
Qed.

Section UnfinishedBlocks.
Variable env : Collaborators.
Variable validate_unfinished_header_block :
  ConsensusConstants -> Blockchain -> UnfinishedBlock.t -> Z -> Z -> bool ->
    outcome (option Z * option Err).

(** X24. An unfinished block on an unknown parent: when the parent is
    not cached and is not the genesis challenge,
    [validate_unfinished_block_header] returns INVALID_PREV_BLOCK_HASH
    without asking the header validator, and [validate_unfinished_block]
    returns the result of that error, without required iterations, and
    leaves the chain and its execution client as they were: no engine call
    is made. The code of the error is a [uint16]. *)
Theorem validate_unfinished_block_unknown_parent (self : Blockchain)
    (block : UnfinishedBlock.t) (skip_overflow_ss_validation : bool) :
  __block_records self !! UnfinishedBlock.prev_header_hash block = None ->
  UnfinishedBlock.prev_header_hash block ≠ GENESIS_CHALLENGE (constants self) ->
  0 <= Err_value env INVALID_PREV_BLOCK_HASH < 2 ^ 16 ->
  validate_unfinished_block_header env validate_unfinished_header_block self block
    skip_overflow_ss_validation
  = Returned (None, Some INVALID_PREV_BLOCK_HASH) /\
  validate_unfinished_block env validate_unfinished_header_block self block
    skip_overflow_ss_validation
  = (Returned {| PreValidationResult.error :=
                   Some (Err_value env INVALID_PREV_BLOCK_HASH);
                 PreValidationResult.required_iters := None |}, self).
Proof.
  intros Hparent Hgen Hcode.
  assert (Hheader : validate_unfinished_block_header env
                      validate_unfinished_header_block self block
                      skip_overflow_ss_validation
                    = Returned (None, Some INVALID_PREV_BLOCK_HASH)).
  { unfold validate_unfinished_block_header. rewrite contains_block_lookup, Hparent.
    rewrite bool_decide_eq_false_2 by (by intros [? ?]).
    by rewrite bool_decide_eq_true_2. }
  split; [exact Hheader|].
  unfold validate_unfinished_block. rewrite Hheader.
  unfold error_pre_validation_result, uint16. by rewrite sized_uint_in_range.
Qed.

(** X25. What [validate_unfinished_block] changes and what its result
    means, on every input. Of the chain only the execution client can
    differ afterwards, and of the client only the log of calls, which
    grows by nothing or by one [new_payload] of the block's payload:
    [forkchoice_update] is never asked for an unfinished block. A result
    without an error comes with the required iterations of a header
    validation that found no error; a result with an error has no required
    iterations. When the header validation does not return without error,
    no engine call is made. *)
Theorem validate_unfinished_block_frame (self : Blockchain)
    (block : UnfinishedBlock.t) (skip_overflow_ss_validation : bool) :
  let run := validate_unfinished_block env validate_unfinished_header_block self
               block skip_overflow_ss_validation in
  let header := validate_unfinished_block_header env validate_unfinished_header_block
                  self block skip_overflow_ss_validation in
  (exists ec,
      run.2 = set_execution_client self ec /\
      respond ec = respond (execution_client self) /\
      config ec = config (execution_client self) /\
      (calls ec = calls (execution_client self) \/
       exists payload,
         UnfinishedBlock.execution_payload block = Some payload /\
         calls ec = calls (execution_client self) ++ [NewPayload payload])) /\
  (forall res, run.1 = Returned res ->
     match PreValidationResult.error res with
     | None => header = Returned (PreValidationResult.required_iters res, None)
     | Some _ => PreValidationResult.required_iters res = None
     end) /\
  ((forall required_iters, header ≠ Returned (required_iters, None)) -> run.2 = self).
Proof.
  intros run header. subst run header.
  assert (Hsame : exists ec,
             self = set_execution_client self ec /\
             respond ec = respond (execution_client self) /\
             config ec = config (execution_client self) /\
             (calls ec = calls (execution_client self) \/
              exists payload,
                UnfinishedBlock.execution_payload block = Some payload /\
                calls ec = calls (execution_client self) ++ [NewPayload payload])).
  { exists (execution_client self). rewrite set_execution_client_same.
    split; [done|]. split; [done|]. split; [done|]. by left. }
  assert (Herr : forall e res,
             error_pre_validation_result env e = Returned res ->
             match PreValidationResult.error res with
             | None => validate_unfinished_block_header env
                         validate_unfinished_header_block self block
                         skip_overflow_ss_validation
                       = Returned (PreValidationResult.required_iters res, None)
             | Some _ => PreValidationResult.required_iters res = None
             end).
  { intros e res. unfold error_pre_validation_result.
    destruct (uint16 _); simpl; [|done ..]. by intros [= <-]. }
  unfold validate_unfinished_block.
  destruct (validate_unfinished_block_header _ _ _ _ _)
    as [[required_iters [error|]]|e|] eqn:Hheader; simpl.
  - split; [exact Hsame|]. split; [apply Herr | done].
  - destruct (_ ≫= _) as [h|e|]; simpl.
    2,3: split; [exact Hsame|]; split; [done|]; intros Hno; by edestruct Hno.
    pose proof (validate_block_body_unfinished_calls (execution_client self) block h None)
      as (_ & Hrespond & Hconfig & Hcalls).
    destruct (validate_block_body _ _ _ _) as [[[code|]|e|] ec]; simpl in *.
    all: split; [| split; [first [apply Herr | done | by intros res [= <-]]
                          | intros Hno; by edestruct Hno]].
    all: exists ec; split; [done|]; split; [done|]; split; [done|].
    all: destruct Hcalls as [[Hc _]|Hc]; [by left | by right].
  - split; [exact Hsame|]. done.
  - split; [exact Hsame|]. done.
Qed.

(** X26. [validate_unfinished_block] returns a result whenever the header
    validator returns (whatever it returns): neither subscript fails,
    since the parent is looked up only after [contains_block] or the
    comparison with the genesis challenge let it through, and the height
    given to the body validation is never checked against an unfinished
    block. The parent's height is below [2^32 - 1], and the codes of the
    errors that can be reported are [uint16]s. *)
Theorem validate_unfinished_block_returns (self : Blockchain)
    (block : UnfinishedBlock.t) (skip_overflow_ss_validation : bool) :
  (forall d s, exists required_iters error,
      validate_unfinished_header_block (constants self) self block d s
        skip_overflow_ss_validation = Returned (required_iters, error) /\
      forall e, error = Some e -> 0 <= Err_value env e < 2 ^ 16) ->
  Forall (fun e => 0 <= Err_value env e < 2 ^ 16)
    [INVALID_PREV_BLOCK_HASH; PAYLOAD_INVALIDATED; PAYLOAD_NOT_VALIDATED; UNKNOWN] ->
  (forall r, __block_records self !! UnfinishedBlock.prev_header_hash block = Some r ->
             0 <= height r + 1 < 2 ^ 32) ->
  exists res,
    (validate_unfinished_block env validate_unfinished_header_block self block
       skip_overflow_ss_validation).1 = Returned res.
Proof.
  intros Hv Hcodes Hheight.
  apply Forall_cons in Hcodes as [Hc1 Hcodes].
  apply Forall_cons in Hcodes as [Hc2 Hcodes].
  apply Forall_cons in Hcodes as [Hc3 Hcodes].
  apply Forall_cons in Hcodes as [Hc4 _].
  assert (Herr : forall e, 0 <= Err_value env e < 2 ^ 16 ->
             exists res, error_pre_validation_result env e = Returned res).
  { intros e He. unfold error_pre_validation_result, uint16.
    rewrite sized_uint_in_range by done. simpl. eauto. }
  assert (Hbody : forall h required_iters,
             exists res,
               (let '(error_code, ec) :=
                  validate_block_body (execution_client self) (Unfinished block) h None in
                match error_code with
                | Raised e => (Raised e, set_execution_client self ec)
                | OutOfFuel => (OutOfFuel, set_execution_client self ec)
                | Returned (Some error_code) =>
                    (error_pre_validation_result env error_code,
                     set_execution_client self ec)
                | Returned None =>
                    (Returned {| PreValidationResult.error := None;
                                 PreValidationResult.required_iters := required_iters |},
                     set_execution_client self ec)
                end).1 = Returned res).
  { intros h required_iters.
    pose proof (validate_block_body_unfinished_calls (execution_client self) block h None)
      as ((code & Hcode & Hin) & _).
    destruct (validate_block_body _ _ _ _) as [code' ec]. simpl in Hcode. subst code'.
    rewrite !elem_of_cons in Hin.
    destruct Hin as [->|[->|[->|[->|Hin]]]]; simpl;
      [eauto | by apply Herr | by apply Herr | by apply Herr
       | by apply elem_of_nil in Hin]. }
  unfold validate_unfinished_block, validate_unfinished_block_header.
  rewrite contains_block_lookup, try_block_record_lookup.
  destruct (__block_records self !! UnfinishedBlock.prev_header_hash block)
    as [parent|] eqn:Hparent.
  - rewrite bool_decide_eq_true_2 by eauto. simpl.
    destruct (get_next_sub_slot_iters_and_difficulty _ _ _ _ _ _ _) as [s d].
    destruct (Hv d s) as (required_iters & error & -> & He). simpl.
    destruct error as [e|]; simpl; [by apply Herr, He|].
    case_bool_decide; simpl.
    + apply Hbody.
    + unfold dict_get. rewrite Hparent. simpl. unfold uint32.
      rewrite sized_uint_in_range by (by apply Hheight). apply Hbody.
  - rewrite bool_decide_eq_false_2 by (by intros [? ?]). simpl.
    destruct (decide (UnfinishedBlock.prev_header_hash block
                      = GENESIS_CHALLENGE (constants self))) as [Hgen|Hgen].
    2:{ rewrite (bool_decide_eq_true_2 (_ ≠ _)) by done. simpl. by apply Herr. }
    rewrite (bool_decide_eq_false_2 (_ ≠ _)) by (intros Hne; by apply Hne). simpl.
    destruct (get_next_sub_slot_iters_and_difficulty _ _ _ _ _ _ _) as [s d].
    destruct (Hv d s) as (required_iters & error & -> & He). simpl.
    destruct error as [e|]; simpl; [by apply Herr, He|].
    rewrite bool_decide_eq_true_2 by done. simpl. apply Hbody.
Qed.
End UnfinishedBlocks.

(** On the sample chain, with a header validator that accepts: an
    unfinished block on the unknown parent 77. *)
Lemma validate_unfinished_block_unknown_parent_witness :
  validate_unfinished_block sample_env (fun _ _ _ _ _ _ => Returned (Some 1, None))
    sample_chain (sample_unfinished 77 (Some 5)) true
  = (Returned {| PreValidationResult.error := Some 2;
                 PreValidationResult.required_iters := None |}, sample_chain).
Proof.
  apply (validate_unfinished_block_unknown_parent sample_env
           (fun _ _ _ _ _ _ => Returned (Some 1, None)) sample_chain
           (sample_unfinished 77 (Some 5)) true).
  - reflexivity.
  - intros H. vm_compute in H. discriminate H.
  - simpl. lia.
Defined.

(** On the sample chain, with a header validator that accepts: an
    unfinished block on the peak, block 3. *)
Lemma validate_unfinished_block_returns_witness :
  exists res,
    (validate_unfinished_block sample_env (fun _ _ _ _ _ _ => Returned (Some 1, None))
       sample_chain (sample_unfinished 3 (Some 5)) true).1 = Returned res.
Proof.
  apply (validate_unfinished_block_returns sample_env
           (fun _ _ _ _ _ _ => Returned (Some 1, None)) sample_chain
           (sample_unfinished 3 (Some 5)) true).
  - intros d s. exists (Some 1), None. split; [reflexivity|]. discriminate.
  - repeat constructor; simpl; lia.
  - intros r Hr. vm_compute in Hr. injection Hr as <-. simpl. lia.
Defined.
